(** * Bio.Align.hhr: the hhr alignment iterator

    A shallow embedding of [src/Bio/Align/hhr.py] (class
    [AlignmentIterator]: [__init__], [_create_alignment], [parse]) and the
    properties of the parser that its specification states.

    Conventions of the embedding.
    - A Python [str] is a [string]; its characters are the code points
      below 256.  [int] is [Z] (Python integers are unbounded); the rows
      of the array of coordinates hold 64-bit integers.
    - The text stream is the list of the lines it still has to deliver.
    - A Python exception is a value of [exn]; a computation that may raise
      returns a [result].
    - The generator [parse] is run to exhaustion: the records it yields, how
      it stops, and the lines left in the stream. *)

From Stdlib Require Import ZArith String Ascii List Bool Lia.
From stdpp Require Import base option gmap strings list.

Local Open Scope string_scope.
Local Open Scope Z_scope.

(** ** Python's [str] methods used by the parser *)

Module Str.

(** [str.isspace] on one character (code points below 256). *)
Definition isspace (c : ascii) : bool :=
  let n := N_of_ascii c in
  ((9 <=? n) && (n <=? 13) || (28 <=? n) && (n <=? 32)
   || (n =? 133) || (n =? 160))%N.

Definition len (s : string) : Z := Z.of_nat (String.length s).

(** [s.lstrip(chars)], [s.rstrip(chars)] with the stripped characters
    given as a predicate. *)
Fixpoint lstrip_by (p : ascii → bool) (s : string) : string :=
  match s with
  | "" => ""
  | String c s' => if p c then lstrip_by p s' else s
  end.

Fixpoint rstrip_by (p : ascii → bool) (s : string) : string :=
  match s with
  | "" => ""
  | String c s' =>
      match rstrip_by p s' with
      | "" => if p c then "" else String c ""
      | r => String c r
      end
  end.

Definition lstrip : string → string := lstrip_by isspace.
Definition rstrip : string → string := rstrip_by isspace.
Definition strip (s : string) : string := lstrip (rstrip s).

(** [value.rstrip("%")] *)
Definition rstrip_percent : string → string :=
  rstrip_by (λ c, Ascii.eqb c "%").

(** [s.split()]: the maximal runs of non-whitespace characters. *)
Fixpoint split (s : string) : list string :=
  match s with
  | "" => []
  | String c s' =>
      if isspace c then split s'
      else match s' with
           | "" => [String c ""]
           | String c' _ =>
               if isspace c' then String c "" :: split s'
               else match split s' with
                    | w :: ws => String c w :: ws
                    | [] => [String c ""]
                    end
           end
  end.

(** The first token of a string that starts with a non-space character,
    and what follows it. *)
Fixpoint span_token (s : string) : string * string :=
  match s with
  | "" => ("", "")
  | String c s' =>
      if isspace c then ("", s)
      else let '(w, r) := span_token s' in (String c w, r)
  end.

(** [s.split(None, 1)]: at most two pieces; the second keeps its trailing
    whitespace. *)
Definition split1 (s : string) : list string :=
  match lstrip s with
  | "" => []
  | t => let '(w, r) := span_token t in
         match lstrip r with
         | "" => [w]
         | r' => [w; r']
         end
  end.

(** [s.rsplit(None, 1)]: the same from the right. *)
Definition rsplit1 (s : string) : list string :=
  reverse (String.rev <$> split1 (String.rev s)).

(** [s.split(sep)] for a non-empty separator: cut at every occurrence of
    [sep], scanning from the left, occurrences not overlapping.  [skip]
    counts the characters of a matched separator still to be dropped. *)
Fixpoint split_sep_go (sep s : string) (skip : nat) : list string :=
  match s with
  | "" => [""]
  | String c s' =>
      match skip with
      | S k => split_sep_go sep s' k
      | O =>
          if String.prefix sep s
          then "" :: split_sep_go sep s' (String.length sep - 1)
          else match split_sep_go sep s' 0 with
               | p :: ps => String c p :: ps
               | [] => [String c ""]
               end
      end
  end.

Definition split_sep (sep s : string) : list string := split_sep_go sep s 0.

Definition startswith (s p : string) : bool := String.prefix p s.
Definition endswith (s p : string) : bool :=
  String.prefix (String.rev p) (String.rev s).

(** [s[1:]], [s[:-1]], [s[1:-1]], [s[:n]] *)
Definition tail (s : string) : string :=
  match s with "" => "" | String _ s' => s' end.

Fixpoint init (s : string) : string :=
  match s with
  | "" => ""
  | String c s' => match s' with "" => "" | _ => String c (init s') end
  end.

Definition slice_1_m1 (s : string) : string := init (tail s).

Fixpoint take (n : nat) (s : string) : string :=
  match n, s with
  | S k, String c s' => String c (take k s')
  | _, _ => ""
  end.

(** [s.replace(c, "")] for a one-character [c]. *)
Fixpoint remove (c : ascii) (s : string) : string :=
  match s with
  | "" => ""
  | String d s' => if Ascii.eqb d c then remove c s' else String d (remove c s')
  end.

(** [" " * n]: empty when [n] is not positive. *)
Fixpoint spaces_nat (n : nat) : string :=
  match n with O => "" | S k => String " " (spaces_nat k) end.

Definition spaces (n : Z) : string := spaces_nat (Z.to_nat n).

(** [int(s)]: surrounding whitespace, an optional sign, then decimal
    digits in which single underscores may separate digits.  [None] is
    Python's [ValueError].

    The whitespace that [int] skips is not the one of [str.strip]: it is
    the ASCII whitespace (tab to carriage return, and the blank) and the
    whitespace above U+007F, which [int] turns into blanks first; the
    separators U+001C to U+001F are not skipped.  A literal of more than
    [max_str_digits] digits is refused (the interpreter's limit on the
    conversion, 4300 unless it is set otherwise). *)
Definition int_space (c : ascii) : bool :=
  let n := N_of_ascii c in
  ((9 <=? n) && (n <=? 13) || (n =? 32) || (n =? 133) || (n =? 160))%N.

Definition max_str_digits : nat := 4300.

Definition digit (c : ascii) : option Z :=
  let n := N_of_ascii c in
  if ((48 <=? n) && (n <=? 57))%N then Some (Z.of_N n - 48) else None.

Fixpoint int_digits (s : string) (acc : Z) (after_digit : bool) : option Z :=
  match s with
  | "" => if after_digit then Some acc else None
  | String c s' =>
      match digit c with
      | Some d => int_digits s' (10 * acc + d) true
      | None =>
          if Ascii.eqb c "_" && after_digit then int_digits s' acc false
          else None
      end
  end.

Fixpoint digit_count (s : string) : nat :=
  match s with
  | "" => 0
  | String c s' =>
      match digit c with
      | Some _ => S (digit_count s')
      | None => digit_count s'
      end
  end.

Definition int (s : string) : option Z :=
  let t := lstrip_by int_space (rstrip_by int_space s) in
  if (max_str_digits <? digit_count t)%nat then None
  else match t with
       | String "-" t => Z.opp <$> int_digits t 0 false
       | String "+" t => int_digits t 0 false
       | t => int_digits t 0 false
       end.

End Str.

(** ** Exceptions and results *)

(** The [assert] statements of the module, by source line. *)
Inductive assertion : Set :=
  | A_table_header      (* line 77: the column header row of the hit table *)
  | A_table_row         (* line 97: int(word) == number *)
  | A_match_columns     (* line 104: query_length == metadata["Match_columns"] *)
  | A_track_lengths     (* line 110: len(target_sequence) == len(query_sequence) *)
  | A_hit_number        (* line 203: int(value) == self.counter *)
  | A_total_open        (* total.startswith("(") *)
  | A_total_close       (* total.endswith(")") *)
  | A_query_name        (* line 220: self.query_name.startswith(key2) *)
  | A_key_T.            (* line 245: key == "T" *)

(** The ways a [ValueError] arises. *)
Inductive value_error : Set :=
  | Unpack (got : nat)               (* a, b = <list of another size> *)
  | InvalidInt (literal : string)    (* int(...) *)
  | InvalidFloat (literal : string)  (* float(...) *)
  | UnknownKey (key : string)        (* "Unknown key '%s'" *)
  | TruncatedFile                    (* "Truncated file." *)
  | AdditionalData                   (* "Found additional data after 'Done!'..." *)
  | FailedToParse (line30 : string)  (* "Failed to parse line '%s...'" *)
  | ExpectedAlignments (number counter : Z). (* "Expected %d alignments, found %d" *)

Inductive exn : Set :=
  | ValueError (v : value_error)
  | AssertionError (a : assertion)
  | AttributeError (name : string)   (* an attribute of self read before it is set *)
  | KeyError (key : string)
  | TypeError
  | IndexError
  | OverflowError                    (* a start that the row of the array cannot hold *)
  | RuntimeError                     (* StopIteration raised inside the generator *)
  | SeqError.                        (* Seq(...) refusing its arguments *)

Inductive result (A : Type) : Type :=
  | Ok (a : A)
  | Raise (e : exn).
Arguments Ok {A} a.
Arguments Raise {A} e.

(** Sequencing: the first exception raised ends the computation.  The
    notation [x ← r; k] is stdpp's, for this instance. *)
Global Instance result_bind : MBind result := λ A B k r,
  match r with
  | Ok a => k a
  | Raise e => Raise e
  end.

Definition assert (b : bool) (a : assertion) : result unit :=
  if b then Ok tt else Raise (AssertionError a).

(** Reading [self.name] when it may not have been assigned yet. *)
Definition getattr {A : Type} (name : string) (o : option A) : result A :=
  match o with
  | Some a => Ok a
  | None => Raise (AttributeError name)
  end.

(** [a, b = l] and [a, b, c, d, e, f = l] *)
Definition unpack2 (l : list string) : result (string * string) :=
  match l with
  | [a; b] => Ok (a, b)
  | _ => Raise (ValueError (Unpack (length l)))
  end.

Definition unpack6 (l : list string)
  : result (string * string * string * string * string * string) :=
  match l with
  | [a; b; c; d; e; f] => Ok (a, b, c, d, e, f)
  | _ => Raise (ValueError (Unpack (length l)))
  end.

Definition py_int (s : string) : result Z :=
  match Str.int s with
  | Some z => Ok z
  | None => Raise (ValueError (InvalidInt s))
  end.

(** The three statements shared by every line that ends in [(<total>)]:
    [assert total.startswith("(")], [assert total.endswith(")")],
    [int(total[1:-1])]. *)
Definition read_total (total : string) : result Z :=
  _ ← assert (Str.startswith total "(") A_total_open;
  _ ← assert (Str.endswith total ")") A_total_close;
  py_int (Str.slice_1_m1 total).

(** ** The containers the records are made of *)

(** [Seq({start: residues}, length=length)], recorded by the arguments it
    is constructed with: a sequence of the declared length whose residues
    are given from [seq_start] on.  [len(seq)] is [seq_length]. *)
Record Seq : Set := {
  seq_start : Z;
  seq_residues : string;
  seq_length : Z }.

(** [SeqRecord(seq, id=..., annotations=...)] with its per-letter
    annotations. *)
Record SeqRecord : Type := {
  seq : Seq;
  id : string;
  record_annotations : gmap string string;
  letter_annotations : gmap string string }.

(** Modelled from the spec: Bio/SeqRecord.py is not under src/.  The spec's
    labeled sequence has a length, and its annotation tracks are always
    exactly as long as that length: [record.letter_annotations[key] = value]
    stores only a value of the length of the sequence and raises a
    [TypeError] for any other. *)
Definition set_letter_annotation (key value : string) (r : SeqRecord)
  : result SeqRecord :=
  if (Str.len value =? seq_length (seq r))%Z
  then Ok {| seq := seq r; id := id r;
             record_annotations := record_annotations r;
             letter_annotations := <[key := value]> (letter_annotations r) |}
  else Raise TypeError.

(** Modelled from the spec: [Alignment.infer_coordinates] of
    Bio/Align/__init__.py is not under src/.  The two gapped strings are
    scanned in lockstep; a column with a gap character on one side advances
    only the other side's offset; a column with a gap character on both
    sides advances neither and belongs to no run: it is passed over, so
    that the runs are maximal; every change of the pair (target has a
    residue, query has a residue) closes a run and records a breakpoint
    (target offset, query offset); the first breakpoint is (0, 0). *)
Definition advance (idx : Z * Z) (cur : option (bool * bool)) (step : Z) : Z * Z :=
  match cur with
  | Some (t, q) => ((if t then idx.1 + step else idx.1),
                    (if q then idx.2 + step else idx.2))
  | None => idx
  end.

Fixpoint infer_go (t q : string) (cur : option (bool * bool))
    (idx : Z * Z) (step : Z) : list (Z * Z) :=
  match t, q with
  | String a t', String b q' =>
      let next := (negb (Ascii.eqb a "-"), negb (Ascii.eqb b "-")) in
      if negb (next.1 || next.2) then infer_go t' q' cur idx step
      else if bool_decide (cur = Some next) then infer_go t' q' cur idx (step + 1)
      else let idx' := advance idx cur step in
           idx' :: infer_go t' q' (Some next) idx' 1
  | _, _ => [advance idx cur step]
  end.

Definition infer_coordinates (target query : string) : list (Z * Z) :=
  match target with
  | "" => []
  | _ => infer_go target query None (0, 0) 0
  end.

(** [coordinates[row, :] += start] on the array of breakpoints, for the
    target row ([on_target]) or the query row, in three steps.  Selecting
    the row: the array of an empty path has a single axis, so that is an
    [IndexError].  The operand: adding Python's [None] is a [TypeError],
    and an integer that the 64-bit row cannot hold is refused.  The
    addition itself, in the 64 bits of the row: a sum that leaves them
    wraps around. *)
Definition int64 (z : Z) : bool := (- 2 ^ 63 <=? z) && (z <? 2 ^ 63).

Definition wrap64 (z : Z) : Z := (z + 2 ^ 63) mod 2 ^ 64 - 2 ^ 63.

Definition select_row (path : list (Z * Z)) : result unit :=
  match path with
  | [] => Raise IndexError
  | _ => Ok tt
  end.

Definition numpy_operand (start : option Z) : result Z :=
  match start with
  | Some z => if int64 z then Ok z else Raise OverflowError
  | None => Raise TypeError
  end.

Definition row_iadd (on_target : bool) (path : list (Z * Z)) (z : Z)
  : list (Z * Z) :=
  (λ p : Z * Z, if on_target then (wrap64 (p.1 + z), p.2)
                else (p.1, wrap64 (p.2 + z))) <$> path.

(** ** The hits of a file *)

(** The lines of a hit: its [No] line, its [>] line, the line after it and
    the lines of its blocks. *)
Record hit : Set := Hit {
  no_line : string;
  name_line : string;
  annotation_line : string;
  block_lines : list string }.

Definition hit_stream (h : hit) : list string :=
  no_line h :: name_line h :: annotation_line h :: block_lines h.

(** ** Stand-ins for what lies outside the module

    [float(...)] and the argument checks of the [Seq] constructor are
    parameters of the development below.  The concrete ones here serve to
    run the parser on example files. *)

Module Demo.

(** A decimal literal [m * 10^e] as the pair [(m, e)]. *)
Definition float : Set := Z * Z.

Fixpoint dec_digits (s : string) (acc frac : Z) (dot any : bool) : option float :=
  match s with
  | "" => if any then Some (acc, - frac) else None
  | String c s' =>
      match Str.digit c with
      | Some d => dec_digits s' (10 * acc + d) (if dot then frac + 1 else frac) dot true
      | None =>
          if Ascii.eqb c "." && negb dot then dec_digits s' acc frac true any
          else None
      end
  end.

Fixpoint cut_exponent (s : string) : string * option string :=
  match s with
  | "" => ("", None)
  | String c s' =>
      if Ascii.eqb c "e" || Ascii.eqb c "E" then ("", Some s')
      else let '(m, x) := cut_exponent s' in (String c m, x)
  end.

Definition float_of_string (s : string) : option float :=
  let '(m, x) := cut_exponent (Str.strip s) in
  mant ← match m with
         | String "-" t => (λ d : float, (- d.1, d.2)) <$> dec_digits t 0 0 false false
         | t => dec_digits t 0 0 false false
         end;
  ex ← match x with
       | None => Some 0
       | Some t => Str.int t
       end;
  Some (mant.1, mant.2 + ex).

(** A sequence must have a non-negative length and its residues must lie
    within it. *)
Definition Seq_accepts (start : Z) (residues : string) (length : Z) : bool :=
  (0 <=? start) && (start + Str.len residues <=? length).

(** An hhr file of two hits, the first wrapped over two blocks.  Every
    line ends with a newline character, as the stream delivers it. *)
Definition nl : string := String "010"%char "".

Definition text (lines : list string) : list string := (λ l, l +:+ nl) <$> lines.

Definition header : list string :=
  [ "Query         2UVO:A|PDBID|CHAIN|SEQUENCE";
    "Match_columns 8";
    "No_of_seqs    110 out of 1051";
    "Neff          4.5";
    "Searched_HMMs 38388";
    "Date          Fri Feb 15 16:34:13 2019";
    "Command       hhblits -i 2uvoAh.fasta -d /pdb70";
    "" ].

Definition table : list string :=
  [ " No Hit                             Prob E-value P-value  Score    SS Cols Query HMM  Template HMM";
    "  1 2uvo_A Agglutinin isolectin 1;  100.0 3.7E-34 4.8E-38  210.3   0.0  8    1-8      1-8 (8)";
    "  2 2wga   lectin (agglutinin);     99.9 5.3E-24 6.8E-28  155.3   0.0  6    2-7    2-7 (10)";
    "" ].

Definition hit1_header : string :=
  ">2uvo_A Agglutinin isolectin 1; carbohydrate-binding protein".

Definition hit1_annotations : string :=
  "Probab=99.95  E-value=3.7e-34  Score=210.31  Aligned_cols=8  Identities=100%  Similarity=2.050  Sum_probs=166.9".

(** The first block of the first hit; [total] is what its Q and T lines
    declare as [(<total>)]. *)
Definition hit1_block1 (total : string) : list string :=
  [ "";
    "Q ss_pred             CCcc";
    "Q 2UVO:A|PDBID|C    1 ERCG    4 " +:+ total;
    "Q Consensus         1 ~~cg    4 (8)";
    "                      ||||";
    "T Consensus         1 ~~cg    4 (8)";
    "T 2uvo_A            1 ERCG    4 " +:+ total;
    "T ss_dssp             CBCB";
    "T ss_pred             CCcC";
    "Confidence            7899";
    "" ].

Definition hit1_block2 : list string :=
  [ "Q ss_pred             CC-cc";
    "Q 2UVO:A|PDBID|C    5 EQ-GC    8 (8)";
    "Q Consensus         5 ~~-gc    8 (8)";
    "                      ||.++";
    "T Consensus         5 ~~kg-    7 (8)";
    "T 2uvo_A            5 EQAG-    7 (8)";
    "T ss_dssp             CCCC-";
    "T ss_pred             CCcC-";
    "Confidence            78 99";
    "" ].

Definition hit2 : list string :=
  [ "No 2";
    ">2wga lectin (agglutinin)";
    "Probab=99.90  E-value=5.3e-24  Score=155.3  Aligned_cols=6  Identities=50%  Similarity=1.1";
    "";
    "Q 2UVO:A|PDBID|C    2 RCGEQG    7 (8)";
    "Q Consensus         2 ~cg~~g    7 (8)";
    "                      ||||||";
    "T Consensus         2 ~cg~~g    7 (10)";
    "T 2wga              2 RCGSQG    7 (10)";
    "Confidence            789999";
    "" ].

Definition file_with (block1 : list string) : list string :=
  text (header ++ table
        ++ ["No 1"; hit1_header; hit1_annotations] ++ block1 ++ hit1_block2
        ++ hit2 ++ ["Done!"]).

Definition file : list string := file_with (hit1_block1 "(8)").

(** The same file with 99 as the total that the first block declares. *)
Definition file_totals : list string := file_with (hit1_block1 "(99)").

(** The second block of the first hit with 99 as the total that its Q
    sequence line declares, and the file of two hits with it. *)
Definition hit1_block2_late : list string :=
  <[1%nat := "Q 2UVO:A|PDBID|C    5 EQ-GC    8 (99)"]> hit1_block2.

Definition file_late_total : list string :=
  text (header ++ table
        ++ ["No 1"; hit1_header; hit1_annotations]
        ++ hit1_block1 "(8)" ++ hit1_block2_late
        ++ hit2 ++ ["Done!"]).

(** The same file with a Q line whose name goes on after the query
    identifier of the header. *)
Definition file_long_name : list string :=
  file_with
    [ "Q 2UVO:A|PDBID|CHAIN|SEQUENCE_1    1 ERCG    4 (8)";
      "T 2uvo_A            1 ERCG    4 (8)" ].

(** The same file with a target segment one residue short. *)
Definition file_short_target : list string :=
  text (header ++ table
        ++ ["No 1"; hit1_header; hit1_annotations;
            "Q 2UVO:A|PDBID|C    1 ERCGEQGC    8 (8)";
            "T 2uvo_A            1 ERCGEQG     7 (8)"]
        ++ hit2 ++ ["Done!"]).

(** A header with a key that the parser does not know. *)
Definition file_unknown_key : list string :=
  text [ "Query         2UVO:A|PDBID|CHAIN|SEQUENCE";
         "Match_columns 8";
         "Version       3.1";
         "";
         "No 1" ].

(** The same file with no hit at all in its table. *)
Definition file_no_hit : list string :=
  text (header
        ++ [ " No Hit                             Prob E-value P-value  Score    SS Cols Query HMM  Template HMM";
             "";
             "Done!" ]).

(** The parts of the file of two hits: the header without the blank line
    that closes it, the column header row and the rows of the hit table,
    and the two hits. *)
Definition header_part : list string := text (take 7 header).

(** Its first two lines: the query name and [Match_columns]. *)
Definition header_short : list string := text (take 2 header).

Definition table_head : string := default "" (head (text table)).

Definition rows : list string := text (take 2 (drop 1 table)).

Definition hit_1 : hit :=
  Hit ("No 1" +:+ nl) (hit1_header +:+ nl) (hit1_annotations +:+ nl)
      (text (hit1_block1 "(8)" ++ hit1_block2)).

Definition hit_2 : hit :=
  Hit (default "" (text hit2 !! 0%nat)) (default "" (text hit2 !! 1%nat))
      (default "" (text hit2 !! 2%nat)) (text (drop 3 hit2)).

(** A hit whose alignment begins after the first residue of each sequence
    and ends before the last, with a gap on each side. *)
Definition hit_inner : hit :=
  Hit ("No 1" +:+ nl) (">2wga lectin (agglutinin)" +:+ nl)
      ("Probab=99.90  E-value=5.3e-24  Score=155.3  Aligned_cols=4  Identities=50%" +:+ nl)
      (text [ "";
              "Q 2UVO:A|PDBID|C    2 RC-EQG    6 (8)";
              "Q Consensus         2 ~c-~~g    6 (8)";
              "                      ||  .|";
              "T Consensus         3 ~cg~-g    7 (10)";
              "T 2wga              3 RCGS-G    7 (10)";
              "Confidence            7899 9";
              "" ]).

(** The file of two hits without its second hit. *)
Definition file_one_hit : list string :=
  text (header ++ table) ++ hit_stream hit_1 ++ text ["Done!"].

End Demo.

(** ** The iterator *)

Section AlignmentIterator.

(** Python's [float] and [float(s)] ([None]: a [ValueError]). *)
Variable float : Type.
Variable float_of_string : string → option float.

(** Whether [Seq({start: residues}, length=length)] of Bio/Seq.py accepts
    its arguments; it raises when it does not. *)
Variable Seq_accepts : Z → string → Z → bool.

Definition py_float (s : string) : result float :=
  match float_of_string s with
  | Some x => Ok x
  | None => Raise (ValueError (InvalidFloat s))
  end.

(** The values of [self.metadata]. *)
Inductive mvalue : Type :=
  | MInt (n : Z)
  | MPair (a b : Z)
  | MFloat (x : float)
  | MStr (s : string).

(** [Alignment(records, coordinates=coordinates)] with its annotations.
    [sequences] is the list [[target, query]]; [coordinates] is the list
    of the columns of the array, each a pair (target, query). *)
Record Alignment : Type := {
  sequences : SeqRecord * SeqRecord;
  coordinates : list (Z * Z);
  alignment_annotations : gmap string float;
  column_annotations : gmap string string }.

Definition target_record (a : Alignment) : SeqRecord := (sequences a).1.
Definition query_record (a : Alignment) : SeqRecord := (sequences a).2.

(** The attributes of the iterator.  An attribute that is only assigned
    during parsing is [None] until its first assignment; reading it then
    raises an [AttributeError].  [query_start] and [target_start] hold
    Python's [None] ([Some None]) or an integer. *)
Record self : Type := Self {
  query_name : option string;
  metadata : gmap string mvalue;
  number : Z;
  counter : Z;
  hmm_name : option string;
  hmm_description : option string;
  query_ss_pred : option string;
  query_consensus : option string;
  query_sequence : option string;
  query_start : option (option Z);
  target_ss_pred : option string;
  target_consensus : option string;
  target_ss_dssp : option string;
  target_sequence : option string;
  target_start : option (option Z);
  column_score : option string;
  confidence : option string;
  annotations : option (gmap string float);
  query_length : option Z;
  target_name : option string;
  target_length : option Z }.

(** [self.x = v], one attribute at a time. *)
Definition set_counter (v : Z) (s : self) : self :=
  Self (query_name s) (metadata s) (number s) v (hmm_name s)
    (hmm_description s) (query_ss_pred s) (query_consensus s)
    (query_sequence s) (query_start s) (target_ss_pred s)
    (target_consensus s) (target_ss_dssp s) (target_sequence s)
    (target_start s) (column_score s) (confidence s) (annotations s)
    (query_length s) (target_name s) (target_length s).

Definition set_query_ss_pred (v : option string) (s : self) : self :=
  Self (query_name s) (metadata s) (number s) (counter s) (hmm_name s)
    (hmm_description s) v (query_consensus s) (query_sequence s)
    (query_start s) (target_ss_pred s) (target_consensus s)
    (target_ss_dssp s) (target_sequence s) (target_start s) (column_score s)
    (confidence s) (annotations s) (query_length s) (target_name s)
    (target_length s).

Definition set_query_consensus (v : option string) (s : self) : self :=
  Self (query_name s) (metadata s) (number s) (counter s) (hmm_name s)
    (hmm_description s) (query_ss_pred s) v (query_sequence s)
    (query_start s) (target_ss_pred s) (target_consensus s)
    (target_ss_dssp s) (target_sequence s) (target_start s) (column_score s)
    (confidence s) (annotations s) (query_length s) (target_name s)
    (target_length s).

Definition set_query_sequence (v : option string) (s : self) : self :=
  Self (query_name s) (metadata s) (number s) (counter s) (hmm_name s)
    (hmm_description s) (query_ss_pred s) (query_consensus s) v
    (query_start s) (target_ss_pred s) (target_consensus s)
    (target_ss_dssp s) (target_sequence s) (target_start s) (column_score s)
    (confidence s) (annotations s) (query_length s) (target_name s)
    (target_length s).

Definition set_query_start (v : option (option Z)) (s : self) : self :=
  Self (query_name s) (metadata s) (number s) (counter s) (hmm_name s)
    (hmm_description s) (query_ss_pred s) (query_consensus s)
    (query_sequence s) v (target_ss_pred s) (target_consensus s)
    (target_ss_dssp s) (target_sequence s) (target_start s) (column_score s)
    (confidence s) (annotations s) (query_length s) (target_name s)
    (target_length s).

Definition set_target_ss_pred (v : option string) (s : self) : self :=
  Self (query_name s) (metadata s) (number s) (counter s) (hmm_name s)
    (hmm_description s) (query_ss_pred s) (query_consensus s)
    (query_sequence s) (query_start s) v (target_consensus s)
    (target_ss_dssp s) (target_sequence s) (target_start s) (column_score s)
    (confidence s) (annotations s) (query_length s) (target_name s)
    (target_length s).

Definition set_target_consensus (v : option string) (s : self) : self :=
  Self (query_name s) (metadata s) (number s) (counter s) (hmm_name s)
    (hmm_description s) (query_ss_pred s) (query_consensus s)
    (query_sequence s) (query_start s) (target_ss_pred s) v
    (target_ss_dssp s) (target_sequence s) (target_start s) (column_score s)
    (confidence s) (annotations s) (query_length s) (target_name s)
    (target_length s).

Definition set_target_ss_dssp (v : option string) (s : self) : self :=
  Self (query_name s) (metadata s) (number s) (counter s) (hmm_name s)
    (hmm_description s) (query_ss_pred s) (query_consensus s)
    (query_sequence s) (query_start s) (target_ss_pred s)
    (target_consensus s) v (target_sequence s) (target_start s)
    (column_score s) (confidence s) (annotations s) (query_length s)
    (target_name s) (target_length s).

Definition set_target_sequence (v : option string) (s : self) : self :=
  Self (query_name s) (metadata s) (number s) (counter s) (hmm_name s)
    (hmm_description s) (query_ss_pred s) (query_consensus s)
    (query_sequence s) (query_start s) (target_ss_pred s)
    (target_consensus s) (target_ss_dssp s) v (target_start s)
    (column_score s) (confidence s) (annotations s) (query_length s)
    (target_name s) (target_length s).

Definition set_target_start (v : option (option Z)) (s : self) : self :=
  Self (query_name s) (metadata s) (number s) (counter s) (hmm_name s)
    (hmm_description s) (query_ss_pred s) (query_consensus s)
    (query_sequence s) (query_start s) (target_ss_pred s)
    (target_consensus s) (target_ss_dssp s) (target_sequence s) v
    (column_score s) (confidence s) (annotations s) (query_length s)
    (target_name s) (target_length s).

Definition set_column_score (v : option string) (s : self) : self :=
  Self (query_name s) (metadata s) (number s) (counter s) (hmm_name s)
    (hmm_description s) (query_ss_pred s) (query_consensus s)
    (query_sequence s) (query_start s) (target_ss_pred s)
    (target_consensus s) (target_ss_dssp s) (target_sequence s)
    (target_start s) v (confidence s) (annotations s) (query_length s)
    (target_name s) (target_length s).

Definition set_confidence (v : option string) (s : self) : self :=
  Self (query_name s) (metadata s) (number s) (counter s) (hmm_name s)
    (hmm_description s) (query_ss_pred s) (query_consensus s)
    (query_sequence s) (query_start s) (target_ss_pred s)
    (target_consensus s) (target_ss_dssp s) (target_sequence s)
    (target_start s) (column_score s) v (annotations s) (query_length s)
    (target_name s) (target_length s).

Definition set_annotations (v : option (gmap string float)) (s : self) : self :=
  Self (query_name s) (metadata s) (number s) (counter s) (hmm_name s)
    (hmm_description s) (query_ss_pred s) (query_consensus s)
    (query_sequence s) (query_start s) (target_ss_pred s)
    (target_consensus s) (target_ss_dssp s) (target_sequence s)
    (target_start s) (column_score s) (confidence s) v (query_length s)
    (target_name s) (target_length s).

Definition set_query_length (v : option Z) (s : self) : self :=
  Self (query_name s) (metadata s) (number s) (counter s) (hmm_name s)
    (hmm_description s) (query_ss_pred s) (query_consensus s)
    (query_sequence s) (query_start s) (target_ss_pred s)
    (target_consensus s) (target_ss_dssp s) (target_sequence s)
    (target_start s) (column_score s) (confidence s) (annotations s) v
    (target_name s) (target_length s).

Definition set_target_name (v : option string) (s : self) : self :=
  Self (query_name s) (metadata s) (number s) (counter s) (hmm_name s)
    (hmm_description s) (query_ss_pred s) (query_consensus s)
    (query_sequence s) (query_start s) (target_ss_pred s)
    (target_consensus s) (target_ss_dssp s) (target_sequence s)
    (target_start s) (column_score s) (confidence s) (annotations s)
    (query_length s) v (target_length s).

Definition set_target_length (v : option Z) (s : self) : self :=
  Self (query_name s) (metadata s) (number s) (counter s) (hmm_name s)
    (hmm_description s) (query_ss_pred s) (query_consensus s)
    (query_sequence s) (query_start s) (target_ss_pred s)
    (target_consensus s) (target_ss_dssp s) (target_sequence s)
    (target_start s) (column_score s) (confidence s) (annotations s)
    (query_length s) (target_name s) v.

(** *** [__init__] *)

(** One line of the header, lines 54-71. *)
Definition header_line (line : string)
    (st : option string * gmap string mvalue)
  : result (option string * gmap string mvalue) :=
  let '(query_name, metadata) := st in
  '(key, value) ← unpack2 (Str.split1 line);
  if bool_decide (key = "Query") then Ok (Some value, metadata)
  else if bool_decide (key = "Match_columns") then
    n ← py_int value; Ok (query_name, <[key := MInt n]> metadata)
  else if bool_decide (key = "No_of_seqs") then
    '(value1, value2) ← unpack2 (Str.split_sep " out of " value);
    a ← py_int value1;
    b ← py_int value2;
    Ok (query_name, <[key := MPair a b]> metadata)
  else if bool_decide (key = "Neff") || bool_decide (key = "Template_Neff") then
    x ← py_float value; Ok (query_name, <[key := MFloat x]> metadata)
  else if bool_decide (key = "Searched_HMMs") then
    n ← py_int value; Ok (query_name, <[key := MInt n]> metadata)
  else if bool_decide (key = "Date") then
    Ok (query_name, <["Rundate" := MStr value]> metadata)
  else if bool_decide (key = "Command") then
    Ok (query_name, <["Command line" := MStr value]> metadata)
  else Raise (ValueError (UnknownKey key)).

(** The loop of lines 50-71: up to and including the first blank line.
    Returns the state and the lines left in the stream. *)
Fixpoint read_header (stream : list string)
    (st : option string * gmap string mvalue)
  : result (option string * gmap string mvalue * list string) :=
  match stream with
  | [] => Ok (st, [])
  | line :: stream' =>
      let line := Str.strip line in
      if bool_decide (line = "") then Ok (st, stream')
      else match header_line line st with
           | Ok st' => read_header stream' st'
           | Raise e => Raise e
           end
  end.

Definition table_header : list string :=
  ["No"; "Hit"; "Prob"; "E-value"; "P-value"; "Score"; "SS"; "Cols";
   "Query"; "HMM"; "Template"; "HMM"].

(** The loop of lines 92-97 over the rows of the hit table. *)
Fixpoint read_table (stream : list string) (number : Z)
  : result (Z * list string) :=
  match stream with
  | [] => Ok (number, [])
  | line :: stream' =>
      if bool_decide (Str.strip line = "") then Ok (number, stream')
      else
        let number := number + 1 in
        match ('(word, _) ← unpack2 (Str.split1 line);
               w ← py_int word;
               assert (w =? number)%Z A_table_row) with
        | Ok _ => read_table stream' number
        | Raise e => Raise e
        end
  end.

(** [AlignmentIterator(source)]: the iterator and the lines left in the
    stream. *)
Definition __init__ (stream : list string) : result (self * list string) :=
  '(query_name, metadata, stream) ← read_header stream (None, ∅);
  match stream with
  | [] => Raise (ValueError TruncatedFile)
  | line :: stream =>
      _ ← assert (bool_decide (Str.split line = table_header)) A_table_header;
      '(number, stream) ← read_table stream 0;
      Ok (Self query_name metadata number 0 None None None None None None
               None None None None None None None None None None None,
          stream)
  end.

(** The iterator as [__init__] leaves it for a header that gives the query
    name and [Match_columns] only and a hit table of [number] rows. *)
Definition fresh_iterator (query_name : string) (match_columns number : Z) : self :=
  Self (Some query_name) {["Match_columns" := MInt match_columns]} number 0
       None None None None None None None None None None None None None None
       None None None.

(** *** [_create_alignment] *)

Definition Seq_new (start : Z) (residues : string) (length : Z) : result Seq :=
  if Seq_accepts start residues length
  then Ok {| seq_start := start; seq_residues := residues;
             seq_length := length |}
  else Raise SeqError.

(** The padding of an annotation track, as in lines 125-126:
    [track = " " * start + track; track += " " * (length - len(track))]. *)
Definition pad_track (start length : Z) (track : string) : string :=
  let track := Str.spaces start +:+ track in
  track +:+ Str.spaces (length - Str.len track).

Definition _create_alignment (s : self) : result Alignment :=
  query_name ← getattr "query_name" (query_name s);
  query_length ← getattr "query_length" (query_length s);
  match_columns ← from_option Ok (Raise (KeyError "Match_columns"))
                    (metadata s !! "Match_columns");
  _ ← assert (match match_columns with
              | MInt n => query_length =? n
              | _ => false
              end) A_match_columns;
  target_name ← getattr "target_name" (target_name s);
  hmm_name ← getattr "hmm_name" (hmm_name s);
  hmm_description ← getattr "hmm_description" (hmm_description s);
  query_sequence ← getattr "query_sequence" (query_sequence s);
  target_sequence ← getattr "target_sequence" (target_sequence s);
  _ ← assert (Str.len target_sequence =? Str.len query_sequence) A_track_lengths;
  let coordinates := infer_coordinates target_sequence query_sequence in
  _ ← select_row coordinates;
  target_start ← getattr "target_start" (target_start s);
  target_start ← numpy_operand target_start;
  let coordinates := row_iadd true coordinates target_start in
  _ ← select_row coordinates;
  query_start ← getattr "query_start" (query_start s);
  query_start ← numpy_operand query_start;
  let coordinates := row_iadd false coordinates query_start in
  let query_sequence := Str.remove "-" query_sequence in
  query_seq ← Seq_new query_start query_sequence query_length;
  let query := {| seq := query_seq; id := query_name;
                  record_annotations := ∅; letter_annotations := ∅ |} in
  let target_sequence := Str.remove "-" target_sequence in
  target_length ← getattr "target_length" (target_length s);
  target_seq ← Seq_new target_start target_sequence target_length;
  let target_annotations : gmap string string :=
    <["hmm_description" := hmm_description]> {["hmm_name" := hmm_name]} in
  let target := {| seq := target_seq; id := target_name;
                   record_annotations := target_annotations;
                   letter_annotations := ∅ |} in
  query_consensus ← getattr "query_consensus" (query_consensus s);
  query ← set_letter_annotation "Consensus"
            (pad_track query_start query_length (Str.remove "-" query_consensus))
            query;
  target_consensus ← getattr "target_consensus" (target_consensus s);
  target ← set_letter_annotation "Consensus"
             (pad_track target_start target_length (Str.remove "-" target_consensus))
             target;
  target_ss_dssp ← getattr "target_ss_dssp" (target_ss_dssp s);
  target ← set_letter_annotation "ss_dssp"
             (pad_track target_start target_length (Str.remove "-" target_ss_dssp))
             target;
  query_ss_pred ← getattr "query_ss_pred" (query_ss_pred s);
  query ← set_letter_annotation "ss_pred"
            (pad_track query_start query_length (Str.remove "-" query_ss_pred))
            query;
  target_ss_pred ← getattr "target_ss_pred" (target_ss_pred s);
  target ← set_letter_annotation "ss_pred"
             (pad_track target_start target_length (Str.remove "-" target_ss_pred))
             target;
  confidence ← getattr "confidence" (confidence s);
  target ← set_letter_annotation "Confidence"
             (pad_track target_start target_length (Str.remove " " confidence))
             target;
  annotations ← getattr "annotations" (annotations s);
  column_score ← getattr "column_score" (column_score s);
  Ok {| sequences := (target, query);
        coordinates := coordinates;
        alignment_annotations := annotations;
        column_annotations := {["column score" := column_score]} |}.

(** *** [parse] *)

(** The branch of the [if]/[elif] chain of lines 161-256 that a line
    (already right-stripped) takes. *)
Inductive tag : Set :=
  | Blank | Header | Done | Score | No | Confidence
  | Q_ss_pred | Q_Consensus | Q_sequence
  | T_ss_pred | T_ss_dssp | T_Consensus | T_sequence
  | Unparsable.

#[global] Instance tag_eq_dec : EqDecision tag.
Proof. solve_decision. Defined.

Definition classify (line : string) : tag :=
  if bool_decide (line = "") then Blank
  else if Str.startswith line ">" then Header
  else if bool_decide (line = "Done!") then Done
  else if Str.startswith line " " then Score
  else if Str.startswith line "No " then No
  else if Str.startswith line "Confidence" then Confidence
  else if Str.startswith line "Q ss_pred " then Q_ss_pred
  else if Str.startswith line "Q Consensus " then Q_Consensus
  else if Str.startswith line "Q " then Q_sequence
  else if Str.startswith line "T ss_pred " then T_ss_pred
  else if Str.startswith line "T ss_dssp " then T_ss_dssp
  else if Str.startswith line "T Consensus " then T_Consensus
  else if Str.startswith line "T " then T_sequence
  else Unparsable.

(** Lines 164-175: the names from the [>] line, and every track reset. *)
Definition reset_hit (s : self) (line : string) : result self :=
  '(hmm_name, hmm_description) ← unpack2 (Str.split1 (Str.tail line));
  Ok (Self (query_name s) (metadata s) (number s) (counter s)
           (Some hmm_name) (Some hmm_description)
           (Some "") (Some "") (Some "") (Some None)
           (Some "") (Some "") (Some "") (Some "") (Some None)
           (Some "") (Some "")
           (annotations s) (query_length s) (target_name s) (target_length s)).

(** Lines 179-186: the loop over the [key=value] words. *)
Fixpoint annotation_words (words : list string) (annotations : gmap string float)
  : result (gmap string float) :=
  match words with
  | [] => Ok annotations
  | word :: words' =>
      match unpack2 (Str.split_sep "=" word) with
      | Raise e => Raise e
      | Ok (key, value) =>
          if bool_decide (key = "Aligned_cols")
          then annotation_words words' annotations
          else
            let value := if bool_decide (key = "Identities")
                         then Str.rstrip_percent value else value in
            match py_float value with
            | Raise e => Raise e
            | Ok x => annotation_words words' (<[key := x]> annotations)
            end
      end
  end.

(** Lines 177-186, on the line that follows the [>] line. *)
Definition read_annotations (line : string) : result (gmap string float) :=
  annotation_words (Str.split line) ∅.

(** [self.x += value] on a text attribute. *)
Definition iadd (name : string) (attr : option string) (value : string)
  : result (option string) :=
  x ← getattr name attr; Ok (Some (x +:+ value)).

(** The branches that only accumulate: lines 196-197 and 204-254. *)
Definition accumulate (s : self) (t : tag) (line : string) : result self :=
  match t with
  | Score =>
      x ← iadd "column_score" (column_score s) (Str.strip line);
      Ok (set_column_score x s)
  | Confidence =>
      '(key, value) ← unpack2 (Str.split1 line);
      x ← iadd "confidence" (confidence s) value;
      Ok (set_confidence x s)
  | Q_ss_pred =>
      '(key, value) ← unpack2 (Str.rsplit1 line);
      x ← iadd "query_ss_pred" (query_ss_pred s) value;
      Ok (set_query_ss_pred x s)
  | Q_Consensus =>
      '(key1, key2, start, consensus, end_, total) ← unpack6 (Str.split line);
      start ← py_int start;
      end_ ← py_int end_;
      total ← read_total total;
      x ← iadd "query_consensus" (query_consensus s) consensus;
      Ok (set_query_consensus x s)
  | Q_sequence =>
      '(key1, key2, start, sequence, end_, total) ← unpack6 (Str.split line);
      query_name ← getattr "query_name" (query_name s);
      _ ← assert (Str.startswith query_name key2) A_query_name;
      start ← py_int start;
      let start := start - 1 in
      end_ ← py_int end_;
      total ← read_total total;
      let s := set_query_length (Some total) s in
      query_start ← getattr "query_start" (query_start s);
      let s := match query_start with
               | None => set_query_start (Some (Some start)) s
               | Some _ => s
               end in
      x ← iadd "query_sequence" (query_sequence s) sequence;
      Ok (set_query_sequence x s)
  | T_ss_pred =>
      '(key, value) ← unpack2 (Str.rsplit1 line);
      x ← iadd "target_ss_pred" (target_ss_pred s) value;
      Ok (set_target_ss_pred x s)
  | T_ss_dssp =>
      '(key, value) ← unpack2 (Str.rsplit1 line);
      x ← iadd "target_ss_dssp" (target_ss_dssp s) value;
      Ok (set_target_ss_dssp x s)
  | T_Consensus =>
      '(key1, key2, start, consensus, end_, total) ← unpack6 (Str.split line);
      start ← py_int start;
      end_ ← py_int end_;
      total ← read_total total;
      x ← iadd "target_consensus" (target_consensus s) consensus;
      Ok (set_target_consensus x s)
  | T_sequence =>
      '(key, name, start, sequence, end_, total) ← unpack6 (Str.split line);
      _ ← assert (bool_decide (key = "T")) A_key_T;
      let s := set_target_name (Some name) s in
      start ← py_int start;
      let start := start - 1 in
      end_ ← py_int end_;
      total ← read_total total;
      let s := set_target_length (Some total) s in
      target_start ← getattr "target_start" (target_start s);
      let s := match target_start with
               | None => set_target_start (Some (Some start)) s
               | Some _ => s
               end in
      x ← iadd "target_sequence" (target_sequence s) sequence;
      Ok (set_target_sequence x s)
  | _ => Raise (ValueError (FailedToParse (Str.take 30 line)))
  end.

(** How the generator stops, and what running it to the end gives: the
    records yielded in order, the way it stopped, and the lines left in
    the stream. *)
Inductive outcome : Set :=
  | Returned
  | Raised (e : exn).

Record run : Type := Run {
  yielded : list Alignment;
  stopped : outcome;
  stream_left : list string }.

Definition yield (r : Alignment) (k : run) : run :=
  Run (r :: yielded k) (stopped k) (stream_left k).

(** Lines 199-203, from the [counter += 1] on. *)
Definition count_hit (s : self) (line : string) : result self :=
  let s := set_counter (counter s + 1) s in
  '(key, value) ← unpack2 (Str.split line);
  n ← py_int value;
  _ ← assert (n =? counter s) A_hit_number;
  Ok s.

(** Lines 257-261, after the stream is exhausted. *)
Definition after_loop (s : self) : run :=
  match _create_alignment s with
  | Raise e => Run [] (Raised e) []
  | Ok r =>
      Run [r]
          (if bool_decide (number s ≠ counter s)
           then Raised (ValueError (ExpectedAlignments (number s) (counter s)))
           else Returned)
          []
  end.

(** The [for] loop of lines 159-256 and what follows it. *)
Fixpoint parse_loop (s : self) (stream : list string) : run :=
  match stream with
  | [] => after_loop s
  | line :: stream' =>
      let line := Str.rstrip line in
      match classify line with
      | Blank => parse_loop s stream'
      | Header =>
          match reset_hit s line with
          | Raise e => Run [] (Raised e) stream'
          | Ok s =>
              match stream' with
              | [] => Run [] (Raised RuntimeError) []
              | line :: stream'' =>
                  match read_annotations line with
                  | Raise e => Run [] (Raised e) stream''
                  | Ok a => parse_loop (set_annotations (Some a) s) stream''
                  end
              end
          end
      | Done =>
          match stream' with
          | [] => parse_loop s stream'
          | _ :: stream'' => Run [] (Raised (ValueError AdditionalData)) stream''
          end
      | No =>
          if 0 <? counter s then
            match _create_alignment s with
            | Raise e => Run [] (Raised e) stream'
            | Ok r =>
                match count_hit s line with
                | Raise e => Run [r] (Raised e) stream'
                | Ok s => yield r (parse_loop s stream')
                end
            end
          else
            match count_hit s line with
            | Raise e => Run [] (Raised e) stream'
            | Ok s => parse_loop s stream'
            end
      | t =>
          match accumulate s t line with
          | Raise e => Run [] (Raised e) stream'
          | Ok s => parse_loop s stream'
          end
      end
  end.

Definition parse (s : self) (stream : list string) : run :=
  if bool_decide (number s = 0) then Run [] Returned stream
  else parse_loop s stream.

(** Reading a whole file: construct the iterator, then exhaust it.  When
    the constructor raises there is no iterator to ask for records. *)
Definition read (stream : list string) : result run :=
  '(s, stream) ← __init__ stream; Ok (parse s stream).

(** ** The vocabulary of the properties *)

(** [number], [metadata] and [query_name] are assigned by [__init__]
    only. *)
Definition same_source (s s' : self) : Prop :=
  number s' = number s ∧ metadata s' = metadata s
  ∧ query_name s' = query_name s.

(** The track [attr] of the iterator, its [gap] characters removed, is
    attached to [rec] under [key], padded, and as long as the sequence. *)
Definition track_attached (attr : option string) (gap : ascii)
    (rec : SeqRecord) (key : string) : Prop :=
  ∃ t, attr = Some t
       ∧ letter_annotations rec !! key
         = Some (pad_track (seq_start (seq rec)) (seq_length (seq rec))
                   (Str.remove gap t))
       ∧ Str.len (pad_track (seq_start (seq rec)) (seq_length (seq rec))
                    (Str.remove gap t))
         = seq_length (seq rec).

(** The record [r] that [_create_alignment] returns in state [s]. *)
Record built_from (s : self) (r : Alignment) : Prop := {
  b_query_id : query_name s = Some (id (query_record r));
  b_target_id : target_name s = Some (id (target_record r));
  b_query_length : query_length s = Some (seq_length (seq (query_record r)));
  b_target_length : target_length s = Some (seq_length (seq (target_record r)));
  b_match_columns :
    metadata s !! "Match_columns"
    = Some (MInt (seq_length (seq (query_record r))));
  b_query_start : query_start s = Some (Some (seq_start (seq (query_record r))));
  b_target_start : target_start s = Some (Some (seq_start (seq (target_record r))));
  b_sequences :
    ∃ ts qs, target_sequence s = Some ts ∧ query_sequence s = Some qs
             ∧ Str.len ts = Str.len qs
             ∧ seq_residues (seq (target_record r)) = Str.remove "-" ts
             ∧ seq_residues (seq (query_record r)) = Str.remove "-" qs
             ∧ coordinates r
               = row_iadd false
                   (row_iadd true (infer_coordinates ts qs)
                      (seq_start (seq (target_record r))))
                   (seq_start (seq (query_record r)));
  b_query_consensus :
    track_attached (query_consensus s) "-" (query_record r) "Consensus";
  b_query_ss_pred :
    track_attached (query_ss_pred s) "-" (query_record r) "ss_pred";
  b_target_consensus :
    track_attached (target_consensus s) "-" (target_record r) "Consensus";
  b_target_ss_pred :
    track_attached (target_ss_pred s) "-" (target_record r) "ss_pred";
  b_target_ss_dssp :
    track_attached (target_ss_dssp s) "-" (target_record r) "ss_dssp";
  b_confidence :
    track_attached (confidence s) " " (target_record r) "Confidence";
  b_query_tracks :
    dom (letter_annotations (query_record r))
    = ({["Consensus"; "ss_pred"]} : gset string);
  b_target_tracks :
    dom (letter_annotations (target_record r))
    = ({["Consensus"; "ss_pred"; "ss_dssp"; "Confidence"]} : gset string);
  b_annotations : annotations s = Some (alignment_annotations r);
  b_column_score :
    ∃ cs, column_score s = Some cs
          ∧ column_annotations r = {["column score" := cs]} }.

(** The attributes and metadata read before line 110 are there. *)
Definition reaches_track_check (s : self) : Prop :=
  is_Some (query_name s)
  ∧ (∃ n, query_length s = Some n ∧ metadata s !! "Match_columns" = Some (MInt n))
  ∧ is_Some (target_name s) ∧ is_Some (hmm_name s)
  ∧ is_Some (hmm_description s).

(** The [(<total>)] that a Q or T sequence line declares: its sixth and
    last word, read as lines 223-225 and 249-251 read it. *)
Definition declared_total (line : string) : option Z :=
  match Str.split line with
  | [_; _; _; _; _; total] =>
      match read_total total with
      | Ok n => Some n
      | Raise _ => None
      end
  | _ => None
  end.

(** The keys that lines 55-69 know. *)
Definition known_keys : list string :=
  ["Query"; "Match_columns"; "No_of_seqs"; "Neff"; "Template_Neff";
   "Searched_HMMs"; "Date"; "Command"].

(** The key token of a header line: its first word. *)
Definition header_key (line : string) : string :=
  default "" (head (Str.split1 (Str.strip line))).

(** The header lines [lines], none of them blank, processed in order. *)
Fixpoint header_lines (lines : list string)
    (st : option string * gmap string mvalue)
  : result (option string * gmap string mvalue) :=
  match lines with
  | [] => Ok st
  | line :: lines' =>
      match header_line (Str.strip line) st with
      | Ok st' => header_lines lines' st'
      | Raise e => Raise e
      end
  end.

(** A computation that raises nothing but [ValueError]. *)
Definition only_ValueError {A : Type} (r : result A) : Prop :=
  ∀ e, r = Raise e → ∃ v, e = ValueError v.

(** Lines 164-186 on a [>] line and the line after it. *)
Definition open_hit (s : self) (hdr ann : string) : result self :=
  s ← reset_hit s (Str.rstrip hdr);
  a ← read_annotations ann;
  Ok (set_annotations (Some a) s).

(** The branches that neither open a hit, nor yield, nor end the file. *)
Definition accumulates (t : tag) : bool :=
  match t with
  | Header | Done | No => false
  | _ => true
  end.

(** The loop over lines that all take such branches. *)
Fixpoint accumulate_lines (s : self) (lines : list string) : result self :=
  match lines with
  | [] => Ok s
  | line :: lines' =>
      let line := Str.rstrip line in
      match classify line with
      | Blank => accumulate_lines s lines'
      | t =>
          match accumulate s t line with
          | Ok s => accumulate_lines s lines'
          | Raise e => Raise e
          end
      end
  end.

(** The [>] line [hdr], the line [ann] after it and the lines [lines] of the
    blocks of the hit are read without an exception and take the iterator
    from [s] to [s2]. *)
Definition hit_read (s : self) (hdr ann : string) (lines : list string)
    (s2 : self) : Prop :=
  classify (Str.rstrip hdr) = Header
  ∧ Forall (λ l, accumulates (classify (Str.rstrip l)) = true) lines
  ∧ ∃ s1, open_hit s hdr ann = Ok s1 ∧ accumulate_lines s1 lines = Ok s2.

(** The segment of a sequence line (right-stripped): the offset
    [<start> - 1] and the [<seq>] word. *)
Definition segment_fields (line : string) : option (Z * string) :=
  match Str.split line with
  | [_; _; start; sequence; _; _] => (λ z, (z - 1, sequence)) <$> Str.int start
  | _ => None
  end.

(** The segment of a line when it is a sequence line of kind [t]
    ([Q_sequence] or [T_sequence]). *)
Definition segment_of (t : tag) (line : string) : option (Z * string) :=
  if bool_decide (classify (Str.rstrip line) = t)
  then segment_fields (Str.rstrip line)
  else None.

Definition segments (t : tag) (lines : list string) : list (Z * string) :=
  omap (segment_of t) lines.

(** The segments' texts, concatenated in order. *)
Definition joined (segs : list (Z * string)) : string :=
  foldr (λ seg acc, seg.2 +:+ acc) "" segs.

(** A [key=value] word, and the text that is handed to [float]. *)
Definition key_value (word : string) : option (string * string) :=
  match Str.split_sep "=" word with
  | [key; value] => Some (key, value)
  | _ => None
  end.

Definition value_text (key value : string) : string :=
  if bool_decide (key = "Identities") then Str.rstrip_percent value else value.

(** The start that is kept: the stored one, or else the first offered. *)
Definition first_start (stored : option Z) (segs : list (Z * string)) : option Z :=
  match stored with
  | Some z => Some z
  | None => fst <$> head segs
  end.

(** *** The preamble: header and hit table *)

(** The rank that a row of the hit table carries: its first word, read as
    lines 96-97 read it. *)
Definition row_rank (row : string) : option Z :=
  match Str.split1 row with
  | [word; _] => Str.int word
  | _ => None
  end.

(** The rows carry the ranks [number + 1], [number + 2], ... in order. *)
Definition ranks_from (number : Z) (rows : list string) : Prop :=
  ∀ (i : nat) (row : string),
    rows !! i = Some row → row_rank row = Some (number + Z.of_nat i + 1).

(** The iterator as [__init__] leaves it (lines 72, 98, 99): no attribute
    of a hit is assigned yet. *)
Definition constructed (query_name : option string)
    (metadata : gmap string mvalue) (number : Z) : self :=
  Self query_name metadata number 0 None None None None None None None None
       None None None None None None None None None.

(** What lines 57-69 store under each key of [metadata]. *)
Definition metadata_entry (key : string) (v : mvalue) : Prop :=
  match v with
  | MInt _ => key = "Match_columns" ∨ key = "Searched_HMMs"
  | MPair _ _ => key = "No_of_seqs"
  | MFloat _ => key = "Neff" ∨ key = "Template_Neff"
  | MStr _ => key = "Rundate" ∨ key = "Command line"
  end.

(** The value of a header line whose key is [Query]. *)
Definition query_of (line : string) : option string :=
  match Str.split1 (Str.strip line) with
  | [key; value] => if bool_decide (key = "Query") then Some value else None
  | _ => None
  end.

(** *** Exceptions *)

(** A computation that raises only exceptions that satisfy [P]. *)
Definition raises_only {A : Type} (P : exn → Prop) (r : result A) : Prop :=
  ∀ e, r = Raise e → P e.

(** The exceptions other than the one of lines 258-261. *)
Definition not_a_count_error (e : exn) : Prop :=
  ∀ n c, e ≠ ValueError (ExpectedAlignments n c).

(** *** The tracks of a hit *)

(** The attribute that the branch [t] of the loop adds to. *)
Definition track (t : tag) (s : self) : option string :=
  match t with
  | Score => column_score s
  | Confidence => confidence s
  | Q_ss_pred => query_ss_pred s
  | Q_Consensus => query_consensus s
  | Q_sequence => query_sequence s
  | T_ss_pred => target_ss_pred s
  | T_ss_dssp => target_ss_dssp s
  | T_Consensus => target_consensus s
  | T_sequence => target_sequence s
  | _ => None
  end.

(** The text that a line (right-stripped) adds when it takes the branch
    [t]: the stripped line (line 197), the rest after the first word
    (line 205), the last word (lines 208, 230, 233), the fourth of six
    words (lines 211, 219, 236, 244). *)
Definition piece (t : tag) (line : string) : option string :=
  match t with
  | Score => Some (Str.strip line)
  | Confidence =>
      match Str.split1 line with
      | [_; value] => Some value
      | _ => None
      end
  | Q_ss_pred | T_ss_pred | T_ss_dssp =>
      match Str.rsplit1 line with
      | [_; value] => Some value
      | _ => None
      end
  | Q_Consensus | T_Consensus | Q_sequence | T_sequence =>
      match Str.split line with
      | [_; _; _; text; _; _] => Some text
      | _ => None
      end
  | _ => None
  end.

(** The text that a line of the stream adds to the track of [t]: none
    when the line takes another branch. *)
Definition piece_of (t : tag) (line : string) : option string :=
  if bool_decide (classify (Str.rstrip line) = t)
  then piece t (Str.rstrip line)
  else None.

(** The texts that the lines add to the track of [t], joined in order. *)
Definition pieces (t : tag) (lines : list string) : string :=
  foldr String.append "" (omap (piece_of t) lines).

(** The branches that add to a track. *)
Definition track_tags : list tag :=
  [Score; Confidence; Q_ss_pred; Q_Consensus; Q_sequence;
   T_ss_pred; T_ss_dssp; T_Consensus; T_sequence].

(** The text [text], its [gap] characters removed and padded, is the
    track of [rec] under [key]. *)
Definition attached (rec : SeqRecord) (key : string) (gap : ascii)
    (text : string) : Prop :=
  letter_annotations rec !! key
  = Some (pad_track (seq_start (seq rec)) (seq_length (seq rec))
            (Str.remove gap text)).

(** No line of [lines] takes the branch [t]. *)
Definition absent (t : tag) (lines : list string) : Prop :=
  Forall (λ l, classify (Str.rstrip l) ≠ t) lines.

(** The name on a T sequence line (right-stripped): the second of its six
    words (lines 244-246). *)
Definition piece_name (line : string) : option string :=
  match Str.split line with
  | [_; name; _; _; _; _] => Some name
  | _ => None
  end.

(** The name that a line of the stream gives to the target: none when the
    line takes another branch than [T_sequence]. *)
Definition target_name_of (line : string) : option string :=
  if bool_decide (classify (Str.rstrip line) = T_sequence)
  then piece_name (Str.rstrip line)
  else None.

(** *** What a hit depends on *)

(** Two states of the iterator that agree on everything that the lines of
    a hit and [_create_alignment] read, but for [query_length], on which
    they agree when [q] holds, and [target_name] and [target_length], on
    which they agree when [t] holds.  [number] and [counter] are left
    out. *)
Definition agree (q t : bool) (s s' : self) : Prop :=
  query_name s' = query_name s
  ∧ metadata s' = metadata s
  ∧ hmm_name s' = hmm_name s
  ∧ hmm_description s' = hmm_description s
  ∧ query_ss_pred s' = query_ss_pred s
  ∧ query_consensus s' = query_consensus s
  ∧ query_sequence s' = query_sequence s
  ∧ query_start s' = query_start s
  ∧ target_ss_pred s' = target_ss_pred s
  ∧ target_consensus s' = target_consensus s
  ∧ target_ss_dssp s' = target_ss_dssp s
  ∧ target_sequence s' = target_sequence s
  ∧ target_start s' = target_start s
  ∧ column_score s' = column_score s
  ∧ confidence s' = confidence s
  ∧ annotations s' = annotations s
  ∧ (q = true → query_length s' = query_length s)
  ∧ (t = true → target_name s' = target_name s
                ∧ target_length s' = target_length s).

(** Some line of [lines] takes the branch [t]. *)
Definition seen (t : tag) (lines : list string) : bool :=
  existsb (λ l, bool_decide (classify (Str.rstrip l) = t)) lines.

(** *** A file of hits *)

(** The [No] line of the hit of rank [i]: it takes the [No] branch and its
    second and last word is [i] (lines 198-203). *)
Definition hit_numbered (i : Z) (line : string) : Prop :=
  classify (Str.rstrip line) = No
  ∧ ∃ key value, Str.split (Str.rstrip line) = [key; value]
                 ∧ Str.int value = Some i.

(** The record [r] of the hit [h] of a file whose header gives
    [query_name] and [metadata]: the hit has a Q and a T sequence line,
    and [r] is what [_create_alignment] returns once the lines of [h] are
    read, from its [>] line on, by an iterator that has read no hit
    before. *)
Definition hit_gives (query_name : option string)
    (metadata : gmap string mvalue) (h : hit) (r : Alignment) : Prop :=
  seen Q_sequence (block_lines h) = true
  ∧ seen T_sequence (block_lines h) = true
  ∧ ∃ s2, hit_read (constructed query_name metadata 0)
            (name_line h) (annotation_line h) (block_lines h) s2
          ∧ _create_alignment s2 = Ok r.

(** *** When a record is built *)

(** The track [track], its [gap] characters removed and put at [start],
    ends within [total]. *)
Definition fits (start total : Z) (gap : ascii) (track : option string) : bool :=
  match track with
  | Some t => Z.max 0 start + Str.len (Str.remove gap t) <=? total
  | None => false
  end.

(** What [_create_alignment] needs of the attributes of the iterator to
    return a record, in the words of its checks: every attribute it reads
    is assigned; the total of the query is [Match_columns] (line 104); the
    two gapped tracks have the same length (line 110) and are not empty
    (the rows of lines 112-113 exist); the two starts are integers that
    the rows hold; [Seq] accepts the two sequences; and every track, put
    at its start, ends within the total of its sequence, so that the
    record takes it. *)
Definition checks_pass (s : self) : bool :=
  default false
    (_ ← query_name s; ql ← query_length s;
     mc ← metadata s !! "Match_columns";
     _ ← target_name s; _ ← hmm_name s; _ ← hmm_description s;
     qs ← query_sequence s; ts ← target_sequence s;
     t0 ← target_start s; t0 ← t0; q0 ← query_start s; q0 ← q0;
     tl ← target_length s; _ ← annotations s; _ ← column_score s;
     Some (match mc with MInt n => ql =? n | _ => false end
           && (Str.len ts =? Str.len qs) && negb (bool_decide (ts = ""))
           && int64 t0 && int64 q0
           && Seq_accepts q0 (Str.remove "-" qs) ql
           && Seq_accepts t0 (Str.remove "-" ts) tl
           && fits q0 ql "-" (query_consensus s)
           && fits t0 tl "-" (target_consensus s)
           && fits t0 tl "-" (target_ss_dssp s)
           && fits q0 ql "-" (query_ss_pred s)
           && fits t0 tl "-" (target_ss_pred s)
           && fits t0 tl " " (confidence s))).

(** The text [text] padded with blanks: [track] is the blanks up to
    [start], the text, and the blanks from the end of the text up to
    [total]; it is [total] long. *)
Definition padded (start total : Z) (text track : string) : Prop :=
  track = Str.spaces start +:+ text
          +:+ Str.spaces (total - (Z.max 0 start + Str.len text))
  ∧ Z.max 0 start + Str.len text ≤ total
  ∧ Str.len track = total.

(** The track [attr] of the iterator, its [gap] characters removed, is
    the track of [rec] under [key], padded with blanks from the start of
    the sequence to its length. *)
Definition track_padded (attr : option string) (gap : ascii)
    (rec : SeqRecord) (key : string) : Prop :=
  ∃ t track,
    attr = Some t
    ∧ letter_annotations rec !! key = Some track
    ∧ padded (seq_start (seq rec)) (seq_length (seq rec)) (Str.remove gap t) track.

(** The number of the lines of the stream that take the [No] branch when
    the loop reads the stream to its end: the line after a [>] line is
    read by [next(stream)] and takes no branch. *)
Fixpoint no_lines (stream : list string) : nat :=
  match stream with
  | [] => 0
  | line :: stream' =>
      match classify (Str.rstrip line) with
      | No => S (no_lines stream')
      | Header =>
          match stream' with
          | [] => 0
          | _ :: stream'' => no_lines stream''
          end
      | _ => no_lines stream'
      end
  end.

(** The total that a line of the stream declares when it takes the
    branch [t] ([Q_sequence] or [T_sequence]). *)
Definition total_of (t : tag) (line : string) : option Z :=
  if bool_decide (classify (Str.rstrip line) = t)
  then declared_total (Str.rstrip line)
  else None.

(** ** Properties *)

(** [simpl] unfolds the loops only, one line at a time. *)
Local Arguments accumulate : simpl never.
Local Arguments _create_alignment : simpl never.
Local Arguments count_hit : simpl never.
Local Arguments reset_hit : simpl never.
Local Arguments read_annotations : simpl never.
Local Arguments after_loop : simpl never.
Local Arguments header_line : simpl never.
Local Arguments classify : simpl never.

(** *** Sequencing *)

Lemma bind_Ok {A B : Type} (r : result A) (k : A → result B) (b : B) :
  r ≫= k = Ok b → ∃ a, r = Ok a ∧ k a = Ok b.
Proof. destruct r as [a|e]; simpl; [eauto | discriminate]. Qed.

Lemma assert_Ok (b : bool) (a : assertion) (u : unit) :
  assert b a = Ok u → b = true.
Proof. destruct b; [done | discriminate]. Qed.

Lemma getattr_Ok {A : Type} (name : string) (o : option A) (a : A) :
  getattr name o = Ok a → o = Some a.
Proof. destruct o; simpl; congruence. Qed.

Lemma iadd_Ok (name : string) (o : option string) (v : string) (x : option string) :
  iadd name o v = Ok x → ∃ t, o = Some t ∧ x = Some (t +:+ v).
Proof. destruct o; simpl; [|discriminate]. intros [= <-]. eauto. Qed.

(** Splits a hypothesis [(x ← r; k) = Ok b] into its successful steps. *)
Ltac bind_inv H :=
  repeat
    (let a := fresh "a" in
     let Ha := fresh "Hstep" in
     apply bind_Ok in H as (a & Ha & H);
     repeat match goal with
            | x : (_ * _)%type |- _ => destruct x
            | u : unit |- _ => destruct u
            end;
     cbn beta iota in H).

(** *** Texts *)

Lemma append_assoc (a b c : string) : (a +:+ b) +:+ c = a +:+ (b +:+ c).
Proof.
  induction a as [|x a IH]; [done|].
  change (String x ((a +:+ b) +:+ c) = String x (a +:+ (b +:+ c))).
  by rewrite IH.
Qed.

Lemma append_nil_r (a : string) : a +:+ "" = a.
Proof.
  induction a as [|x a IH]; [done|].
  change (String x (a +:+ "") = String x a). by rewrite IH.
Qed.

Lemma len_append (a b : string) : Str.len (a +:+ b) = Str.len a + Str.len b.
Proof.
  unfold Str.len. induction a as [|x a IH].
  { change ("" +:+ b) with b. simpl. lia. }
  change (Z.of_nat (S (String.length (a +:+ b)))
          = Z.of_nat (S (String.length a)) + Z.of_nat (String.length b)).
  lia.
Qed.

Lemma len_spaces (n : Z) : Str.len (Str.spaces n) = Z.max 0 n.
Proof.
  unfold Str.len, Str.spaces.
  assert (∀ k, String.length (Str.spaces_nat k) = k) as ->
    by (induction k; simpl; congruence).
  lia.
Qed.

Lemma spaces_append (n m : Z) :
  Str.spaces n +:+ Str.spaces m = Str.spaces (Z.max 0 n + Z.max 0 m).
Proof.
  unfold Str.spaces.
  replace (Z.to_nat (Z.max 0 n + Z.max 0 m)) with (Z.to_nat n + Z.to_nat m)%nat
    by lia.
  induction (Z.to_nat n) as [|k IH]; [done|].
  change (String " " (Str.spaces_nat k +:+ Str.spaces_nat (Z.to_nat m))
          = String " " (Str.spaces_nat (k + Z.to_nat m))).
  by rewrite IH.
Qed.

Lemma pad_track_len (start length : Z) (track : string) :
  Str.len (pad_track start length track) = length
  ↔ Z.max 0 start + Str.len track ≤ length.
Proof.
  unfold pad_track. rewrite !len_append, !len_spaces. lia.
Qed.

Lemma pad_track_padded (start length : Z) (track : string) :
  Str.len (pad_track start length track) = length →
  padded start length track (pad_track start length track).
Proof.
  intros Hlen. split; [|split; [by apply pad_track_len | done]].
  unfold pad_track. by rewrite len_append, len_spaces, append_assoc.
Qed.

(** *** What the branches of the loop leave alone *)

Lemma accumulate_same (s s' : self) (t : tag) (line : string) :
  accumulate s t line = Ok s' →
  same_source s s' ∧ counter s' = counter s ∧ annotations s' = annotations s.
Proof.
  unfold accumulate, same_source. intros H.
  destruct t; cbv beta iota in H; try discriminate; bind_inv H;
    repeat match goal with
           | H : context [match ?o with Some _ => _ | None => _ end] |- _ =>
               destruct o
           end;
    injection H as <-; done.
Qed.

Lemma reset_hit_same (s s' : self) (line : string) :
  reset_hit s line = Ok s' → same_source s s' ∧ counter s' = counter s.
Proof. unfold reset_hit. intros H. bind_inv H. by injection H as <-. Qed.

Lemma count_hit_Ok (s s' : self) (line : string) :
  count_hit s line = Ok s' → s' = set_counter (counter s + 1) s.
Proof. unfold count_hit. intros H. bind_inv H. by injection H as <-. Qed.

(** *** The number of records *)

Lemma length_yield (r : Alignment) (k : run) :
  length (yielded (yield r k)) = S (length (yielded k)).
Proof. done. Qed.

Lemma stopped_yield (r : Alignment) (k : run) : stopped (yield r k) = stopped k.
Proof. done. Qed.

(** One record per [No] line but the first, and one after the loop: when
    the generator returns, [counter] has reached [number]. *)
Lemma parse_loop_count (n : nat) :
  ∀ (stream : list string) (s : self),
    (length stream ≤ n)%nat →
    0 ≤ counter s →
    stopped (parse_loop s stream) = Returned →
    Z.of_nat (length (yielded (parse_loop s stream)))
    = (if 0 <? counter s then number s - counter s + 1 else Z.max 1 (number s))
    ∧ counter s ≤ number s.
Proof.
  induction n as [|n IH]; intros stream s Hlen Hc.
  - destruct stream; [|simpl in Hlen; lia].
    simpl. unfold after_loop.
    destruct (_create_alignment s); simpl; [|discriminate].
    case_bool_decide; [discriminate|]. intros _.
    assert (number s = counter s) as -> by (destruct (decide (number s = counter s)); done).
    destruct (0 <? counter s) eqn:E; lia.
  - destruct stream as [|line stream'].
    { apply (IH [] s); simpl; [lia | done]. }
    simpl in Hlen. simpl.
    destruct (classify (Str.rstrip line)) eqn:Htag;
      try (destruct (accumulate s _ (Str.rstrip line)) as [s'|] eqn:Hacc;
           [ apply accumulate_same in Hacc as ((Hn & _ & _) & Hcnt & _);
             intros Hret; rewrite <- Hn, <- Hcnt;
             apply IH; [lia | lia | done]
           | discriminate ]).
    + apply IH; [lia | done].
    + destruct (reset_hit s (Str.rstrip line)) as [s'|] eqn:Hreset; [|discriminate].
      apply reset_hit_same in Hreset as ((Hn & _ & _) & Hcnt).
      destruct stream' as [|line2 stream'']; [discriminate|].
      destruct (read_annotations line2); [|discriminate].
      intros Hret. rewrite <- Hn, <- Hcnt.
      apply (IH stream'' (set_annotations (Some a) s'));
        [simpl in Hlen; lia | cbn; lia | done].
    + destruct stream' as [|? ?]; [|discriminate].
      apply (IH [] s); simpl; [lia | done].
    + destruct (0 <? counter s) eqn:E.
      * destruct (_create_alignment s); [|discriminate].
        destruct (count_hit s (Str.rstrip line)) as [s'|] eqn:Hcount; [|discriminate].
        apply count_hit_Ok in Hcount as ->.
        rewrite stopped_yield, length_yield. intros Hret.
        destruct (IH stream' (set_counter (counter s + 1) s)) as [Hy Hle];
          [lia | cbn; lia | done |].
        cbn in Hy, Hle.
        destruct (0 <? counter s + 1) eqn:E'; lia.
      * destruct (count_hit s (Str.rstrip line)) as [s'|] eqn:Hcount; [|discriminate].
        apply count_hit_Ok in Hcount as ->. intros Hret.
        destruct (IH stream' (set_counter (counter s + 1) s)) as [Hy Hle];
          [lia | cbn; lia | done |].
        cbn in Hy, Hle.
        destruct (0 <? counter s + 1) eqn:E'; lia.
    + discriminate.
Qed.

Lemma init_counter (stream body : list string) (s : self) :
  __init__ stream = Ok (s, body) → counter s = 0.
Proof.
  unfold __init__. intros H. bind_inv H.
  destruct l as [|line rest]; [discriminate|].
  bind_inv H. by simplify_eq.
Qed.

(** C1.  Once the iterator is constructed, with [number] the count of
    rows of the hit table: if the generator runs to its end without
    raising, it has yielded exactly [number] records; and if [number] is
    0 it returns at once, having yielded nothing and read no line. *)
Theorem parse_yields_number (stream body : list string) (s : self) :
  __init__ stream = Ok (s, body) →
  (stopped (parse s body) = Returned →
   Z.of_nat (length (yielded (parse s body))) = number s)
  ∧ (number s = 0 → parse s body = Run [] Returned body).
Proof.
  intros Hinit. apply init_counter in Hinit as Hc.
  unfold parse. case_bool_decide as Hn.
  - split; [by rewrite Hn | done].
  - split; [|done]. intros Hret.
    destruct (parse_loop_count (length body) body s) as [Hy Hle];
      [lia | lia | done |].
    rewrite Hc in Hy, Hle. simpl in Hy. lia.
Qed.

(** *** What a built record holds *)

Lemma set_letter_annotation_Ok (key value : string) (r r' : SeqRecord) :
  set_letter_annotation key value r = Ok r' →
  Str.len value = seq_length (seq r)
  ∧ r' = {| seq := seq r; id := id r;
            record_annotations := record_annotations r;
            letter_annotations := <[key := value]> (letter_annotations r) |}.
Proof.
  unfold set_letter_annotation.
  destruct (Z.eqb_spec (Str.len value) (seq_length (seq r))); [|discriminate].
  by intros [= <-].
Qed.

Lemma Seq_new_Ok (start : Z) (residues : string) (length : Z) (q : Seq) :
  Seq_new start residues length = Ok q →
  q = {| seq_start := start; seq_residues := residues; seq_length := length |}.
Proof. unfold Seq_new. destruct (Seq_accepts _ _ _); [|discriminate]. by intros [= <-]. Qed.

Lemma set_letter_annotation_Raise (key value : string) (r : SeqRecord) (e : exn) :
  set_letter_annotation key value r = Raise e → e = TypeError.
Proof.
  unfold set_letter_annotation.
  destruct (Str.len value =? seq_length (seq r)); congruence.
Qed.

Lemma Seq_new_Raise (start : Z) (residues : string) (length : Z) (e : exn) :
  Seq_new start residues length = Raise e → e = SeqError.
Proof. unfold Seq_new. destruct (Seq_accepts _ _ _); congruence. Qed.

Lemma numpy_operand_Ok (start : option Z) (z : Z) :
  numpy_operand start = Ok z → start = Some z.
Proof.
  destruct start as [z'|]; simpl; [|discriminate].
  destruct (int64 z'); congruence.
Qed.

Lemma numpy_operand_Raise (start : option Z) (e : exn) :
  numpy_operand start = Raise e → e = TypeError ∨ e = OverflowError.
Proof.
  destruct start as [z|]; simpl; [destruct (int64 z)|]; intros [=]; auto.
Qed.

Lemma create_alignment_Ok (s : self) (r : Alignment) :
  _create_alignment s = Ok r → built_from s r.
Proof.
  unfold _create_alignment. intros H. bind_inv H.
  repeat match goal with
         | H : getattr _ _ = Ok _ |- _ => apply getattr_Ok in H
         | H : assert _ _ = Ok _ |- _ => apply assert_Ok in H
         | H : numpy_operand _ = Ok _ |- _ => apply numpy_operand_Ok in H; subst
         | H : Seq_new _ _ _ = Ok _ |- _ => apply Seq_new_Ok in H; subst
         | H : set_letter_annotation _ _ _ = Ok _ |- _ =>
             apply set_letter_annotation_Ok in H as [? ->]
         end.
  destruct (metadata s !! "Match_columns") as [mc|] eqn:Hmc; [|discriminate].
  simpl in *. simplify_eq.
  match goal with
  | m : mvalue |- _ => destruct m; try discriminate
  end.
  repeat match goal with
         | H : (_ =? _) = true |- _ => apply Z.eqb_eq in H
         end.
  subst.
  split; simpl; try done; unfold track_attached; simpl;
    try (eexists; split; [eassumption|]; split; [|done]);
    try by simplify_map_eq.
  - do 2 eexists. split; [eassumption|]. split; [eassumption|]. by repeat split.
  - eauto.
Qed.

Lemma numpy_operand_int64 (start : option Z) (z : Z) :
  numpy_operand start = Ok z → start = Some z ∧ int64 z = true.
Proof.
  destruct start as [z'|]; simpl; [|discriminate].
  destruct (int64 z') eqn:H; [|discriminate]. by intros [= <-].
Qed.

Lemma Seq_new_accepts (start : Z) (residues : string) (length : Z) (q : Seq) :
  Seq_new start residues length = Ok q → Seq_accepts start residues length = true.
Proof. unfold Seq_new. by destruct (Seq_accepts _ _ _). Qed.

Lemma infer_go_cons (t q : string) (cur : option (bool * bool)) (idx : Z * Z)
    (step : Z) :
  ∃ p path, infer_go t q cur idx step = p :: path.
Proof.
  revert q cur idx step.
  induction t as [|a t IH]; intros [|b q] cur idx step; simpl; eauto.
  destruct (negb _); [apply IH|]. case_bool_decide; eauto.
Qed.

Lemma select_row_infer (ts qs : string) :
  select_row (infer_coordinates ts qs) = Ok tt ↔ ts ≠ "".
Proof.
  destruct ts as [|a ts]; [by split|]. unfold infer_coordinates.
  destruct (infer_go_cons (String a ts) qs None (0, 0) 0) as (p & path & ->).
  by split.
Qed.

Lemma select_row_iadd (on_target : bool) (path : list (Z * Z)) (z : Z) :
  select_row (row_iadd on_target path z) = select_row path.
Proof. by destruct path. Qed.

Lemma set_letter_annotation_fits (key : string) (start total : Z) (gap : ascii)
    (t : string) (r : SeqRecord) :
  seq_length (seq r) = total →
  fits start total gap (Some t) = true →
  set_letter_annotation key (pad_track start total (Str.remove gap t)) r
  = Ok {| seq := seq r; id := id r;
          record_annotations := record_annotations r;
          letter_annotations :=
            <[key := pad_track start total (Str.remove gap t)]>
              (letter_annotations r) |}.
Proof.
  intros Hr Hfits%Z.leb_le%pad_track_len. unfold set_letter_annotation.
  by rewrite Hr, Hfits, Z.eqb_refl.
Qed.

(** [_create_alignment] returns a record exactly when its checks pass. *)
Lemma create_alignment_checks (s : self) :
  (∃ r, _create_alignment s = Ok r) ↔ checks_pass s = true.
Proof.
  split.
  - intros [r H]. unfold _create_alignment in H. bind_inv H.
    destruct (metadata s !! "Match_columns") as [mc|] eqn:Hmc; [|discriminate].
    repeat match goal with
           | H : getattr _ _ = Ok _ |- _ => apply getattr_Ok in H
           | H : assert _ _ = Ok _ |- _ => apply assert_Ok in H
           | H : numpy_operand _ = Ok _ |- _ =>
               apply numpy_operand_int64 in H as [-> ?]
           | H : Seq_new _ _ _ = Ok _ |- _ =>
               pose proof (Seq_new_accepts _ _ _ _ H); apply Seq_new_Ok in H; subst
           | H : set_letter_annotation _ _ _ = Ok _ |- _ =>
               apply set_letter_annotation_Ok in H as [?%pad_track_len%Z.leb_le ->]
           | H : select_row (row_iadd _ _ _) = _ |- _ => clear H
           | H : select_row (infer_coordinates _ _) = Ok tt |- _ =>
               apply select_row_infer in H
           end.
    simpl in *. simplify_eq. unfold checks_pass.
    repeat match goal with
           | H : _ = Some _ |- _ => rewrite H; clear H
           end.
    simpl. unfold fits. rewrite !andb_true_iff.
    repeat split; try done. by rewrite bool_decide_false.
  - unfold checks_pass.
    destruct (query_name s) as [qn|] eqn:Hqn; [|discriminate].
    destruct (query_length s) as [ql|] eqn:Hql; [|discriminate].
    destruct (metadata s !! "Match_columns") as [mc|] eqn:Hmc; [|discriminate].
    destruct (target_name s) as [tn|] eqn:Htn; [|discriminate].
    destruct (hmm_name s) as [hn|] eqn:Hhn; [|discriminate].
    destruct (hmm_description s) as [hd|] eqn:Hhd; [|discriminate].
    destruct (query_sequence s) as [qs|] eqn:Hqs; [|discriminate].
    destruct (target_sequence s) as [ts|] eqn:Hts; [|discriminate].
    destruct (target_start s) as [[t0|]|] eqn:Ht0; try discriminate.
    destruct (query_start s) as [[q0|]|] eqn:Hq0; try discriminate.
    destruct (target_length s) as [tl|] eqn:Htl; [|discriminate].
    destruct (annotations s) as [an|] eqn:Han; [|discriminate].
    destruct (column_score s) as [cs|] eqn:Hcs; [|discriminate].
    simpl. rewrite !andb_true_iff.
    intros ((((((((((((Hm & Hlen) & Hne) & Ht64) & Hq64) & Hq) & Ht)
                     & Hqc) & Htc) & Htd) & Hqp) & Htp) & Hc).
    destruct (query_consensus s) as [qc|] eqn:Hqc'; [|discriminate].
    destruct (target_consensus s) as [tc|] eqn:Htc'; [|discriminate].
    destruct (target_ss_dssp s) as [td|] eqn:Htd'; [|discriminate].
    destruct (query_ss_pred s) as [qp|] eqn:Hqp'; [|discriminate].
    destruct (target_ss_pred s) as [tp|] eqn:Htp'; [|discriminate].
    destruct (confidence s) as [c|] eqn:Hc'; [|discriminate].
    apply negb_true_iff, bool_decide_eq_false in Hne.
    unfold _create_alignment, Seq_new.
    rewrite Hqn, Hql, Hmc, Htn, Hhn, Hhd, Hqs, Hts, Ht0, Hq0, Htl, Han, Hcs,
      Hqc', Htc', Htd', Hqp', Htp', Hc'.
    simpl. rewrite Hm, Hlen. simpl.
    rewrite (proj2 (select_row_infer ts qs) Hne). simpl. rewrite Ht64. simpl.
    rewrite select_row_iadd, (proj2 (select_row_infer ts qs) Hne). simpl.
    rewrite Hq64. simpl. rewrite Hq. simpl. rewrite Ht. simpl.
    repeat (erewrite set_letter_annotation_fits by (done || eassumption); simpl).
    eauto.
Qed.

Lemma wrap64_int64 (z : Z) : int64 z = true → wrap64 z = z.
Proof.
  unfold int64, wrap64. intros [?%Z.leb_le ?%Z.ltb_lt]%andb_true_iff.
  rewrite Z.mod_small; lia.
Qed.

Lemma infer_go_head (t q : string) (idx : Z * Z) (step : Z) :
  head (infer_go t q None idx step) = Some idx.
Proof.
  revert q. induction t as [|a t IH]; intros [|b q]; simpl; try done.
  destruct (Ascii.eqb a "-"), (Ascii.eqb b "-"); simpl; by rewrite ?IH.
Qed.

Lemma len_remove_cons (c a : ascii) (t : string) :
  Str.len (Str.remove c (String a t))
  = (if Ascii.eqb a c then 0 else 1) + Str.len (Str.remove c t).
Proof.
  simpl. destruct (Ascii.eqb a c); [lia|]. unfold Str.len. simpl String.length. lia.
Qed.

Lemma infer_go_last (t : string) :
  ∀ (q : string) (cur : option (bool * bool)) (idx : Z * Z) (step : Z),
    String.length t = String.length q →
    last (infer_go t q cur idx step)
    = Some ((advance idx cur step).1 + Str.len (Str.remove "-" t),
            (advance idx cur step).2 + Str.len (Str.remove "-" q)).
Proof.
  induction t as [|a t IH]; intros [|b q] cur idx step Hlen; try discriminate.
  - simpl. destruct (advance idx cur step). simpl. do 2 f_equal; unfold Str.len; simpl; lia.
  - injection Hlen as Hlen. rewrite !len_remove_cons.
    cbn [infer_go]. cbv zeta.
    destruct (Ascii.eqb a "-") eqn:Ha, (Ascii.eqb b "-") eqn:Hb; cbn [negb orb fst snd];
      try (by rewrite IH);
      (case_bool_decide as Hcur;
       [ rewrite IH by done; subst cur; destruct idx; simpl; do 2 f_equal; lia
       | rewrite last_cons, IH by done; destruct (advance idx cur step); simpl;
         do 2 f_equal; lia ]).
Qed.

Lemma coordinates_ends (ts qs : string) (t0 q0 : Z) :
  ts ≠ "" → Str.len ts = Str.len qs → int64 t0 = true → int64 q0 = true →
  let path := row_iadd false (row_iadd true (infer_coordinates ts qs) t0) q0 in
  head path = Some (t0, q0)
  ∧ last path = Some (wrap64 (t0 + Str.len (Str.remove "-" ts)),
                      wrap64 (q0 + Str.len (Str.remove "-" qs))).
Proof.
  intros Hne Hlen Ht Hq. cbv zeta.
  assert (infer_coordinates ts qs = infer_go ts qs None (0, 0) 0) as ->.
  { by destruct ts. }
  assert (String.length ts = String.length qs) as Hlen' by (unfold Str.len in Hlen; lia).
  pose proof (infer_go_head ts qs (0, 0) 0) as Hhead.
  pose proof (infer_go_last ts qs None (0, 0) 0 Hlen') as Hlast.
  unfold row_iadd. split.
  - destruct (infer_go ts qs None (0, 0) 0) as [|p path]; simplify_eq/=.
    by rewrite !wrap64_int64.
  - rewrite !fmap_last, Hlast. simpl.
    by rewrite (Z.add_comm t0), (Z.add_comm q0).
Qed.

(** The coordinates of a built record begin at the two starts and end at
    the starts plus the numbers of residues, in the 64 bits of the rows. *)
Lemma create_alignment_ends (s : self) (r : Alignment) :
  _create_alignment s = Ok r →
  head (coordinates r)
  = Some (seq_start (seq (target_record r)), seq_start (seq (query_record r)))
  ∧ last (coordinates r)
    = Some (wrap64 (seq_start (seq (target_record r))
                    + Str.len (seq_residues (seq (target_record r)))),
            wrap64 (seq_start (seq (query_record r))
                    + Str.len (seq_residues (seq (query_record r))))).
Proof.
  unfold _create_alignment. intros H. bind_inv H.
  repeat match goal with
         | H : getattr _ _ = Ok _ |- _ => apply getattr_Ok in H
         | H : assert _ _ = Ok _ |- _ => apply assert_Ok in H
         | H : numpy_operand _ = Ok _ |- _ =>
             apply numpy_operand_int64 in H as [-> ?]
         | H : Seq_new _ _ _ = Ok _ |- _ => apply Seq_new_Ok in H; subst
         | H : set_letter_annotation _ _ _ = Ok _ |- _ =>
             apply set_letter_annotation_Ok in H as [_ ->]
         | H : select_row (row_iadd _ _ _) = _ |- _ => clear H
         | H : select_row (infer_coordinates _ _) = Ok tt |- _ =>
             apply select_row_infer in H
         | H : (_ =? _) = true |- _ => apply Z.eqb_eq in H
         end.
  simplify_eq/=. by apply coordinates_ends.
Qed.

Lemma same_source_refl (s : self) : same_source s s.
Proof. done. Qed.

Lemma same_source_trans (s1 s2 s3 : self) :
  same_source s1 s2 → same_source s2 s3 → same_source s1 s3.
Proof. unfold same_source. intros (-> & -> & ->) (-> & -> & ->). done. Qed.

(** Every record the loop yields is one [_create_alignment] returned, in a
    state that has the metadata of the start. *)
Lemma parse_loop_built (n : nat) :
  ∀ (stream : list string) (s : self) (r : Alignment),
    (length stream ≤ n)%nat →
    r ∈ yielded (parse_loop s stream) →
    ∃ s', same_source s s' ∧ _create_alignment s' = Ok r.
Proof.
  induction n as [|n IH]; intros stream s r Hlen.
  - destruct stream; [|simpl in Hlen; lia].
    simpl. unfold after_loop.
    destruct (_create_alignment s) as [r'|] eqn:Hr; simpl; [|by intros ?%elem_of_nil].
    intros ->%list_elem_of_singleton. eauto using same_source_refl.
  - destruct stream as [|line stream'].
    { apply (IH [] s); simpl; lia. }
    simpl in Hlen. simpl.
    destruct (classify (Str.rstrip line)) eqn:Htag;
      try (destruct (accumulate s _ (Str.rstrip line)) as [s'|] eqn:Hacc;
           [ apply accumulate_same in Hacc as (Hsrc & _ & _);
             intros Hin; apply IH in Hin as (s'' & Hsrc' & Hr); [|lia];
             eauto using same_source_trans
           | by intros ?%elem_of_nil ]).
    + apply IH; lia.
    + destruct (reset_hit s (Str.rstrip line)) as [s'|] eqn:Hreset;
        [|by intros ?%elem_of_nil].
      apply reset_hit_same in Hreset as (Hsrc & _).
      destruct stream' as [|line2 stream'']; [by intros ?%elem_of_nil|].
      destruct (read_annotations line2); [|by intros ?%elem_of_nil].
      intros Hin. apply IH in Hin as (s'' & Hsrc' & Hr); [|simpl in Hlen; lia].
      exists s''. split; [|done].
      eapply same_source_trans; [exact Hsrc|]. exact Hsrc'.
    + destruct stream' as [|? ?]; [|by intros ?%elem_of_nil].
      apply (IH [] s); simpl; lia.
    + assert (∀ s', count_hit s (Str.rstrip line) = Ok s' →
                    r ∈ yielded (parse_loop s' stream') →
                    ∃ s'', same_source s s'' ∧ _create_alignment s'' = Ok r) as Hnext.
      { intros s' ->%count_hit_Ok Hin.
        apply IH in Hin as (s'' & Hsrc' & Hr); [|lia]. eauto. }
      destruct (0 <? counter s).
      * destruct (_create_alignment s) as [r'|] eqn:Hr; [|by intros ?%elem_of_nil].
        destruct (count_hit s (Str.rstrip line)) as [s'|] eqn:Hcount.
        -- simpl. intros [->|Hin]%elem_of_cons; eauto using same_source_refl.
        -- simpl. intros ->%list_elem_of_singleton. eauto using same_source_refl.
      * destruct (count_hit s (Str.rstrip line)) as [s'|] eqn:Hcount;
          [eauto | by intros ?%elem_of_nil].
    + by intros ?%elem_of_nil.
Qed.

Lemma parse_built (s : self) (stream : list string) (r : Alignment) :
  r ∈ yielded (parse s stream) →
  ∃ s', same_source s s' ∧ _create_alignment s' = Ok r.
Proof.
  unfold parse. case_bool_decide; [by intros ?%elem_of_nil|].
  by apply (parse_loop_built (length stream)).
Qed.

(** C10.  Every record the generator yields has, as the declared length of
    its query sequence, both the [query_length] read from the Q lines and
    the [Match_columns] of the header; and where the two differ
    [_create_alignment] raises (the assertion of line 104 once
    [query_name] is set) instead of returning a record. *)
Theorem query_length_is_match_columns (s0 : self) (stream : list string) :
  (∀ r, r ∈ yielded (parse s0 stream) →
        ∃ s, _create_alignment s = Ok r
             ∧ query_length s = Some (seq_length (seq (query_record r)))
             ∧ metadata s0 !! "Match_columns"
               = Some (MInt (seq_length (seq (query_record r)))))
  ∧ (∀ s n, query_length s = Some n →
            metadata s !! "Match_columns" ≠ Some (MInt n) →
            ∃ e, _create_alignment s = Raise e)
  ∧ (∀ s qn n m, query_name s = Some qn → query_length s = Some n →
                 metadata s !! "Match_columns" = Some (MInt m) → n ≠ m →
                 _create_alignment s = Raise (AssertionError A_match_columns)).
Proof.
  split; [|split].
  - intros r (s & (_ & Hmd & _) & Hr)%parse_built.
    exists s. split; [done|].
    apply create_alignment_Ok in Hr as Hb.
    split; [apply (b_query_length _ _ Hb)|].
    rewrite <- Hmd. apply (b_match_columns _ _ Hb).
  - intros s n Hql Hmc.
    destruct (_create_alignment s) as [r|e] eqn:Hr; [|eauto].
    apply create_alignment_Ok in Hr as Hb.
    pose proof (b_query_length _ _ Hb). pose proof (b_match_columns _ _ Hb).
    congruence.
  - intros s qn n m Hqn Hql Hmc Hne.
    unfold _create_alignment. rewrite Hqn, Hql, Hmc. simpl.
    destruct (Z.eqb_spec n m); [done|]. done.
Qed.

(** *** The checks of [_create_alignment] *)

(** When [_create_alignment] raises, the loop yields no record for the
    hit: neither at the next [No] line nor after the last line. *)
Lemma create_raises_no_record (s : self) (e : exn) :
  _create_alignment s = Raise e →
  after_loop s = Run [] (Raised e) []
  ∧ ∀ line rest, classify (Str.rstrip line) = No → 0 < counter s →
                 parse_loop s (line :: rest) = Run [] (Raised e) rest.
Proof.
  intros He. split.
  - unfold after_loop. by rewrite He.
  - intros line rest Htag Hc. simpl. rewrite Htag.
    destruct (Z.ltb_spec 0 (counter s)); [|lia]. by rewrite He.
Qed.

(** C5.  With the gapped tracks [ts] and [qs] accumulated: if their lengths
    differ, [_create_alignment] raises and the loop yields no record for
    the hit, the exception being the [AssertionError] of line 110 whenever
    that line is reached; if their lengths are equal, that assertion does
    not fail. *)
Theorem track_lengths_checked (s : self) (ts qs : string) :
  target_sequence s = Some ts →
  query_sequence s = Some qs →
  (Str.len ts ≠ Str.len qs →
   ∃ e, _create_alignment s = Raise e
        ∧ after_loop s = Run [] (Raised e) []
        ∧ (∀ line rest, classify (Str.rstrip line) = No → 0 < counter s →
                        parse_loop s (line :: rest) = Run [] (Raised e) rest)
        ∧ (reaches_track_check s → e = AssertionError A_track_lengths))
  ∧ (Str.len ts = Str.len qs →
     _create_alignment s ≠ Raise (AssertionError A_track_lengths)).
Proof.
  intros Hts Hqs. split.
  - intros Hne.
    destruct (_create_alignment s) as [r|e] eqn:Hr.
    { apply create_alignment_Ok in Hr as Hb.
      destruct (b_sequences _ _ Hb) as (ts' & qs' & ? & ? & ? & _). congruence. }
    exists e. destruct (create_raises_no_record s e Hr) as [Hafter Hno].
    repeat split; [done..|].
    intros ([qn Hqn] & (n & Hql & Hmc) & [tn Htn] & [hn Hhn] & [hd Hhd]).
    revert Hr. unfold _create_alignment.
    rewrite Hqn, Hql, Hmc, Htn, Hhn, Hhd, Hqs, Hts. simpl.
    rewrite Z.eqb_refl. simpl.
    destruct (Z.eqb_spec (Str.len ts) (Str.len qs)); [done|]. simpl. congruence.
  - intros Heq. unfold _create_alignment. rewrite Hts, Hqs.
    apply Z.eqb_eq in Heq.
    repeat match goal with
           | |- (getattr _ ?o ≫= _) ≠ _ => destruct o; simpl; [|discriminate]
           | |- (from_option _ _ ?o ≫= _) ≠ _ => destruct o; simpl; [|discriminate]
           | |- (assert (Str.len ts =? Str.len qs) _ ≫= _) ≠ _ => rewrite Heq; simpl
           | |- (assert ?b _ ≫= _) ≠ _ => destruct b; simpl; [|discriminate]
           | |- (select_row ?l ≫= _) ≠ _ => destruct l; simpl; [discriminate|]
           | |- (numpy_operand ?o ≫= _) ≠ _ =>
               let H := fresh in
               destruct (numpy_operand o) eqn:H; simpl;
               [|apply numpy_operand_Raise in H as [->| ->]; discriminate]
           | |- (Seq_new ?a ?b ?c ≫= _) ≠ _ =>
               let H := fresh in
               destruct (Seq_new a b c) eqn:H; simpl;
               [|apply Seq_new_Raise in H as ->; discriminate]
           | |- (set_letter_annotation ?k ?v ?r ≫= _) ≠ _ =>
               let H := fresh in
               destruct (set_letter_annotation k v r) eqn:H; simpl;
               [|apply set_letter_annotation_Raise in H as ->; discriminate]
           end.
    discriminate.
Qed.

Lemma track_attached_padded (attr : option string) (gap : ascii)
    (rec : SeqRecord) (key : string) :
  track_attached attr gap rec key → track_padded attr gap rec key.
Proof.
  intros (t & Ht & Hkey & Hlen). exists t. eexists.
  split; [done|]. split; [done|]. by apply pad_track_padded.
Qed.

(** C6.  Every record the generator yields is one that
    [_create_alignment] returned.  It returns a record exactly in the
    states that pass its checks, one of which is that every track, put at
    its start, ends within the declared length of its sequence.  A record
    that it returns in a state [s] carries the tracks of [s]: each of the
    six per-residue tracks is the attribute of [s] with its gap
    characters removed (["-"], a blank for the confidence), with the
    blanks up to the start of its sequence before it and the blanks from
    its end up to the declared length of the sequence after it; it ends
    within that length and is exactly that long.  The two sequences carry
    no other track, so that every track of the record is as long as its
    sequence. *)
Theorem annotation_tracks_padded (s0 : self) (stream : list string) :
  (∀ r, r ∈ yielded (parse s0 stream) → ∃ s, _create_alignment s = Ok r)
  ∧ ∀ s,
      ((∃ r, _create_alignment s = Ok r) ↔ checks_pass s = true)
      ∧ ∀ r,
        _create_alignment s = Ok r →
        query_length s = Some (seq_length (seq (query_record r)))
        ∧ target_length s = Some (seq_length (seq (target_record r)))
        ∧ query_start s = Some (Some (seq_start (seq (query_record r))))
        ∧ target_start s = Some (Some (seq_start (seq (target_record r))))
        ∧ track_padded (query_consensus s) "-" (query_record r) "Consensus"
        ∧ track_padded (query_ss_pred s) "-" (query_record r) "ss_pred"
        ∧ track_padded (target_consensus s) "-" (target_record r) "Consensus"
        ∧ track_padded (target_ss_pred s) "-" (target_record r) "ss_pred"
        ∧ track_padded (target_ss_dssp s) "-" (target_record r) "ss_dssp"
        ∧ track_padded (confidence s) " " (target_record r) "Confidence"
        ∧ dom (letter_annotations (query_record r))
          = ({["Consensus"; "ss_pred"]} : gset string)
        ∧ dom (letter_annotations (target_record r))
          = ({["Consensus"; "ss_pred"; "ss_dssp"; "Confidence"]} : gset string)
        ∧ (∀ key track,
             letter_annotations (query_record r) !! key = Some track →
             Str.len track = seq_length (seq (query_record r)))
        ∧ (∀ key track,
             letter_annotations (target_record r) !! key = Some track →
             Str.len track = seq_length (seq (target_record r))).
Proof.
  split.
  { intros r (s & _ & Hr)%parse_built. eauto. }
  intros s. split; [apply create_alignment_checks|]. intros r Hr.
  apply create_alignment_Ok in Hr as Hb.
  pose proof (b_query_consensus _ _ Hb) as Hqc.
  pose proof (b_query_ss_pred _ _ Hb) as Hqp.
  pose proof (b_target_consensus _ _ Hb) as Htc.
  pose proof (b_target_ss_pred _ _ Hb) as Htp.
  pose proof (b_target_ss_dssp _ _ Hb) as Htd.
  pose proof (b_confidence _ _ Hb) as Hcf.
  split; [apply (b_query_length _ _ Hb)|].
  split; [apply (b_target_length _ _ Hb)|].
  split; [apply (b_query_start _ _ Hb)|].
  split; [apply (b_target_start _ _ Hb)|].
  do 6 (split; [by apply track_attached_padded|]).
  split; [apply (b_query_tracks _ _ Hb)|].
  split; [apply (b_target_tracks _ _ Hb)|].
  split.
  - intros key track Hkey.
    assert (key ∈ dom (letter_annotations (query_record r))) as Hdom
      by (apply elem_of_dom; eauto).
    rewrite (b_query_tracks _ _ Hb) in Hdom.
    destruct Hqc as (? & _ & Ht1 & ?).
    destruct Hqp as (? & _ & Ht2 & ?).
    apply elem_of_union in Hdom as [->%elem_of_singleton| ->%elem_of_singleton];
      congruence.
  - intros key track Hkey.
    assert (key ∈ dom (letter_annotations (target_record r))) as Hdom
      by (apply elem_of_dom; eauto).
    rewrite (b_target_tracks _ _ Hb) in Hdom.
    destruct Htc as (? & _ & Ht1 & ?).
    destruct Htp as (? & _ & Ht2 & ?).
    destruct Htd as (? & _ & Ht3 & ?).
    destruct Hcf as (? & _ & Ht4 & ?).
    repeat apply elem_of_union in Hdom as [Hdom|Hdom];
      apply elem_of_singleton in Hdom as ->; congruence.
Qed.

(** *** The prefix check of a Q sequence line *)

(** C3 (as the code has it).  On a Q sequence line the parser checks that
    the [<name>] of the line is a prefix of the query identifier of the
    header, [query_name]: if it is not, the loop stops with the
    [AssertionError] of line 220; if it is, and the numbers of the line
    read, the line is accepted: its total, start (when none is stored yet)
    and segment are stored and the loop goes on. *)
Theorem name_is_prefix_of_query_name
    (s : self) (line : string) (rest : list string)
    (key1 name start sequence end_ total qn : string) :
  classify (Str.rstrip line) = Q_sequence →
  Str.split (Str.rstrip line) = [key1; name; start; sequence; end_; total] →
  query_name s = Some qn →
  (String.prefix name qn = false →
   parse_loop s (line :: rest) = Run [] (Raised (AssertionError A_query_name)) rest)
  ∧ (String.prefix name qn = true →
     ∀ a b n q0 qs,
       Str.int start = Some a → Str.int end_ = Some b →
       read_total total = Ok n →
       query_start s = Some q0 → query_sequence s = Some qs →
       parse_loop s (line :: rest)
       = parse_loop
           (set_query_sequence (Some (qs +:+ sequence))
              (let s := set_query_length (Some n) s in
               match q0 with
               | None => set_query_start (Some (Some (a - 1))) s
               | Some _ => s
               end))
           rest).
Proof.
  intros Htag Hsplit Hqn. split.
  - intros Hpre. simpl. rewrite Htag. unfold accumulate.
    rewrite Hsplit, Hqn. simpl. unfold Str.startswith. by rewrite Hpre.
  - intros Hpre a b n q0 qs Ha Hb Hn Hq0 Hqs. simpl. rewrite Htag.
    unfold accumulate. rewrite Hsplit, Hqn. simpl.
    unfold Str.startswith. rewrite Hpre. simpl.
    unfold py_int. rewrite Ha, Hb. simpl. rewrite Hn. simpl.
    rewrite Hq0. simpl. destruct q0; simpl; by rewrite Hqs.
Qed.

(** *** The sentinel *)

(** C4 (as the code has it).  After a [Done!] line the generator asks the
    stream for one more line: if the stream gives one, blank or not, it
    raises the [ValueError] of lines 193-195; if the stream is exhausted,
    the loop ends and the last record is built. *)
Theorem nothing_follows_done (s : self) (line : string) (rest : list string) :
  Str.rstrip line = "Done!" →
  parse_loop s (line :: rest)
  = match rest with
    | [] => after_loop s
    | _ :: rest' => Run [] (Raised (ValueError AdditionalData)) rest'
    end.
Proof. intros Hline. simpl. rewrite Hline. by destruct rest. Qed.

(** *** The header *)

Lemma only_ValueError_Ok {A : Type} (a : A) : only_ValueError (Ok a).
Proof. intros e. discriminate. Qed.

Lemma only_ValueError_Raise {A : Type} (v : value_error) :
  only_ValueError (Raise (ValueError v) : result A).
Proof. intros e [= <-]. eauto. Qed.

Lemma only_ValueError_bind {A B : Type} (r : result A) (k : A → result B) :
  only_ValueError r → (∀ a, only_ValueError (k a)) → only_ValueError (r ≫= k).
Proof.
  intros Hr Hk e. destruct r as [a|e']; simpl; [apply Hk|].
  intros [= <-]. by apply Hr.
Qed.

Lemma only_ValueError_if {A : Type} (b : bool) (r1 r2 : result A) :
  only_ValueError r1 → only_ValueError r2 → only_ValueError (if b then r1 else r2).
Proof. by destruct b. Qed.

Lemma only_ValueError_unpack2 (l : list string) : only_ValueError (unpack2 l).
Proof. intros e. destruct l as [|? [|? [|? ?]]]; simpl; intros [= <-]; eauto. Qed.

Lemma only_ValueError_py_int (x : string) : only_ValueError (py_int x).
Proof. intros e. unfold py_int. destruct (Str.int x); intros [= <-]; eauto. Qed.

Lemma only_ValueError_py_float (x : string) : only_ValueError (py_float x).
Proof. intros e. unfold py_float. destruct (float_of_string x); intros [= <-]; eauto. Qed.

Create HintDb value_error.
#[local] Hint Resolve only_ValueError_Ok only_ValueError_Raise
  only_ValueError_unpack2 only_ValueError_py_int only_ValueError_py_float
  : value_error.

(** Whatever a header line raises is a [ValueError]. *)
Lemma header_line_only_ValueError (line : string)
    (st : option string * gmap string mvalue) :
  only_ValueError (header_line line st).
Proof.
  unfold header_line. destruct st as [qn md].
  repeat first
    [ apply only_ValueError_bind; [auto with value_error|]; intros; try case_match
    | apply only_ValueError_if
    | solve [auto with value_error] ].
Qed.

(** An unknown key makes the header line raise: ["Unknown key ..."] when
    the line has a value after its key, the failed unpacking of line 54
    when it has none. *)
Lemma header_line_unknown (line : string) (st : option string * gmap string mvalue) :
  default "" (head (Str.split1 line)) ∉ known_keys →
  ∃ v, header_line line st = Raise (ValueError v)
       ∧ ∀ key value, Str.split1 line = [key; value] → v = UnknownKey key.
Proof.
  intros Hkey. unfold header_line. destruct st as [qn md].
  destruct (Str.split1 line) as [|key [|value [|? ?]]] eqn:Hsplit; simpl;
    try (eexists; split; [done|]; intros; discriminate).
  simpl in Hkey. unfold known_keys in Hkey.
  repeat (apply not_elem_of_cons in Hkey as [? Hkey]).
  repeat (rewrite bool_decide_eq_false_2 by done). simpl.
  eexists. split; [done|]. by intros ? ? [= <- <-].
Qed.

Lemma read_header_unknown (pre : list string) (line : string) (post : list string) :
  Forall (λ l, Str.strip l ≠ "") pre →
  Str.strip line ≠ "" →
  header_key line ∉ known_keys →
  ∀ st,
    (∃ v, read_header (pre ++ line :: post) st = Raise (ValueError v))
    ∧ (∀ st' key value,
         header_lines pre st = Ok st' →
         Str.split1 (Str.strip line) = [key; value] →
         read_header (pre ++ line :: post) st = Raise (ValueError (UnknownKey key))).
Proof.
  intros Hpre Hline Hkey. induction Hpre as [|l pre Hl Hpre IH]; intros st; simpl.
  - rewrite bool_decide_eq_false_2 by done.
    destruct (header_line_unknown (Str.strip line) st Hkey) as (v & -> & Hv).
    split; [eauto|]. intros st' key value _ Hsplit. by rewrite (Hv key value).
  - rewrite bool_decide_eq_false_2 by done.
    destruct (header_line (Str.strip l) st) as [st1|e] eqn:Hhl.
    + apply IH.
    + apply header_line_only_ValueError in Hhl as [v ->].
      split; [eauto|]. discriminate.
Qed.

(** C8.  A header line, before the first blank line, whose key is none of
    the known ones makes the constructor raise a [ValueError], so that
    there is no iterator and no record; the error is ["Unknown key ..."]
    when the lines before it are accepted and the line has a value after
    its key. *)
Theorem unknown_header_key (pre : list string) (line : string) (post : list string) :
  Forall (λ l, Str.strip l ≠ "") pre →
  Str.strip line ≠ "" →
  header_key line ∉ known_keys →
  (∃ v, __init__ (pre ++ line :: post) = Raise (ValueError v)
        ∧ read (pre ++ line :: post) = Raise (ValueError v))
  ∧ (∀ st key value,
       header_lines pre (None, ∅) = Ok st →
       Str.split1 (Str.strip line) = [key; value] →
       __init__ (pre ++ line :: post) = Raise (ValueError (UnknownKey key))
       ∧ read (pre ++ line :: post) = Raise (ValueError (UnknownKey key))).
Proof.
  intros Hpre Hline Hkey.
  destruct (read_header_unknown pre line post Hpre Hline Hkey (None, ∅))
    as [[v Hv] Hexact].
  split.
  - exists v. unfold read, __init__. by rewrite Hv.
  - intros st key value Hst Hsplit. unfold read, __init__.
    by rewrite (Hexact st key value Hst Hsplit).
Qed.

(** *** One hit: its header and its blocks *)

Lemma parse_loop_open_hit (s s1 : self) (hdr ann : string) (rest : list string) :
  classify (Str.rstrip hdr) = Header →
  open_hit s hdr ann = Ok s1 →
  parse_loop s (hdr :: ann :: rest) = parse_loop s1 rest.
Proof.
  intros Htag H. unfold open_hit in H. simpl. rewrite Htag.
  destruct (reset_hit s (Str.rstrip hdr)) as [s'|]; [|discriminate].
  simpl in H. destruct (read_annotations ann) as [a|]; [|discriminate].
  by simplify_eq/=.
Qed.

Lemma parse_loop_accumulate_lines (lines : list string) :
  ∀ (s s2 : self) (rest : list string),
    Forall (λ l, accumulates (classify (Str.rstrip l)) = true) lines →
    accumulate_lines s lines = Ok s2 →
    parse_loop s (lines ++ rest) = parse_loop s2 rest.
Proof.
  induction lines as [|line lines IH]; intros s s2 rest Hall H.
  - by simplify_eq/=.
  - apply Forall_cons in Hall as [Hline Hall]. simpl in *.
    destruct (classify (Str.rstrip line)) eqn:Htag; try discriminate;
      try (destruct (accumulate s _ (Str.rstrip line)); [|discriminate]);
      by apply IH.
Qed.

Lemma hit_read_parse_loop (s s2 : self) (hdr ann : string) (lines rest : list string) :
  hit_read s hdr ann lines s2 →
  parse_loop s (hdr :: ann :: lines ++ rest) = parse_loop s2 rest.
Proof.
  intros (Htag & Hall & s1 & Hopen & Hacc).
  rewrite (parse_loop_open_hit s s1) by done.
  by apply parse_loop_accumulate_lines.
Qed.

(** *** The scalar annotations of a hit *)

Lemma unpack6_Ok (l : list string) (a b c d e f : string) :
  unpack6 l = Ok (a, b, c, d, e, f) → l = [a; b; c; d; e; f].
Proof.
  destruct l as [|? [|? [|? [|? [|? [|? [|? ?]]]]]]]; simpl; congruence.
Qed.

Lemma unpack2_Ok (l : list string) (a b : string) :
  unpack2 l = Ok (a, b) → l = [a; b].
Proof. destruct l as [|? [|? [|? ?]]]; simpl; congruence. Qed.

Lemma annotation_words_Ok (words : list string) :
  ∀ (m0 m : gmap string float),
    annotation_words words m0 = Ok m →
    Forall (λ w, is_Some (key_value w)) words
    ∧ dom m = dom m0 ∪ list_to_set
                         (filter (λ k, k ≠ "Aligned_cols") (omap key_value words).*1)
    ∧ (∀ k x, m !! k = Some x →
              m0 !! k = Some x
              ∨ ∃ v, (k, v) ∈ omap key_value words
                     ∧ float_of_string (value_text k v) = Some x).
Proof.
  induction words as [|word words IH]; intros m0 m H.
  - simplify_eq/=. split; [done|]. split; [set_solver|]. eauto.
  - simpl in H.
    destruct (unpack2 (Str.split_sep "=" word)) as [[key value]|] eqn:Hword;
      [|discriminate].
    apply unpack2_Ok in Hword.
    assert (key_value word = Some (key, value)) as Hkv
      by (unfold key_value; by rewrite Hword).
    simpl. rewrite Hkv. simpl.
    case_bool_decide as Hkey.
    + apply IH in H as (Hall & Hdom & Hval).
      split; [by constructor|]. split.
      * rewrite Hdom, filter_cons_False by (intros ?; done). done.
      * intros k x [?|(v & Hin & Hx)]%Hval; [by left|].
        right. exists v. split; [by apply elem_of_cons; right|done].
    + destruct (py_float _) as [x|] eqn:Hx; [|discriminate].
      apply IH in H as (Hall & Hdom & Hval).
      split; [by constructor|]. split.
      * rewrite Hdom, filter_cons_True by done.
        rewrite dom_insert_L. set_solver.
      * intros k y [Hk|(v & Hin & Hy)]%Hval.
        -- destruct (decide (k = key)) as [->|Hne].
           ++ rewrite lookup_insert_eq in Hk. simplify_eq.
              right. exists value. split; [by apply elem_of_cons; left|].
              unfold py_float, value_text in *.
              destruct (float_of_string _); congruence.
           ++ rewrite lookup_insert_ne in Hk by done. by left.
        -- right. exists v. split; [by apply elem_of_cons; right|done].
Qed.

Lemma accumulate_lines_same (lines : list string) :
  ∀ s s', accumulate_lines s lines = Ok s' →
          same_source s s' ∧ counter s' = counter s
          ∧ annotations s' = annotations s.
Proof.
  induction lines as [|line lines IH]; intros s s' H.
  - by simplify_eq/=.
  - simpl in H.
    destruct (classify (Str.rstrip line)) eqn:Htag;
      try (destruct (accumulate s _ (Str.rstrip line)) as [s1|] eqn:Hacc;
           [|discriminate];
           apply accumulate_same in Hacc as ((? & ? & ?) & ? & ?);
           apply IH in H as ((? & ? & ?) & ? & ?);
           unfold same_source; repeat split; congruence);
      try discriminate.
    by apply IH.
Qed.

(** C7.  For a hit read from its [>] line on, the record built carries as
    its scalar annotations the mapping read from the line [ann] after the
    [>] line: every word of that line is [key=value]; the keys of the
    mapping are the keys of these words other than "Aligned_cols"; and
    every value stored under a key is [float] of the value text of a word
    with that key, the text being stripped of its trailing percent signs
    when the key is "Identities". *)
Theorem hit_annotations (s : self) (hdr ann : string) (lines : list string)
    (s2 : self) (r : Alignment) :
  hit_read s hdr ann lines s2 →
  _create_alignment s2 = Ok r →
  let words := Str.split ann in
  let pairs := omap key_value words in
  read_annotations ann = Ok (alignment_annotations r)
  ∧ Forall (λ w, is_Some (key_value w)) words
  ∧ dom (alignment_annotations r)
    = list_to_set (filter (λ k, k ≠ "Aligned_cols") pairs.*1)
  ∧ (∀ k x, alignment_annotations r !! k = Some x →
            ∃ v, (k, v) ∈ pairs ∧ float_of_string (value_text k v) = Some x).
Proof.
  intros (_ & _ & s1 & Hopen & Hacc) Hr. simpl.
  apply accumulate_lines_same in Hacc as (_ & _ & Han).
  apply create_alignment_Ok in Hr as Hb.
  rewrite (b_annotations _ _ Hb) in Han.
  unfold open_hit in Hopen.
  destruct (reset_hit s (Str.rstrip hdr)) as [s'|]; [|discriminate].
  simpl in Hopen.
  destruct (read_annotations ann) as [a|] eqn:Hann; [|discriminate].
  simplify_eq/=. split; [done|].
  apply annotation_words_Ok in Hann as (Hall & Hdom & Hval).
  split; [done|]. split.
  - rewrite Hdom, dom_empty_L. set_solver.
  - intros k x [Hk|?]%Hval; [|done]. by rewrite lookup_empty in Hk.
Qed.

(** *** Wrapped blocks *)

Lemma py_int_Ok (x : string) (z : Z) : py_int x = Ok z → Str.int x = Some z.
Proof. unfold py_int. destruct (Str.int x); congruence. Qed.

(** The common end of the two proofs below, on the inverted steps of a
    sequence line. *)
Ltac segment_step :=
  match goal with H : unpack6 _ = Ok _ |- _ => apply unpack6_Ok in H as -> end;
  repeat match goal with H : py_int _ = Ok _ |- _ => apply py_int_Ok in H end;
  match goal with
  | H : Str.int ?x = Some _ |- context [Str.int ?x] => rewrite H; simpl
  end;
  match goal with
  | H : getattr _ _ = Ok ?o, H' : iadd _ _ _ = Ok _ |- _ =>
      apply getattr_Ok in H; simpl in H;
      let x := fresh "x" in
      apply iadd_Ok in H' as (x & ? & ->);
      exists x, o; destruct o; simplify_eq/=; by repeat split
  end.

(** What one accumulating line does to the query sequence and start. *)
Lemma accumulate_query (s s' : self) (t : tag) (line : string) :
  accumulate s t line = Ok s' →
  match (if bool_decide (t = Q_sequence) then segment_fields line else None) with
  | Some (off, seg) =>
      ∃ qs q0, query_sequence s = Some qs ∧ query_start s = Some q0
               ∧ query_sequence s' = Some (qs +:+ seg)
               ∧ query_start s' = Some (Some (default off q0))
  | None => query_sequence s' = query_sequence s ∧ query_start s' = query_start s
  end.
Proof.
  intros H. unfold accumulate in H.
  destruct t; cbv beta iota in H; try discriminate;
    rewrite ?bool_decide_eq_false_2 by done;
    try (bind_inv H; repeat case_match; by simplify_eq/=).
  rewrite bool_decide_eq_true_2 by done.
  bind_inv H. unfold segment_fields. segment_step.
Qed.

(** What one accumulating line does to the target sequence and start. *)
Lemma accumulate_target (s s' : self) (t : tag) (line : string) :
  accumulate s t line = Ok s' →
  match (if bool_decide (t = T_sequence) then segment_fields line else None) with
  | Some (off, seg) =>
      ∃ ts t0, target_sequence s = Some ts ∧ target_start s = Some t0
               ∧ target_sequence s' = Some (ts +:+ seg)
               ∧ target_start s' = Some (Some (default off t0))
  | None => target_sequence s' = target_sequence s ∧ target_start s' = target_start s
  end.
Proof.
  intros H. unfold accumulate in H.
  destruct t; cbv beta iota in H; try discriminate;
    rewrite ?bool_decide_eq_false_2 by done;
    try (bind_inv H; repeat case_match; by simplify_eq/=).
  rewrite bool_decide_eq_true_2 by done.
  bind_inv H. unfold segment_fields. segment_step.
Qed.

Lemma accumulate_lines_query (lines : list string) :
  ∀ s s' qs q0,
    accumulate_lines s lines = Ok s' →
    query_sequence s = Some qs → query_start s = Some q0 →
    query_sequence s' = Some (qs +:+ joined (segments Q_sequence lines))
    ∧ query_start s' = Some (first_start q0 (segments Q_sequence lines)).
Proof.
  induction lines as [|line lines IH]; intros s s' qs q0 H Hqs Hq0.
  - simplify_eq/=. rewrite append_nil_r. by destruct q0.
  - simpl in H. unfold segments. simpl. unfold segment_of.
    destruct (classify (Str.rstrip line)) eqn:Htag;
      try (destruct (accumulate s _ (Str.rstrip line)) as [s1|] eqn:Hacc;
           [|discriminate];
           apply accumulate_query in Hacc);
      try discriminate;
      rewrite ?bool_decide_eq_false_2 in * by done;
      try (destruct Hacc as [Hqs1 Hq1]; rewrite Hqs in Hqs1; rewrite Hq0 in Hq1;
           by apply (IH s1 s')).
    + by apply (IH s s').
    + rewrite !bool_decide_eq_true_2 in * by done.
      destruct (segment_fields (Str.rstrip line)) as [[off seg]|].
      * destruct Hacc as (qs' & q0' & ? & ? & Hqs1 & Hq1). simplify_eq. simpl.
        destruct (IH s1 s' _ _ H Hqs1 Hq1) as [-> ->].
        rewrite append_assoc. split; [done|].
        match goal with |- context [first_start ?o _] => by destruct o end.
      * destruct Hacc as [Hqs1 Hq1]. rewrite Hqs in Hqs1. rewrite Hq0 in Hq1.
        by apply (IH s1 s').
Qed.

Lemma accumulate_lines_target (lines : list string) :
  ∀ s s' ts t0,
    accumulate_lines s lines = Ok s' →
    target_sequence s = Some ts → target_start s = Some t0 →
    target_sequence s' = Some (ts +:+ joined (segments T_sequence lines))
    ∧ target_start s' = Some (first_start t0 (segments T_sequence lines)).
Proof.
  induction lines as [|line lines IH]; intros s s' ts t0 H Hts Ht0.
  - simplify_eq/=. rewrite append_nil_r. by destruct t0.
  - simpl in H. unfold segments. simpl. unfold segment_of.
    destruct (classify (Str.rstrip line)) eqn:Htag;
      try (destruct (accumulate s _ (Str.rstrip line)) as [s1|] eqn:Hacc;
           [|discriminate];
           apply accumulate_target in Hacc);
      try discriminate;
      rewrite ?bool_decide_eq_false_2 in * by done;
      try (destruct Hacc as [Hts1 Ht1]; rewrite Hts in Hts1; rewrite Ht0 in Ht1;
           by apply (IH s1 s')).
    + by apply (IH s s').
    + rewrite !bool_decide_eq_true_2 in * by done.
      destruct (segment_fields (Str.rstrip line)) as [[off seg]|].
      * destruct Hacc as (ts' & t0' & ? & ? & Hts1 & Ht1). simplify_eq. simpl.
        destruct (IH s1 s' _ _ H Hts1 Ht1) as [-> ->].
        rewrite append_assoc. split; [done|].
        match goal with |- context [first_start ?o _] => by destruct o end.
      * destruct Hacc as [Hts1 Ht1]. rewrite Hts in Hts1. rewrite Ht0 in Ht1.
        by apply (IH s1 s').
Qed.

(** A record that [_create_alignment] returns is the one the loop yields:
    the only one when the stream ends, the first one at a [No] line. *)
Lemma create_returns_record (s : self) (r : Alignment) :
  _create_alignment s = Ok r →
  yielded (after_loop s) = [r]
  ∧ ∀ line rest, classify (Str.rstrip line) = No → 0 < counter s →
                 head (yielded (parse_loop s (line :: rest))) = Some r.
Proof.
  intros Hr. split.
  - unfold after_loop. by rewrite Hr.
  - intros line rest Htag Hc. simpl. rewrite Htag.
    destruct (Z.ltb_spec 0 (counter s)); [|lia]. rewrite Hr.
    by destruct (count_hit s (Str.rstrip line)).
Qed.

(** C2.  For a hit read from its [>] line on, whatever the number of
    blocks its lines [lines] make: no record is yielded while they are
    read; the gapped query and target tracks are then the concatenation,
    in order, of the [<seq>] words of the Q and T sequence lines, and the
    stored starts are the offsets [<start> - 1] of the first Q and the
    first T sequence line.  When the checks of [_create_alignment] pass on
    these attributes, one record is built from them: it is yielded alone
    when the stream ends there, and first when a [No] line follows; its
    residues are these tracks without their gaps, its starts are these
    offsets, and its coordinates are those inferred from these tracks:
    they begin at the two starts and end at the starts plus the numbers
    of residues.  When the checks do not pass, the hit gives no record:
    the generator stops with an exception. *)
Theorem wrapped_blocks_concatenate (s : self) (hdr ann : string)
    (lines : list string) (s2 : self) :
  hit_read s hdr ann lines s2 →
  let qsegs := segments Q_sequence lines in
  let tsegs := segments T_sequence lines in
  (∀ rest, parse_loop s (hdr :: ann :: lines ++ rest) = parse_loop s2 rest)
  ∧ query_sequence s2 = Some (joined qsegs)
  ∧ target_sequence s2 = Some (joined tsegs)
  ∧ query_start s2 = Some (fst <$> head qsegs)
  ∧ target_start s2 = Some (fst <$> head tsegs)
  ∧ (checks_pass s2 = false →
     ∃ e, parse_loop s (hdr :: ann :: lines) = Run [] (Raised e) [])
  ∧ (checks_pass s2 = true →
     ∃ r,
       _create_alignment s2 = Ok r
       ∧ yielded (parse_loop s (hdr :: ann :: lines)) = [r]
       ∧ (∀ line rest, classify (Str.rstrip line) = No → 0 < counter s2 →
            head (yielded (parse_loop s (hdr :: ann :: lines ++ line :: rest)))
            = Some r)
       ∧ seq_residues (seq (query_record r)) = Str.remove "-" (joined qsegs)
       ∧ seq_residues (seq (target_record r)) = Str.remove "-" (joined tsegs)
       ∧ fst <$> head qsegs = Some (seq_start (seq (query_record r)))
       ∧ fst <$> head tsegs = Some (seq_start (seq (target_record r)))
       ∧ coordinates r
         = row_iadd false
             (row_iadd true (infer_coordinates (joined tsegs) (joined qsegs))
                (seq_start (seq (target_record r))))
             (seq_start (seq (query_record r)))
       ∧ head (coordinates r)
         = Some (seq_start (seq (target_record r)),
                 seq_start (seq (query_record r)))
       ∧ last (coordinates r)
         = Some (wrap64 (seq_start (seq (target_record r))
                         + Str.len (Str.remove "-" (joined tsegs))),
                 wrap64 (seq_start (seq (query_record r))
                         + Str.len (Str.remove "-" (joined qsegs))))).
Proof.
  intros Hread. pose proof Hread as (Htag & Hall & s1 & Hopen & Hacc). cbv zeta.
  assert (query_sequence s1 = Some "" ∧ query_start s1 = Some None
          ∧ target_sequence s1 = Some "" ∧ target_start s1 = Some None)
    as (Hqs & Hq0 & Hts & Ht0).
  { unfold open_hit in Hopen. bind_inv Hopen.
    unfold reset_hit in Hstep. bind_inv Hstep. by simplify_eq/=. }
  destruct (accumulate_lines_query lines s1 s2 _ _ Hacc Hqs Hq0) as [Hqs2 Hq2].
  destruct (accumulate_lines_target lines s1 s2 _ _ Hacc Hts Ht0) as [Hts2 Ht2].
  pose proof (hit_read_parse_loop s s2 hdr ann lines [] Hread) as Hend.
  rewrite app_nil_r in Hend.
  split; [intros rest; by apply hit_read_parse_loop|].
  do 4 (split; [done|]).
  split.
  { intros Hno. rewrite Hend. simpl. unfold after_loop.
    destruct (_create_alignment s2) as [r|e] eqn:Hr; [|eauto].
    assert (checks_pass s2 = true) by (apply create_alignment_checks; eauto).
    congruence. }
  intros [r Hr]%create_alignment_checks. exists r. split; [done|].
  destruct (create_returns_record s2 r Hr) as [Hlast Hnext].
  split; [by rewrite Hend|].
  split.
  { intros line rest Hno Hc. rewrite (hit_read_parse_loop s s2) by done. auto. }
  destruct (create_alignment_ends s2 r Hr) as [Hhd Hla].
  apply create_alignment_Ok in Hr as Hb.
  destruct (b_sequences _ _ Hb) as (ts & qs & Hts' & Hqs' & _ & Hrt & Hrq & Hco).
  pose proof (b_query_start _ _ Hb) as Hqb.
  pose proof (b_target_start _ _ Hb) as Htb.
  rewrite Hts2 in Hts'. rewrite Hqs2 in Hqs'.
  rewrite Hq2 in Hqb. rewrite Ht2 in Htb.
  simplify_eq/=. rewrite Hrt, Hrq in Hla. by repeat split.
Qed.

(** *** The totals of a hit *)

(** A Q (T) sequence line leaves in [query_length] ([target_length]) the
    total it declares itself and does not touch the other; no other
    accumulating line touches the two attributes. *)
Lemma accumulate_totals (s s' : self) (t : tag) (line : string) :
  accumulate s t line = Ok s' →
  match t with
  | Q_sequence =>
      is_Some (declared_total line)
      ∧ query_length s' = declared_total line
      ∧ target_length s' = target_length s
  | T_sequence =>
      is_Some (declared_total line)
      ∧ target_length s' = declared_total line
      ∧ query_length s' = query_length s
  | _ => query_length s' = query_length s ∧ target_length s' = target_length s
  end.
Proof.
  intros H. unfold accumulate in H.
  destruct t; cbv beta iota in H; try discriminate; bind_inv H;
    try (by simplify_eq/=);
    unfold declared_total;
    (destruct (Str.split line) as [|? [|? [|? [|? [|? [|? [|]]]]]]];
       try discriminate);
    match goal with H : read_total _ = Ok _ |- _ => simplify_eq/=; rewrite H end.
  - match goal with H : getattr "query_start" _ = Ok ?o |- _ => destruct o end;
      simplify_eq/=; eauto.
  - match goal with H : getattr "target_start" _ = Ok ?o |- _ => destruct o end;
      simplify_eq/=; eauto.
Qed.

Lemma hit_read_same (s s2 : self) (hdr ann : string) (lines : list string) :
  hit_read s hdr ann lines s2 → same_source s s2 ∧ counter s2 = counter s.
Proof.
  intros (_ & _ & s1 & Hopen & Hacc). unfold open_hit in Hopen.
  destruct (reset_hit s (Str.rstrip hdr)) as [s0|] eqn:Hreset; [|discriminate].
  simpl in Hopen. destruct (read_annotations ann) as [a|]; [|discriminate].
  simplify_eq/=.
  destruct (reset_hit_same _ _ _ Hreset) as [Hsrc0 Hc0].
  destruct (accumulate_lines_same _ _ _ Hacc) as (Hsrc & Hc & _).
  split; [|by rewrite Hc].
  apply (same_source_trans _ s0); [done|].
  by apply (same_source_trans _ (set_annotations (Some a) s0)).
Qed.

Lemma last_cons_from {A : Type} (x : A) (l : list A) (d : option A) :
  from_option Some d (last (x :: l)) = from_option Some (Some x) (last l).
Proof. rewrite last_cons. by destruct (last l). Qed.

(** After the lines of a hit the two stored totals are the last that a Q
    and a T sequence line declared, and the ones stored before when there
    is no such line. *)
Lemma accumulate_lines_totals (lines : list string) :
  ∀ s s',
    accumulate_lines s lines = Ok s' →
    query_length s'
    = from_option Some (query_length s) (last (omap (total_of Q_sequence) lines))
    ∧ target_length s'
      = from_option Some (target_length s) (last (omap (total_of T_sequence) lines)).
Proof.
  induction lines as [|line lines IH]; intros s s' H.
  - by simplify_eq/=.
  - simpl in H.
    assert (∀ t, omap (total_of t) (line :: lines)
                 = match (if bool_decide (classify (Str.rstrip line) = t)
                          then declared_total (Str.rstrip line) else None) with
                   | Some n => n :: omap (total_of t) lines
                   | None => omap (total_of t) lines
                   end) as Hcons by done.
    rewrite !Hcons. clear Hcons.
    destruct (classify (Str.rstrip line)) eqn:Htag;
      try (destruct (accumulate s _ (Str.rstrip line)) as [s1|] eqn:Hacc;
           [|discriminate];
           apply accumulate_totals in Hacc);
      try discriminate;
      rewrite ?bool_decide_eq_false_2 by done;
      rewrite ?bool_decide_eq_true_2 by done;
      try (destruct Hacc as [<- <-]; by apply IH).
    + by apply IH.
    + destruct Hacc as ([n Hn] & Hq & <-). rewrite Hn in *.
      rewrite last_cons_from, <- Hq. by apply IH.
    + destruct Hacc as ([n Hn] & Ht & <-). rewrite Hn in *.
      rewrite last_cons_from, <- Ht. by apply IH.
Qed.

(** C9 (as the code has it).  No line compares the total it declares with
    the one stored: a Q (T) sequence line is processed in the same way
    whatever total an earlier line has stored.  After the lines of a hit
    the stored totals are the last that its Q and its T sequence lines
    declare.  When the checks of [_create_alignment] pass, the one record
    of the hit has these last totals as the declared lengths of its
    sequences.  But the last total of the Q lines is checked against
    [Match_columns] (line 104): when it differs, the hit gives no record
    and the generator stops with an [AssertionError]. *)
Theorem last_total_is_used (s : self) (hdr ann : string)
    (lines : list string) (s2 : self) :
  hit_read s hdr ann lines s2 →
  let qtotals := omap (total_of Q_sequence) lines in
  let ttotals := omap (total_of T_sequence) lines in
  (∀ s old line,
     accumulate (set_query_length old s) Q_sequence line
     = accumulate s Q_sequence line)
  ∧ (∀ s old line,
       accumulate (set_target_length old s) T_sequence line
       = accumulate s T_sequence line)
  ∧ query_length s2 = from_option Some (query_length s) (last qtotals)
  ∧ target_length s2 = from_option Some (target_length s) (last ttotals)
  ∧ (∀ n m,
       last qtotals = Some n → last ttotals = Some m →
       checks_pass s2 = true →
       ∃ r, _create_alignment s2 = Ok r
            ∧ yielded (parse_loop s (hdr :: ann :: lines)) = [r]
            ∧ seq_length (seq (query_record r)) = n
            ∧ seq_length (seq (target_record r)) = m)
  ∧ (∀ n m,
       last qtotals = Some n →
       metadata s !! "Match_columns" = Some (MInt m) → n ≠ m →
       is_Some (query_name s) →
       checks_pass s2 = false
       ∧ parse_loop s (hdr :: ann :: lines)
         = Run [] (Raised (AssertionError A_match_columns)) []
       ∧ ∀ line rest,
           classify (Str.rstrip line) = No → 0 < counter s2 →
           parse_loop s (hdr :: ann :: lines ++ line :: rest)
           = Run [] (Raised (AssertionError A_match_columns)) rest).
Proof.
  intros Hread. pose proof Hread as (Htag & Hall & s1 & Hopen & Hacc). cbv zeta.
  assert (query_length s1 = query_length s ∧ target_length s1 = target_length s)
    as [Hq1 Ht1].
  { unfold open_hit in Hopen. bind_inv Hopen.
    unfold reset_hit in Hstep. bind_inv Hstep. by simplify_eq/=. }
  destruct (accumulate_lines_totals lines s1 s2 Hacc) as [Hq2 Ht2].
  rewrite Hq1 in Hq2. rewrite Ht1 in Ht2.
  pose proof (hit_read_parse_loop s s2 hdr ann lines [] Hread) as Hend.
  rewrite app_nil_r in Hend.
  split; [done|]. split; [done|]. split; [done|]. split; [done|].
  split.
  - intros n m Hn Hm [r Hr]%create_alignment_checks.
    exists r. split; [done|].
    split; [rewrite Hend; simpl; unfold after_loop; by rewrite Hr|].
    apply create_alignment_Ok in Hr as Hb.
    pose proof (b_query_length _ _ Hb) as Hql.
    pose proof (b_target_length _ _ Hb) as Htl.
    rewrite Hq2, Hn in Hql. rewrite Ht2, Hm in Htl. simpl in *.
    by simplify_eq.
  - intros n m Hn Hmc Hne [qn Hqn].
    destruct (hit_read_same _ _ _ _ _ Hread) as [(_ & Hmd & Hname) _].
    rewrite Hn in Hq2. simpl in Hq2.
    assert (_create_alignment s2 = Raise (AssertionError A_match_columns)) as Hr.
    { unfold _create_alignment. rewrite Hname, Hqn, Hq2, Hmd, Hmc. simpl.
      by destruct (Z.eqb_spec n m). }
    split; [|split].
    + destruct (checks_pass s2) eqn:Hc; [|done].
      apply create_alignment_checks in Hc as [r Hr']. congruence.
    + rewrite Hend. simpl. unfold after_loop. by rewrite Hr.
    + intros line rest Hno Hc. rewrite (hit_read_parse_loop s s2) by done.
      simpl. rewrite Hno. destruct (Z.ltb_spec 0 (counter s2)); [|lia].
      by rewrite Hr.
Qed.

(** ** Further properties of the constructor and of the generator *)

(** *** The constructor *)

Lemma read_header_app (pre : list string) :
  ∀ (st st' : option string * gmap string mvalue) (rest : list string),
    Forall (λ l, Str.strip l ≠ "") pre →
    header_lines pre st = Ok st' →
    read_header (pre ++ rest) st = read_header rest st'.
Proof.
  induction pre as [|l pre IH]; intros st st' rest Hpre H; simpl in *.
  - by simplify_eq.
  - apply Forall_cons in Hpre as [Hl Hpre].
    rewrite bool_decide_eq_false_2 by done.
    destruct (header_line (Str.strip l) st) as [st1|]; [|discriminate].
    by apply IH.
Qed.

Lemma read_header_Ok (stream : list string) :
  ∀ (st st' : option string * gmap string mvalue) (body : list string),
    read_header stream st = Ok (st', body) →
    ∃ hdr, Forall (λ l, Str.strip l ≠ "") hdr
           ∧ header_lines hdr st = Ok st'
           ∧ (stream = hdr ∧ body = []
              ∨ ∃ blank, Str.strip blank = "" ∧ stream = (hdr ++ blank :: body)%list).
Proof.
  induction stream as [|l stream IH]; intros st st' body H; simpl in H.
  - simplify_eq. exists []. split; [done|]. split; [done|]. by left.
  - case_bool_decide as Hl.
    + simplify_eq. exists []. split; [done|]. split; [done|]. right. by exists l.
    + destruct (header_line (Str.strip l) st) as [st1|] eqn:Hhl; [|discriminate].
      apply IH in H as (hdr & Hall & Hhdr & Hshape).
      exists (l :: hdr). split; [by constructor|].
      split; [simpl; by rewrite Hhl|].
      destruct Hshape as [[-> ->]|(blank & Hblank & ->)]; [by left|].
      right. by exists blank.
Qed.

Lemma ranks_from_nil (number : Z) : ranks_from number [].
Proof. by intros [|?] ?. Qed.

Lemma ranks_from_cons (number : Z) (row : string) (rows : list string) :
  ranks_from number (row :: rows)
  ↔ row_rank row = Some (number + 1) ∧ ranks_from (number + 1) rows.
Proof.
  unfold ranks_from. split.
  - intros H. split.
    + rewrite (H 0%nat row) by done. f_equal. lia.
    + intros i r Hi. rewrite (H (S i) r) by done. f_equal. lia.
  - intros [H0 H] [|i] r Hi; simpl in Hi.
    + simplify_eq. rewrite H0. f_equal. lia.
    + rewrite (H i r) by done. f_equal. lia.
Qed.

(** One pass of lines 95-97 on a row. *)
Lemma table_row_Ok (line : string) (number : Z) :
  ('(word, _) ← unpack2 (Str.split1 line);
   w ← py_int word;
   assert (w =? number)%Z A_table_row) = Ok tt
  ↔ row_rank line = Some number.
Proof.
  unfold row_rank, py_int.
  destruct (Str.split1 line) as [|word [|rest [|? ?]]]; simpl;
    try (split; discriminate).
  destruct (Str.int word) as [w|]; simpl; [|split; discriminate].
  unfold assert. destruct (Z.eqb_spec w number) as [->|Hne]; [done|].
  split; [discriminate|]. intros [= ?]. done.
Qed.

Lemma read_table_app (rows : list string) :
  ∀ (number : Z) (rest : list string),
    Forall (λ l, Str.strip l ≠ "") rows →
    ranks_from number rows →
    read_table (rows ++ rest) number
    = read_table rest (number + Z.of_nat (length rows)).
Proof.
  induction rows as [|row rows IH]; intros number rest Hall Hranks.
  - simpl. f_equal. lia.
  - apply Forall_cons in Hall as [Hrow Hall].
    apply ranks_from_cons in Hranks as [Hrank Hranks].
    cbn [app read_table]. rewrite bool_decide_eq_false_2 by done.
    apply table_row_Ok in Hrank as ->.
    rewrite IH by done. f_equal. rewrite length_cons. lia.
Qed.

Lemma read_table_Ok (stream : list string) :
  ∀ (number m : Z) (body : list string),
    read_table stream number = Ok (m, body) →
    ∃ rows, Forall (λ l, Str.strip l ≠ "") rows
            ∧ ranks_from number rows
            ∧ m = number + Z.of_nat (length rows)
            ∧ (stream = rows ∧ body = []
               ∨ ∃ blank, Str.strip blank = "" ∧ stream = (rows ++ blank :: body)%list).
Proof.
  induction stream as [|l stream IH]; intros number m body H.
  - simpl in H. simplify_eq. exists []. split; [done|].
    split; [by intros [|?] ?|]. split; [simpl; lia|]. by left.
  - cbn [read_table] in H. case_bool_decide as Hl.
    + simplify_eq. exists []. split; [done|].
      split; [by intros [|?] ?|]. split; [simpl; lia|]. right. by exists l.
    + match type of H with
      | match ?r with Ok _ => _ | Raise _ => _ end = _ =>
          destruct r as [[]|] eqn:Hrow; [|discriminate]
      end.
      apply table_row_Ok in Hrow.
      apply IH in H as (rows & Hall & Hranks & -> & Hshape).
      exists (l :: rows). split; [by constructor|].
      split; [by apply ranks_from_cons|].
      split; [rewrite length_cons; lia|].
      destruct Hshape as [[-> ->]|(blank & Hblank & ->)]; [by left|].
      right. by exists blank.
Qed.

Lemma init_after_header (hdr : list string) (rest : list string)
    (st : option string * gmap string mvalue) :
  Forall (λ l, Str.strip l ≠ "") hdr →
  header_lines hdr (None, ∅) = Ok st →
  __init__ (hdr ++ rest)
  = ('(query_name, metadata, stream) ← read_header rest st;
     match stream with
     | [] => Raise (ValueError TruncatedFile)
     | line :: stream =>
         _ ← assert (bool_decide (Str.split line = table_header)) A_table_header;
         '(number, stream) ← read_table stream 0;
         Ok (constructed query_name metadata number, stream)
     end).
Proof. intros Hall Hhdr. unfold __init__. by rewrite (read_header_app hdr _ st). Qed.

(** The iterator that the constructor returns holds what the header gave
    and nothing of a hit. *)
Lemma init_Ok (stream body : list string) (s : self) :
  __init__ stream = Ok (s, body) →
  ∃ hdr, Forall (λ l, Str.strip l ≠ "") hdr
         ∧ header_lines hdr (None, ∅) = Ok (query_name s, metadata s)
         ∧ s = constructed (query_name s) (metadata s) (number s)
         ∧ 0 ≤ number s.
Proof.
  unfold __init__. intros H.
  destruct (read_header stream (None, ∅)) as [[[qn md] rest]|] eqn:Hrh;
    [|discriminate].
  simpl in H. destruct rest as [|th rest]; [discriminate|].
  apply read_header_Ok in Hrh as (hdr & Hall & Hhdr & _).
  bind_inv H. simplify_eq/=.
  match goal with
  | H : read_table _ _ = Ok _ |- _ =>
      apply read_table_Ok in H as (rows & _ & _ & -> & _)
  end.
  exists hdr. repeat split; [done..|lia].
Qed.

(** X1.  A file that ends with its header, at the end of the stream or
    with the blank line that closes the header, is truncated: the
    constructor raises [ValueError("Truncated file.")].  The empty file is
    the case of no header line at all. *)
Theorem truncated_file (hdr : list string)
    (st : option string * gmap string mvalue) :
  Forall (λ l, Str.strip l ≠ "") hdr →
  header_lines hdr (None, ∅) = Ok st →
  __init__ hdr = Raise (ValueError TruncatedFile)
  ∧ ∀ blank, Str.strip blank = "" →
             __init__ (hdr ++ [blank]) = Raise (ValueError TruncatedFile).
Proof.
  intros Hall Hhdr. split.
  - rewrite <- (app_nil_r hdr). rewrite (init_after_header hdr [] st) by done.
    by destruct st.
  - intros blank Hblank. rewrite (init_after_header hdr [blank] st) by done.
    simpl. rewrite bool_decide_eq_true_2 by done. by destruct st.
Qed.

(** X2.  The line after the blank line that closes the header must be the
    column header row of the hit table, word for word; any other line
    there makes the constructor raise the [AssertionError] of line 77. *)
Theorem table_header_checked (hdr : list string) (blank th : string)
    (rest : list string) (st : option string * gmap string mvalue) :
  Forall (λ l, Str.strip l ≠ "") hdr →
  header_lines hdr (None, ∅) = Ok st →
  Str.strip blank = "" →
  Str.split th ≠ table_header →
  __init__ (hdr ++ blank :: th :: rest) = Raise (AssertionError A_table_header).
Proof.
  intros Hall Hhdr Hblank Hth.
  rewrite (init_after_header hdr _ st) by done.
  simpl. rewrite bool_decide_eq_true_2 by done. destruct st. simpl.
  by rewrite (bool_decide_eq_false_2 _ Hth).
Qed.

(** X3.  A preamble that is well formed is accepted: header lines that are
    all read, a blank line, the column header row, and rows that carry the
    ranks 1, 2, ... as their first words, up to the end of the stream or to
    a blank line.  The iterator then has the query name and the metadata of
    the header, the number of rows as [number], [counter] 0 and no
    attribute of a hit; the stream is left after the blank line that closes
    the table. *)
Theorem constructor_accepts (hdr : list string) (blank1 th : string)
    (rows : list string) (qn : option string) (md : gmap string mvalue) :
  Forall (λ l, Str.strip l ≠ "") hdr →
  header_lines hdr (None, ∅) = Ok (qn, md) →
  Str.strip blank1 = "" →
  Str.split th = table_header →
  Forall (λ l, Str.strip l ≠ "") rows →
  ranks_from 0 rows →
  __init__ (hdr ++ blank1 :: th :: rows)
  = Ok (constructed qn md (Z.of_nat (length rows)), [])
  ∧ ∀ blank2 body,
      Str.strip blank2 = "" →
      __init__ (hdr ++ blank1 :: th :: rows ++ blank2 :: body)
      = Ok (constructed qn md (Z.of_nat (length rows)), body).
Proof.
  intros Hall Hhdr Hblank Hth Hrows Hranks. split.
  - rewrite (init_after_header hdr _ (qn, md)) by done.
    simpl. rewrite bool_decide_eq_true_2 by done. simpl.
    rewrite (bool_decide_eq_true_2 _ Hth). simpl.
    rewrite <- (app_nil_r rows) at 1. by rewrite read_table_app.
  - intros blank2 body Hblank2.
    rewrite (init_after_header hdr _ (qn, md)) by done.
    simpl. rewrite bool_decide_eq_true_2 by done. simpl.
    rewrite (bool_decide_eq_true_2 _ Hth). simpl.
    rewrite read_table_app by done. simpl.
    by rewrite bool_decide_eq_true_2 by done.
Qed.

(** X4.  Conversely, whenever the constructor returns, the lines it has
    read are such a preamble: the stream is header lines, a blank line, the
    column header row, rows ranked 1, 2, ... and, unless the stream ends
    there, a blank line followed by the lines that are left; [number] is
    the number of rows, and the iterator is the one described above. *)
Theorem constructor_returns (stream body : list string) (s : self) :
  __init__ stream = Ok (s, body) →
  ∃ hdr blank1 th rows,
    Forall (λ l, Str.strip l ≠ "") hdr
    ∧ header_lines hdr (None, ∅) = Ok (query_name s, metadata s)
    ∧ Str.strip blank1 = ""
    ∧ Str.split th = table_header
    ∧ Forall (λ l, Str.strip l ≠ "") rows
    ∧ ranks_from 0 rows
    ∧ s = constructed (query_name s) (metadata s) (Z.of_nat (length rows))
    ∧ (stream = (hdr ++ blank1 :: th :: rows)%list ∧ body = []
       ∨ ∃ blank2, Str.strip blank2 = ""
                   ∧ stream = (hdr ++ blank1 :: th :: rows ++ blank2 :: body)%list).
Proof.
  unfold __init__. intros H.
  destruct (read_header stream (None, ∅)) as [[[qn md] rest]|] eqn:Hrh;
    [|discriminate].
  simpl in H. destruct rest as [|th rest]; [discriminate|].
  apply read_header_Ok in Hrh as (hdr & Hall & Hhdr & Hshape).
  destruct Hshape as [[_ [=]]|(blank1 & Hblank1 & ->)].
  destruct (bool_decide (Str.split th = table_header)) eqn:Hth; [|discriminate].
  apply bool_decide_eq_true_1 in Hth. simpl in H.
  destruct (read_table rest 0) as [[m rest']|] eqn:Hrt; [|discriminate].
  simpl in H. simplify_eq.
  apply read_table_Ok in Hrt as (rows & Hrows & Hranks & -> & Hshape).
  exists hdr, blank1, th, rows. simpl.
  do 6 (split; [done|]). split; [unfold constructed; f_equal; lia|].
  destruct Hshape as [[-> ->]|(blank2 & Hblank2 & ->)]; [by left|].
  right. by exists blank2.
Qed.


(** *** The header *)

(** What one header line does to the query name and to the metadata. *)
Lemma header_line_Ok (line : string) (qn qn' : option string)
    (md md' : gmap string mvalue) :
  header_line line (qn, md) = Ok (qn', md') →
  ∃ key value,
    Str.split1 line = [key; value]
    ∧ qn' = (if bool_decide (key = "Query") then Some value else qn)
    ∧ (md' = md ∨ ∃ k v, md' = <[k := v]> md ∧ metadata_entry k v).
Proof.
  unfold header_line. intros H.
  destruct (Str.split1 line) as [|key [|value [|? ?]]]; try discriminate.
  exists key, value. split; [done|]. simpl in H.
  assert (∀ k v, metadata_entry k v →
                 md' = <[k := v]> md →
                 md' = md ∨ ∃ k v, md' = <[k := v]> md ∧ metadata_entry k v)
    as Hstore by eauto.
  case_bool_decide; [simplify_eq/=; split; [done | by left]|].
  case_bool_decide;
    [bind_inv H; simplify_eq/=; split; [done|]; eapply Hstore; [|done]; simpl; eauto|].
  case_bool_decide;
    [bind_inv H; simplify_eq/=; split; [done|]; eapply Hstore; [|done]; simpl; eauto|].
  destruct (bool_decide (key = "Neff") || bool_decide (key = "Template_Neff")) eqn:Hk.
  { apply orb_true_iff in Hk as [Hk|Hk]; apply bool_decide_eq_true_1 in Hk;
      bind_inv H; simplify_eq/=; (split; [done|]); (eapply Hstore; [|done]);
      simpl; eauto. }
  case_bool_decide;
    [bind_inv H; simplify_eq/=; split; [done|]; eapply Hstore; [|done]; simpl; eauto|].
  case_bool_decide;
    [simplify_eq/=; split; [done|]; eapply Hstore; [|done]; simpl; eauto|].
  case_bool_decide; [|discriminate].
  simplify_eq/=. split; [done|]. eapply Hstore; [|done]. simpl. eauto.
Qed.

Lemma header_lines_entries (hdr : list string) :
  ∀ (qn qn' : option string) (md md' : gmap string mvalue),
    header_lines hdr (qn, md) = Ok (qn', md') →
    map_Forall metadata_entry md →
    map_Forall metadata_entry md'.
Proof.
  induction hdr as [|l hdr IH]; intros qn qn' md md' H Hmd; simpl in H.
  - by simplify_eq.
  - destruct (header_line (Str.strip l) (qn, md)) as [[qn1 md1]|] eqn:Hl;
      [|discriminate].
    apply (IH _ _ _ _ H).
    apply header_line_Ok in Hl as (key & value & _ & _ & [->|(k & v & -> & Hkv)]);
      [done|].
    by apply map_Forall_insert_2.
Qed.

(** X6.  The metadata of a constructed iterator hold nothing but what
    lines 57-69 store: integers under [Match_columns] and
    [Searched_HMMs], a pair of integers under [No_of_seqs], floats under
    [Neff] and [Template_Neff], and the texts of the [Date] and [Command]
    lines under [Rundate] and [Command line].  In particular [Query],
    [Date] and [Command] are never keys of the metadata. *)
Theorem metadata_entries (stream body : list string) (s : self) :
  __init__ stream = Ok (s, body) →
  map_Forall metadata_entry (metadata s)
  ∧ metadata s !! "Query" = None
  ∧ metadata s !! "Date" = None
  ∧ metadata s !! "Command" = None.
Proof.
  intros (hdr & _ & Hhdr & _)%init_Ok.
  assert (map_Forall metadata_entry (metadata s)) as Hall.
  { apply (header_lines_entries hdr _ _ _ _ Hhdr). apply map_Forall_empty. }
  split; [done|].
  repeat split;
    match goal with
    | |- ?m !! ?k = None =>
        destruct (m !! k) as [v|] eqn:Hk; [|done];
        apply Hall in Hk; destruct v; simpl in Hk; try discriminate;
        destruct Hk; discriminate
    end.
Qed.

Lemma read_header_app_Ok (pre : list string) :
  ∀ (st st' : option string * gmap string mvalue) (blank : string)
    (rest body : list string),
    Forall (λ l, Str.strip l ≠ "") pre →
    Str.strip blank = "" →
    read_header (pre ++ blank :: rest) st = Ok (st', body) →
    header_lines pre st = Ok st' ∧ body = rest.
Proof.
  induction pre as [|l pre IH]; intros st st' blank rest body Hpre Hblank H;
    simpl in H.
  - rewrite bool_decide_eq_true_2 in H by done. by simplify_eq.
  - apply Forall_cons in Hpre as [Hl Hpre].
    rewrite bool_decide_eq_false_2 in H by done. simpl.
    destruct (header_line (Str.strip l) st) as [st1|]; [|discriminate].
    by apply (IH st1 st' blank rest body).
Qed.

Lemma header_lines_query (hdr : list string) :
  ∀ (qn qn' : option string) (md md' : gmap string mvalue),
    header_lines hdr (qn, md) = Ok (qn', md') →
    qn' = from_option Some qn (last (omap query_of hdr)).
Proof.
  induction hdr as [|l hdr IH]; intros qn qn' md md' H; simpl in H.
  - by simplify_eq.
  - destruct (header_line (Str.strip l) (qn, md)) as [[qn1 md1]|] eqn:Hl;
      [|discriminate].
    apply IH in H as ->.
    apply header_line_Ok in Hl as (key & value & Hsplit & -> & _).
    simpl. unfold query_of at 2. rewrite Hsplit.
    case_bool_decide; [|done].
    fold (omap query_of hdr). rewrite last_cons.
    by destruct (last (omap query_of hdr)).
Qed.

(** X7.  The query name of the iterator is the value of the last [Query]
    line of the header: the text that follows the key, without the blanks
    around it; an iterator constructed from a header without a [Query]
    line has no query name. *)
Theorem query_name_from_header (hdr : list string) (blank : string)
    (rest body : list string) (s : self) :
  Forall (λ l, Str.strip l ≠ "") hdr →
  Str.strip blank = "" →
  __init__ (hdr ++ blank :: rest) = Ok (s, body) →
  query_name s = last (omap query_of hdr).
Proof.
  intros Hall Hblank H. unfold __init__ in H.
  destruct (read_header (hdr ++ blank :: rest) (None, ∅)) as [[[qn md] rest']|] eqn:Hrh;
    [|discriminate].
  apply read_header_app_Ok in Hrh as [Hhdr ->]; [|done..].
  apply header_lines_query in Hhdr as ->.
  simpl in H. destruct rest as [|th rest]; [discriminate|].
  bind_inv H. simplify_eq/=. by destruct (last _).
Qed.

(** X8.  A header line that has a key and nothing after it cannot be
    unpacked at line 54, whatever its key: the constructor raises the
    [ValueError] of an unpacking of one value. *)
Theorem header_line_without_value (hdr : list string) (line word : string)
    (rest : list string) (st : option string * gmap string mvalue) :
  Forall (λ l, Str.strip l ≠ "") hdr →
  header_lines hdr (None, ∅) = Ok st →
  Str.split1 (Str.strip line) = [word] →
  __init__ (hdr ++ line :: rest) = Raise (ValueError (Unpack 1)).
Proof.
  intros Hall Hhdr Hsplit.
  rewrite (init_after_header hdr _ st) by done. simpl.
  rewrite bool_decide_eq_false_2 by (intros E; by rewrite E in Hsplit).
  unfold header_line. destruct st. by rewrite Hsplit.
Qed.

(** *** Before the first hit *)

Lemma classify_Blank (line : string) : classify line = Blank → line = "".
Proof.
  unfold classify. case_bool_decide; [done|].
  repeat (case_match; try discriminate).
Qed.

(** No branch of the loop but the [>] branch assigns the first value of a
    track, so none can add to the tracks of a constructed iterator. *)
Lemma accumulate_constructed (qn : option string) (md : gmap string mvalue)
    (n : Z) (t : tag) (line : string) :
  ∃ e, accumulate (constructed qn md n) t line = Raise e.
Proof.
  unfold accumulate.
  destruct t; simpl; eauto;
    repeat match goal with
           | |- ∃ e, Raise _ = Raise e => by eexists
           | |- context [?r ≫= _] =>
               match r with
               | context [_ ≫= _] => fail 1
               | _ => destruct r as [?|?] eqn:?; simpl
               end
           | x : (_ * _)%type |- _ => destruct x; simpl
           end.
Qed.

(** X9.  Right after the constructor, a line of an alignment block (a
    score, [Confidence], [Q ...] or [T ...] line) or a line that no branch
    knows, met before any [>] line, stops the generator with an exception
    and without a record: the tracks do not exist before the first [>]
    line. *)
Theorem block_line_before_first_hit (stream : list string) (s : self)
    (line : string) (rest : list string) :
  __init__ stream = Ok (s, line :: rest) →
  number s ≠ 0 →
  Str.rstrip line ≠ "" →
  accumulates (classify (Str.rstrip line)) = true →
  ∃ e, parse s (line :: rest) = Run [] (Raised e) rest.
Proof.
  intros (hdr & _ & _ & -> & _)%init_Ok Hn Hline Htag.
  unfold parse. rewrite bool_decide_eq_false_2 by done.
  destruct (accumulate_constructed (query_name s) (metadata s) (number s)
              (classify (Str.rstrip line)) (Str.rstrip line)) as [e He].
  exists e. cbn [parse_loop].
  destruct (classify (Str.rstrip line)) eqn:Hc; try discriminate;
    try by rewrite He.
  by apply classify_Blank in Hc.
Qed.

(** X10.  A file whose hit table has rows but that has no alignment after
    it, only blank lines or nothing, gives no record: the generator stops
    with the [AttributeError] of the first attribute that
    [_create_alignment] reads and that was never assigned, [query_name]
    when the header has no [Query] line and [query_length] otherwise. *)
Theorem no_alignment_after_table (stream body : list string) (s : self) :
  __init__ stream = Ok (s, body) →
  number s ≠ 0 →
  Forall (λ l, Str.rstrip l = "") body →
  parse s body
  = Run [] (Raised (AttributeError (match query_name s with
                                    | Some _ => "query_length"
                                    | None => "query_name"
                                    end))) [].
Proof.
  intros (hdr & _ & _ & Hs & _)%init_Ok Hn Hbody.
  unfold parse. rewrite bool_decide_eq_false_2 by done.
  induction Hbody as [|l body Hl _ IH]; simpl.
  - unfold after_loop, _create_alignment. rewrite Hs. simpl.
    by destruct (query_name s).
  - rewrite Hl. done.
Qed.

(** *** The count of the hits *)

Lemma raises_only_Ok {A : Type} (P : exn → Prop) (a : A) : raises_only P (Ok a).
Proof. intros e. discriminate. Qed.

Lemma raises_only_Raise {A : Type} (P : exn → Prop) (e : exn) :
  P e → raises_only P (Raise e : result A).
Proof. by intros He e' [= <-]. Qed.

Lemma raises_only_bind {A B : Type} (P : exn → Prop) (r : result A)
    (k : A → result B) :
  raises_only P r → (∀ a, raises_only P (k a)) → raises_only P (r ≫= k).
Proof.
  intros Hr Hk e. destruct r as [a|e']; simpl; [apply Hk|].
  intros [= <-]. by apply Hr.
Qed.

Lemma raises_only_if {A : Type} (P : exn → Prop) (b : bool) (r1 r2 : result A) :
  raises_only P r1 → raises_only P r2 → raises_only P (if b then r1 else r2).
Proof. by destruct b. Qed.

(** Discharges [raises_only not_a_count_error r] for a computation [r] made
    of the steps of the module. *)
Ltac no_count_error :=
  repeat first
    [ apply raises_only_Ok
    | apply raises_only_Raise; by intros ? ?
    | apply raises_only_bind; [|intros]
    | apply raises_only_if
    | progress unfold assert, getattr, unpack2, unpack6, py_int, py_float,
        read_total, iadd, Seq_new, set_letter_annotation, numpy_operand,
        select_row, from_option
    | case_match ].

Lemma accumulate_no_count_error (s : self) (t : tag) (line : string) :
  raises_only not_a_count_error (accumulate s t line).
Proof. unfold accumulate. destruct t; no_count_error. Qed.

Lemma create_alignment_no_count_error (s : self) :
  raises_only not_a_count_error (_create_alignment s).
Proof. unfold _create_alignment. no_count_error. Qed.

Lemma count_hit_no_count_error (s : self) (line : string) :
  raises_only not_a_count_error (count_hit s line).
Proof. unfold count_hit. no_count_error. Qed.

Lemma reset_hit_no_count_error (s : self) (line : string) :
  raises_only not_a_count_error (reset_hit s line).
Proof. unfold reset_hit. no_count_error. Qed.

Lemma annotation_words_no_count_error (words : list string) :
  ∀ a, raises_only not_a_count_error (annotation_words words a).
Proof.
  induction words as [|w words IH]; intros a; simpl; [apply raises_only_Ok|].
  no_count_error; apply IH.
Qed.

(** Closes a case where a step of the loop is supposed to have raised the
    error of lines 258-261; [lem] says that it does not. *)
Ltac count_error_absurd lem H :=
  simpl; intros [= ->]; apply lem in H; exfalso; exact (H _ _ eq_refl).

(** The records yielded when the generator ends with the error of lines
    258-261: one per [No] line but the first, and one after the loop; the
    count that the error reports is the one at the start plus the number
    of [No] lines of the stream. *)
Lemma parse_loop_count_error (k : nat) :
  ∀ (stream : list string) (s : self) (n c : Z),
    (length stream ≤ k)%nat →
    0 ≤ counter s →
    stopped (parse_loop s stream) = Raised (ValueError (ExpectedAlignments n c)) →
    n = number s ∧ c ≠ n ∧ c = counter s + Z.of_nat (no_lines stream)
    ∧ Z.of_nat (length (yielded (parse_loop s stream)))
      = (if 0 <? counter s then c - counter s + 1 else Z.max 1 c).
Proof.
  induction k as [|k IH]; intros stream s n c Hlen Hc.
  - destruct stream; [|simpl in Hlen; lia].
    simpl. unfold after_loop.
    destruct (_create_alignment s) as [r|e] eqn:Hr; simpl.
    + case_bool_decide; [|discriminate]. intros [= <- <-].
      repeat split; [done|lia|]. destruct (0 <? counter s) eqn:E; lia.
    + count_error_absurd create_alignment_no_count_error Hr.
  - destruct stream as [|line stream'].
    { apply (IH [] s); simpl; [lia | done]. }
    simpl in Hlen. cbn [parse_loop no_lines]. cbv zeta.
    destruct (classify (Str.rstrip line)) eqn:Htag;
      try (destruct (accumulate s _ (Str.rstrip line)) as [s'|e] eqn:Hacc;
           [ apply accumulate_same in Hacc as ((Hn & _ & _) & Hcnt & _);
             intros Hret; rewrite <- Hn, <- Hcnt;
             apply IH; [lia | lia | done]
           | count_error_absurd accumulate_no_count_error Hacc ]).
    + apply IH; [lia | done].
    + destruct (reset_hit s (Str.rstrip line)) as [s'|e] eqn:Hreset;
        [|count_error_absurd reset_hit_no_count_error Hreset].
      apply reset_hit_same in Hreset as ((Hn & _ & _) & Hcnt).
      destruct stream' as [|line2 stream'']; [discriminate|].
      destruct (read_annotations line2) as [a|e] eqn:Hann;
        [|count_error_absurd annotation_words_no_count_error Hann].
      intros Hret. rewrite <- Hn, <- Hcnt.
      apply (IH stream'' (set_annotations (Some a) s'));
        [simpl in Hlen; lia | cbn; lia | done].
    + destruct stream' as [|? ?]; [|discriminate].
      apply (IH [] s); simpl; [lia | done].
    + destruct (0 <? counter s) eqn:E.
      * destruct (_create_alignment s) as [r|e] eqn:Hr;
          [|count_error_absurd create_alignment_no_count_error Hr].
        destruct (count_hit s (Str.rstrip line)) as [s'|e] eqn:Hcount;
          [|count_error_absurd count_hit_no_count_error Hcount].
        apply count_hit_Ok in Hcount as ->.
        rewrite stopped_yield, length_yield. intros Hret.
        destruct (IH stream' (set_counter (counter s + 1) s) n c)
          as (Hn & Hne & Hle & Hy); [lia | cbn; lia | done |].
        cbn in Hn, Hle, Hy.
        destruct (0 <? counter s + 1) eqn:E'; repeat split; try done; lia.
      * destruct (count_hit s (Str.rstrip line)) as [s'|e] eqn:Hcount;
          [|count_error_absurd count_hit_no_count_error Hcount].
        apply count_hit_Ok in Hcount as ->. intros Hret.
        destruct (IH stream' (set_counter (counter s + 1) s) n c)
          as (Hn & Hne & Hle & Hy); [lia | cbn; lia | done |].
        cbn in Hn, Hle, Hy.
        destruct (0 <? counter s + 1) eqn:E'; repeat split; try done; lia.
Qed.

(** X11.  When the generator ends with ["Expected n alignments, found
    c"], [n] is the number of rows of the hit table and [c], different
    from it, the number of [No] lines read, which are all the [No] lines
    of the file; the records of all the hits found have been yielded
    before: one per [No] line, and still one when there was none. *)
Theorem expected_alignments (stream body : list string) (s : self) (n c : Z) :
  __init__ stream = Ok (s, body) →
  stopped (parse s body) = Raised (ValueError (ExpectedAlignments n c)) →
  n = number s ∧ c ≠ n ∧ 0 ≤ c
  ∧ c = Z.of_nat (no_lines body)
  ∧ Z.of_nat (length (yielded (parse s body))) = Z.max 1 c.
Proof.
  intros Hinit. pose proof (init_counter _ _ _ Hinit) as Hc.
  unfold parse. case_bool_decide; [discriminate|]. intros Hstop.
  destruct (parse_loop_count_error (length body) body s n c)
    as (Hn & Hne & Hle & Hy); [lia | lia | done |].
  rewrite Hc in Hle, Hy. repeat split; try done; lia.
Qed.


(** *** Lines that no branch knows *)

Lemma startswith_longer (p q : string) :
  ∀ l, Str.startswith l p = false → Str.startswith l (p +:+ q) = false.
Proof.
  unfold Str.startswith.
  induction p as [|a p IH]; intros l; [by destruct l|].
  destruct l as [|b l]; [done|]. simpl.
  destruct (ascii_dec a b); [apply IH | done].
Qed.

(** X13.  A line that, once its trailing blanks are removed, is not empty,
    is not [Done!] and starts with none of [>], a blank, [No ],
    [Confidence], [Q ] and [T ], is known to no branch: the generator
    stops with ["Failed to parse line ..."], which quotes the first 30
    characters of the line. *)
Theorem unknown_line_fails (s : self) (line : string) (rest : list string) :
  Str.rstrip line ≠ "" →
  Str.rstrip line ≠ "Done!" →
  Forall (λ p, Str.startswith (Str.rstrip line) p = false)
    [">"; " "; "No "; "Confidence"; "Q "; "T "] →
  parse_loop s (line :: rest)
  = Run [] (Raised (ValueError (FailedToParse (Str.take 30 (Str.rstrip line)))))
        rest.
Proof.
  intros Hblank Hdone Hall.
  repeat match goal with
         | H : Forall _ (_ :: _) |- _ => apply Forall_cons in H as [? H]
         end.
  assert (classify (Str.rstrip line) = Unparsable) as Htag.
  { unfold classify.
    rewrite !bool_decide_eq_false_2 by done.
    change "Q ss_pred " with ("Q " +:+ "ss_pred ").
    change "Q Consensus " with ("Q " +:+ "Consensus ").
    change "T ss_pred " with ("T " +:+ "ss_pred ").
    change "T ss_dssp " with ("T " +:+ "ss_dssp ").
    change "T Consensus " with ("T " +:+ "Consensus ").
    rewrite !startswith_longer by done.
    by repeat match goal with H : Str.startswith _ _ = false |- _ => rewrite H; clear H end. }
  simpl. by rewrite Htag.
Qed.

(** *** The tracks of a hit, branch by branch *)

Lemma accumulate_track (s s' : self) (t' : tag) (line : string) (t : tag)
    (x : string) :
  accumulate s t' line = Ok s' →
  track t s = Some x →
  (t' = t → ∃ v, piece t line = Some v ∧ track t s' = Some (x +:+ v))
  ∧ (t' ≠ t → track t s' = Some x).
Proof.
  unfold accumulate. intros H Hx.
  destruct t'; try discriminate; bind_inv H;
    repeat match goal with
           | H : unpack2 _ = Ok _ |- _ => apply unpack2_Ok in H
           | H : unpack6 _ = Ok _ |- _ => apply unpack6_Ok in H
           | H : iadd _ _ _ = Ok _ |- _ => apply iadd_Ok in H as (? & ? & ->)
           | H : context [match ?o with Some _ => _ | None => _ end] |- _ =>
               destruct o
           end;
    injection H as <-;
    (split; [intros <- | intros Hne; destruct t; try done]);
    simpl in *; simplify_eq;
    try match goal with
        | H : ?l = _ |- context [match ?l with [] => _ | _ :: _ => _ end] =>
            rewrite H
        end;
    eauto.
Qed.

Lemma accumulate_lines_track (lines : list string) :
  ∀ (s s2 : self) (t : tag) (x : string),
    accumulate_lines s lines = Ok s2 →
    track t s = Some x →
    track t s2 = Some (x +:+ pieces t lines).
Proof.
  induction lines as [|line lines IH]; intros s s2 t x H Hx.
  - simpl in H. simplify_eq. unfold pieces. simpl. by rewrite append_nil_r.
  - cbn [accumulate_lines] in H.
    assert (classify (Str.rstrip line) = Blank → t ≠ Blank →
            piece_of t line = None) as Hblank.
    { intros E Ht. unfold piece_of. by rewrite E, bool_decide_eq_false_2. }
    assert (t ≠ Blank) as Ht by (intros ->; discriminate).
    destruct (classify (Str.rstrip line)) eqn:Htag;
      [ unfold pieces; simpl; rewrite Hblank by done; exact (IH _ _ _ _ H Hx) | ..];
      (destruct (accumulate s _ (Str.rstrip line)) as [s1|] eqn:Hacc;
       [|discriminate]);
      destruct (accumulate_track _ _ _ _ t x Hacc Hx) as [Hsame Hother];
      (destruct (decide (classify (Str.rstrip line) = t)) as [Heq|Hne];
       [ rewrite Htag in Heq; destruct (Hsame Heq) as (v & Hv & Hx1);
         rewrite (IH _ _ _ _ H Hx1); unfold pieces, piece_of; simpl;
         rewrite Htag, bool_decide_eq_true_2 by done;
         rewrite <- Heq in Hv |- *; rewrite Hv; simpl; by rewrite append_assoc
       | rewrite Htag in Hne; rewrite (IH _ _ _ _ H (Hother Hne));
         unfold pieces, piece_of; simpl;
         by rewrite Htag, bool_decide_eq_false_2 by done ]).
Qed.

Lemma open_hit_tracks (s s1 : self) (hdr ann : string) (t : tag) :
  open_hit s hdr ann = Ok s1 → t ∈ track_tags → track t s1 = Some "".
Proof.
  unfold open_hit, reset_hit. intros H Ht.
  destruct (unpack2 _) as [[name description]|]; [|discriminate].
  simpl in H. destruct (read_annotations ann); [|discriminate].
  simplify_eq/=. unfold track_tags in Ht.
  repeat (apply elem_of_cons in Ht as [->|Ht]; [done|]).
  by apply elem_of_nil in Ht.
Qed.

Lemma hit_read_track (s s2 : self) (hdr ann : string) (lines : list string)
    (t : tag) :
  hit_read s hdr ann lines s2 → t ∈ track_tags →
  track t s2 = Some (pieces t lines).
Proof.
  intros (_ & _ & s1 & Hopen & Hacc) Ht.
  apply (accumulate_lines_track _ _ _ t "" Hacc).
  by apply (open_hit_tracks s s1 hdr ann).
Qed.

Lemma track_attached_attached (attr : option string) (gap : ascii)
    (rec : SeqRecord) (key text : string) :
  track_attached attr gap rec key → attr = Some text →
  attached rec key gap text.
Proof. intros (t & Ht & Hkey & _) Hattr. unfold attached. congruence. Qed.

(** X14.  For a hit read from its [>] line on, the column score and the
    six annotation tracks of the record are made of what the lines of the
    blocks add, branch by branch and in the order of the lines: the column
    score is the stripped score lines joined; each track of the query and
    of the target is the joined texts of its lines, the last word of a
    [ss_pred] or [ss_dssp] line, the consensus word of a [Consensus] line,
    what follows the first word of a [Confidence] line, then stripped of
    its gap characters and padded. *)
Theorem tracks_concatenate (s : self) (hdr ann : string) (lines : list string)
    (s2 : self) (r : Alignment) :
  hit_read s hdr ann lines s2 →
  _create_alignment s2 = Ok r →
  column_annotations r = {["column score" := pieces Score lines]}
  ∧ attached (query_record r) "Consensus" "-" (pieces Q_Consensus lines)
  ∧ attached (query_record r) "ss_pred" "-" (pieces Q_ss_pred lines)
  ∧ attached (target_record r) "Consensus" "-" (pieces T_Consensus lines)
  ∧ attached (target_record r) "ss_pred" "-" (pieces T_ss_pred lines)
  ∧ attached (target_record r) "ss_dssp" "-" (pieces T_ss_dssp lines)
  ∧ attached (target_record r) "Confidence" " " (pieces Confidence lines).
Proof.
  intros Hread Hb%create_alignment_Ok.
  assert (∀ t, t ∈ track_tags → track t s2 = Some (pieces t lines)) as Htrack
    by (intros t; by apply (hit_read_track s s2 hdr ann)).
  split.
  { destruct (b_column_score _ _ Hb) as (cs & Hcs & ->).
    pose proof (Htrack Score) as Hs. simpl in Hs.
    rewrite Hs in Hcs by (unfold track_tags; set_solver). by simplify_eq. }
  repeat split;
    [ apply (track_attached_attached _ _ _ _ _ (b_query_consensus _ _ Hb));
      apply (Htrack Q_Consensus)
    | apply (track_attached_attached _ _ _ _ _ (b_query_ss_pred _ _ Hb));
      apply (Htrack Q_ss_pred)
    | apply (track_attached_attached _ _ _ _ _ (b_target_consensus _ _ Hb));
      apply (Htrack T_Consensus)
    | apply (track_attached_attached _ _ _ _ _ (b_target_ss_pred _ _ Hb));
      apply (Htrack T_ss_pred)
    | apply (track_attached_attached _ _ _ _ _ (b_target_ss_dssp _ _ Hb));
      apply (Htrack T_ss_dssp)
    | apply (track_attached_attached _ _ _ _ _ (b_confidence _ _ Hb));
      apply (Htrack Confidence) ];
    unfold track_tags; set_solver.
Qed.

(** *** The padding of a track *)

(** X15.  The padding of lines 125-126 never cuts a track: the padded
    track is the track after [start] blanks (none when [start] is
    negative), followed by the blanks that are missing to [length], and it
    is as long as the larger of [length] and the end of the track.  So it
    has the length [length] exactly when the track, put at [start], ends
    within [length]. *)
Theorem padding_never_truncates (start length : Z) (track : string) :
  pad_track start length track
  = Str.spaces start +:+ track
    +:+ Str.spaces (length - (Z.max 0 start + Str.len track))
  ∧ Str.len (pad_track start length track)
    = Z.max length (Z.max 0 start + Str.len track)
  ∧ (Str.len (pad_track start length track) = length
     ↔ Z.max 0 start + Str.len track ≤ length).
Proof.
  unfold pad_track.
  assert (Str.len (Str.spaces start +:+ track) = Z.max 0 start + Str.len track)
    as Hlen by (by rewrite len_append, len_spaces).
  rewrite Hlen. split; [by rewrite append_assoc|].
  rewrite len_append, Hlen, len_spaces. lia.
Qed.

Lemma pieces_absent (t : tag) (lines : list string) :
  absent t lines → pieces t lines = "".
Proof.
  unfold pieces. induction 1 as [|l lines Hl _ IH]; [done|].
  simpl. unfold piece_of at 1. by rewrite bool_decide_eq_false_2.
Qed.

Lemma pad_blank (start length : Z) :
  Str.len (pad_track start length "") = length →
  pad_track start length "" = Str.spaces length.
Proof.
  unfold pad_track. rewrite !len_append, !len_spaces.
  change (Str.len "") with 0. intros Hlen.
  rewrite append_nil_r, spaces_append. f_equal. lia.
Qed.

Lemma track_attached_blank (attr : option string) (gap : ascii)
    (rec : SeqRecord) (key : string) :
  track_attached attr gap rec key → attr = Some "" →
  letter_annotations rec !! key = Some (Str.spaces (seq_length (seq rec))).
Proof.
  intros (t & Ht & -> & Hlen) Hattr. simplify_eq. simpl in *.
  by rewrite pad_blank.
Qed.

(** X16.  A track that no line of the hit adds to is not missing from the
    record: the [>] line has reset it to the empty text, so that it is
    attached as blanks over the whole declared length of its sequence. *)
Theorem absent_tracks_are_blank (s : self) (hdr ann : string)
    (lines : list string) (s2 : self) (r : Alignment) :
  hit_read s hdr ann lines s2 →
  _create_alignment s2 = Ok r →
  let blanks (rec : SeqRecord) := Some (Str.spaces (seq_length (seq rec))) in
  (absent Q_Consensus lines →
   letter_annotations (query_record r) !! "Consensus" = blanks (query_record r))
  ∧ (absent Q_ss_pred lines →
     letter_annotations (query_record r) !! "ss_pred" = blanks (query_record r))
  ∧ (absent T_Consensus lines →
     letter_annotations (target_record r) !! "Consensus" = blanks (target_record r))
  ∧ (absent T_ss_pred lines →
     letter_annotations (target_record r) !! "ss_pred" = blanks (target_record r))
  ∧ (absent T_ss_dssp lines →
     letter_annotations (target_record r) !! "ss_dssp" = blanks (target_record r))
  ∧ (absent Confidence lines →
     letter_annotations (target_record r) !! "Confidence" = blanks (target_record r)).
Proof.
  intros Hread Hb%create_alignment_Ok. cbv zeta.
  assert (∀ t, t ∈ track_tags → absent t lines → track t s2 = Some "") as Htrack.
  { intros t Ht Habs. rewrite (hit_read_track s s2 hdr ann lines t) by done.
    by rewrite pieces_absent. }
  repeat split; intros Habs;
    [ apply (track_attached_blank _ _ _ _ (b_query_consensus _ _ Hb));
      apply (Htrack Q_Consensus)
    | apply (track_attached_blank _ _ _ _ (b_query_ss_pred _ _ Hb));
      apply (Htrack Q_ss_pred)
    | apply (track_attached_blank _ _ _ _ (b_target_consensus _ _ Hb));
      apply (Htrack T_Consensus)
    | apply (track_attached_blank _ _ _ _ (b_target_ss_pred _ _ Hb));
      apply (Htrack T_ss_pred)
    | apply (track_attached_blank _ _ _ _ (b_target_ss_dssp _ _ Hb));
      apply (Htrack T_ss_dssp)
    | apply (track_attached_blank _ _ _ _ (b_confidence _ _ Hb));
      apply (Htrack Confidence) ];
    first [done | unfold track_tags; set_solver].
Qed.

(** *** The names of a hit *)

Lemma create_alignment_names (s : self) (r : Alignment) :
  _create_alignment s = Ok r →
  ∃ name description,
    hmm_name s = Some name ∧ hmm_description s = Some description
    ∧ record_annotations (target_record r)
      = <["hmm_description" := description]> {["hmm_name" := name]}
    ∧ record_annotations (query_record r) = ∅.
Proof.
  unfold _create_alignment. intros H. bind_inv H.
  repeat match goal with
         | H : getattr _ _ = Ok _ |- _ => apply getattr_Ok in H
         | H : Seq_new _ _ _ = Ok _ |- _ => apply Seq_new_Ok in H; subst
         | H : set_letter_annotation _ _ _ = Ok _ |- _ =>
             apply set_letter_annotation_Ok in H as [? ->]
         end.
  simplify_eq/=. do 2 eexists. by repeat split.
Qed.

Lemma accumulate_names (s s' : self) (t : tag) (line : string) :
  accumulate s t line = Ok s' →
  hmm_name s' = hmm_name s ∧ hmm_description s' = hmm_description s
  ∧ (t = T_sequence →
     ∃ name, piece_name line = Some name ∧ target_name s' = Some name)
  ∧ (t ≠ T_sequence →
     target_name s' = target_name s ∧ target_start s' = target_start s).
Proof.
  unfold accumulate. intros H.
  destruct t; try discriminate; bind_inv H;
    repeat match goal with
           | H : unpack6 _ = Ok _ |- _ => apply unpack6_Ok in H
           | H : context [match ?o with Some _ => _ | None => _ end] |- _ =>
               destruct o
           end;
    injection H as <-; simpl;
    (split; [done|]); (split; [done|]); (split; [|done]); try done;
    intros _; unfold piece_name;
    match goal with H : Str.split _ = _ |- _ => rewrite H end; eauto.
Qed.

Lemma accumulate_lines_names (lines : list string) :
  ∀ (s s2 : self),
    accumulate_lines s lines = Ok s2 →
    hmm_name s2 = hmm_name s ∧ hmm_description s2 = hmm_description s
    ∧ target_name s2
      = from_option Some (target_name s) (last (omap target_name_of lines))
    ∧ (omap target_name_of lines = [] → target_start s2 = target_start s).
Proof.
  induction lines as [|line lines IH]; intros s s2 H.
  - by simplify_eq/=.
  - cbn [accumulate_lines] in H.
    assert (classify (Str.rstrip line) ≠ T_sequence →
            omap target_name_of (line :: lines) = omap target_name_of lines)
      as Hskip.
    { intros Hne. simpl. unfold target_name_of at 1.
      by rewrite bool_decide_eq_false_2. }
    destruct (classify (Str.rstrip line)) eqn:Htag;
      [ rewrite Hskip by done; by apply IH | ..];
      (destruct (accumulate s _ (Str.rstrip line)) as [s1|] eqn:Hacc;
       [|discriminate]);
      apply accumulate_names in Hacc as (Hn & Hd & Hsame & Hother);
      apply IH in H as (-> & -> & -> & Hstart);
      try (rewrite Hskip by done; destruct Hother as [-> <-]; done).
    destruct Hsame as (name & Hname & ->); [done|].
    assert (omap target_name_of (line :: lines)
            = name :: omap target_name_of lines) as ->.
    { simpl. unfold target_name_of at 1.
      by rewrite Htag, bool_decide_eq_true_2, Hname. }
    rewrite last_cons.
    repeat split; try done. by destruct (last (omap target_name_of lines)).
Qed.

Lemma open_hit_names (s s1 : self) (hdr ann : string) :
  open_hit s hdr ann = Ok s1 →
  ∃ name description,
    Str.split1 (Str.tail (Str.rstrip hdr)) = [name; description]
    ∧ hmm_name s1 = Some name ∧ hmm_description s1 = Some description
    ∧ query_name s1 = query_name s ∧ target_start s1 = Some None.
Proof.
  unfold open_hit, reset_hit. intros H.
  destruct (unpack2 _) as [[name description]|] eqn:Hsplit; [|discriminate].
  apply unpack2_Ok in Hsplit.
  simpl in H. destruct (read_annotations ann); [|discriminate].
  simplify_eq/=. by exists name, description.
Qed.

(** X17.  The names of a record.  For a hit read from its [>] line on, the
    [>] line gives, after the [>], a name and a description, which the
    target carries as its annotations [hmm_name] and [hmm_description];
    the query carries no annotation; the identifier of the query is the
    query name of the header, and the identifier of the target is the
    name on the last T sequence line of the hit. *)
Theorem hit_names (s : self) (hdr ann : string) (lines : list string)
    (s2 : self) (r : Alignment) :
  hit_read s hdr ann lines s2 →
  _create_alignment s2 = Ok r →
  ∃ name description,
    Str.split1 (Str.tail (Str.rstrip hdr)) = [name; description]
    ∧ record_annotations (target_record r)
      = <["hmm_description" := description]> {["hmm_name" := name]}
    ∧ record_annotations (query_record r) = ∅
    ∧ query_name s = Some (id (query_record r))
    ∧ last (omap target_name_of lines) = Some (id (target_record r)).
Proof.
  intros (_ & _ & s1 & Hopen & Hacc) Hr.
  destruct (create_alignment_names _ _ Hr) as (name & descr & Hn & Hd & Ht & Hq).
  apply create_alignment_Ok in Hr as Hb.
  destruct (accumulate_lines_names _ _ _ Hacc) as (Hn1 & Hd1 & Htn & Hts).
  destruct (accumulate_lines_same _ _ _ Hacc) as ((_ & _ & Hqn) & _).
  destruct (open_hit_names _ _ _ _ Hopen)
    as (name' & descr' & Hsplit & Hn0 & Hd0 & Hqn0 & Hts0).
  exists name, descr.
  split; [rewrite Hsplit; congruence|].
  do 2 (split; [done|]).
  split; [rewrite <- Hqn0, <- Hqn; apply (b_query_id _ _ Hb)|].
  rewrite (b_target_id _ _ Hb) in Htn.
  destruct (last (omap target_name_of lines)) as [n|] eqn:Hlast;
    [simpl in Htn; congruence|].
  apply last_None in Hlast. apply Hts in Hlast.
  rewrite (b_target_start _ _ Hb), Hts0 in Hlast. discriminate.
Qed.

(** *** What a hit depends on *)

Lemma accumulate_agree (q t : bool) (s s' s1 : self) (tg : tag) (line : string) :
  agree q t s s' →
  accumulate s tg line = Ok s1 →
  ∃ s1', accumulate s' tg line = Ok s1'
         ∧ agree (q || bool_decide (tg = Q_sequence))
                 (t || bool_decide (tg = T_sequence)) s1 s1'.
Proof.
  intros (Hqn & Hmd & Hhn & Hhd & Hqp & Hqc & Hqs & Hq0 & Htp & Htc & Htd
          & Hts & Ht0 & Hcs & Hcf & Han & Hql & Htl) H.
  unfold accumulate in *.
  destruct tg; try discriminate; bind_inv H;
    cbn [query_start set_query_length target_start set_target_length
         set_target_name] in *;
    repeat match goal with
           | H : context [match ?o with Some _ => _ | None => _ end] |- _ =>
               destruct o
           end;
    cbn [query_sequence target_sequence set_query_start set_target_start
         set_query_length set_target_length set_target_name] in *;
    injection H as <-;
    rewrite ?Hqn, ?Hqp, ?Hqc, ?Hqs, ?Hq0, ?Htp, ?Htc, ?Htd, ?Hts, ?Ht0,
      ?Hcs, ?Hcf;
    repeat match goal with
           | Hs : ?e = Ok _ |- context [?e] =>
               rewrite Hs;
               cbn [mbind result_bind query_sequence target_sequence
                    set_query_start set_target_start set_query_length
                    set_target_length set_target_name];
               rewrite ?Hqs, ?Hts
           end;
    (eexists; split; [reflexivity|]);
    unfold agree; simpl; rewrite ?orb_false_r, ?orb_true_r;
    repeat split; try done;
    try (by (apply Hql || apply Htl)).
Qed.

Lemma accumulate_lines_agree (lines : list string) :
  ∀ (q t : bool) (s s' s2 : self),
    agree q t s s' →
    accumulate_lines s lines = Ok s2 →
    ∃ s2', accumulate_lines s' lines = Ok s2'
           ∧ agree (q || seen Q_sequence lines) (t || seen T_sequence lines)
               s2 s2'.
Proof.
  induction lines as [|line lines IH]; intros q t s s' s2 Hs H.
  - simpl in *. simplify_eq. exists s'. by rewrite !orb_false_r.
  - cbn [accumulate_lines seen existsb] in *.
    destruct (classify (Str.rstrip line)) eqn:Htag;
      [ rewrite !bool_decide_eq_false_2 by done; simpl; exact (IH _ _ _ _ _ Hs H) | ..];
      (destruct (accumulate s _ (Str.rstrip line)) as [s1|] eqn:Hacc;
       [|discriminate]);
      destruct (accumulate_agree _ _ _ _ _ _ _ Hs Hacc) as (s1' & -> & Hs1);
      destruct (IH _ _ _ _ _ Hs1 H) as (s2' & -> & Hs2);
      exists s2'; (split; [done|]);
      by rewrite <- !orb_assoc in Hs2.
Qed.

Lemma open_hit_agree (s s' s1 : self) (hdr ann : string) :
  query_name s' = query_name s →
  metadata s' = metadata s →
  open_hit s hdr ann = Ok s1 →
  ∃ s1', open_hit s' hdr ann = Ok s1' ∧ agree false false s1 s1'.
Proof.
  unfold open_hit, reset_hit. intros Hqn Hmd H.
  destruct (unpack2 _) as [[name description]|]; [|discriminate].
  simpl in *. destruct (read_annotations ann); [|discriminate].
  simpl in *. simplify_eq. eexists. split; [done|].
  unfold agree. simpl. by repeat split.
Qed.

Lemma create_alignment_agree (s s' : self) :
  agree true true s s' → _create_alignment s' = _create_alignment s.
Proof.
  intros (Hqn & Hmd & Hhn & Hhd & Hqp & Hqc & Hqs & Hq0 & Htp & Htc & Htd
          & Hts & Ht0 & Hcs & Hcf & Han & Hql & Htl).
  destruct Htl as [Htn Htl]; [done|].
  unfold _create_alignment.
  by rewrite Hqn, Hmd, Hhn, Hhd, Hqp, Hqc, Hqs, Hq0, Htp, Htc, Htd, Hts, Ht0,
    Hcs, Hcf, Han, Hql, Htn, Htl.
Qed.

Lemma hit_read_agree (s s' : self) (hdr ann : string) (lines : list string)
    (s2 : self) :
  query_name s' = query_name s →
  metadata s' = metadata s →
  hit_read s hdr ann lines s2 →
  ∃ s2', hit_read s' hdr ann lines s2'
         ∧ agree (seen Q_sequence lines) (seen T_sequence lines) s2 s2'.
Proof.
  intros Hqn Hmd (Htag & Hall & s1 & Hopen & Hacc).
  destruct (open_hit_agree _ _ _ _ _ Hqn Hmd Hopen) as (s1' & Hopen' & Hs1).
  destruct (accumulate_lines_agree _ _ _ _ _ _ Hs1 Hacc) as (s2' & Hacc' & Hs2).
  exists s2'. split; [|done].
  split; [done|]. split; [done|]. by exists s1'.
Qed.

(** X18.  The record of a hit depends on the query name and the metadata
    of the header and on the lines of the hit only.  When the lines of a
    hit that has a Q and a T sequence line are read from its [>] line on,
    they are read as well from any other state of the iterator with the
    same query name and metadata, whatever the hits read before, and
    [_create_alignment] then gives the same result: the same record, or
    the same exception. *)
Theorem hit_is_self_contained (s s' : self) (hdr ann : string)
    (lines : list string) (s2 : self) :
  query_name s' = query_name s →
  metadata s' = metadata s →
  hit_read s hdr ann lines s2 →
  seen Q_sequence lines = true →
  seen T_sequence lines = true →
  ∃ s2', hit_read s' hdr ann lines s2'
         ∧ _create_alignment s2' = _create_alignment s2.
Proof.
  intros Hqn Hmd Hread Hq Ht.
  destruct (hit_read_agree _ _ _ _ _ _ Hqn Hmd Hread) as (s2' & Hread' & Hs2).
  rewrite Hq, Ht in Hs2. exists s2'. split; [done|].
  by apply create_alignment_agree.
Qed.

(** *** The total of a line *)

Lemma rev_app_last (c : ascii) (s : string) :
  ∀ acc, String.prefix (String c "") (String.rev_app s acc) = true →
         (∃ i, s = i +:+ String c "")
         ∨ (s = "" ∧ String.prefix (String c "") acc = true).
Proof.
  induction s as [|x s IH]; intros acc H; simpl in H; [by right|].
  left. destruct (IH _ H) as [[i ->]|[-> Hx]].
  - by exists (String x i).
  - exists "". simpl in Hx. by destruct (ascii_dec c x) as [->|].
Qed.

Lemma rev_app_append (a b : string) :
  ∀ acc, String.rev_app (a +:+ b) acc = String.rev_app b (String.rev_app a acc).
Proof.
  induction a as [|x a IH]; intros acc; [done|].
  change (String.rev_app (a +:+ b) (String x acc)
          = String.rev_app b (String.rev_app a (String x acc))).
  apply IH.
Qed.

Lemma init_append (a : string) (c : ascii) : Str.init (a +:+ String c "") = a.
Proof.
  induction a as [|x a IH]; [done|].
  change (Str.init (String x (a +:+ String c "")) = String x a).
  simpl. rewrite IH. by destruct a.
Qed.

(** X19.  The [(<total>)] word of a line is read by two assertions and an
    [int]: it is accepted exactly when it is an opening parenthesis, a text
    that [int] accepts, and a closing parenthesis, and its value is the
    value of that text. *)
Theorem total_in_parentheses (total : string) (n : Z) :
  read_total total = Ok n
  ↔ ∃ inner, total = "(" +:+ inner +:+ ")" ∧ Str.int inner = Some n.
Proof.
  unfold read_total, assert, py_int, Str.startswith, Str.endswith,
    Str.slice_1_m1, String.rev. split.
  - intros H.
    destruct (String.prefix "(" total) eqn:Hopen; [|discriminate].
    destruct (String.prefix (String.rev_app ")" "") (String.rev_app total ""))
      eqn:Hclose; [|discriminate].
    simpl in H.
    destruct total as [|c t]; cbn [String.prefix] in Hopen; [discriminate|].
    destruct (ascii_dec "(" c) as [<-|]; [|discriminate].
    apply rev_app_last in Hclose as [[i Hi]|[[=] _]].
    destruct i as [|c' inner]; [discriminate|].
    injection Hi as <- ->. exists inner. split; [done|].
    simpl in H. rewrite init_append in H.
    by destruct (Str.int inner) as [z|]; simplify_eq.
  - intros (inner & -> & Hint).
    change ("(" +:+ inner +:+ ")") with (String "(" (inner +:+ ")")).
    cbn [String.prefix String.rev_app Str.tail].
    destruct (ascii_dec "(" "(") as [_|]; [|done].
    rewrite rev_app_append. cbn [String.rev_app String.prefix].
    destruct (ascii_dec ")" ")") as [_|]; [|done].
    assert (∀ s, String.prefix "" s = true) as Hnil by (by intros [|]).
    rewrite !Hnil. simpl. by rewrite init_append, Hint.
Qed.

(** *** Blanks at the end of a line *)








(** *** The lines that the generator reads *)

Lemma stream_left_yield (r : Alignment) (k : run) :
  stream_left (yield r k) = stream_left k.
Proof. done. Qed.

Lemma parse_loop_stream (k : nat) :
  ∀ (s : self) (stream : list string),
    (length stream ≤ k)%nat →
    (∃ read, stream = (read ++ stream_left (parse_loop s stream))%list)
    ∧ (stopped (parse_loop s stream) = Returned →
       stream_left (parse_loop s stream) = []).
Proof.
  assert (∀ (l : string) (stream left : list string),
            (∃ read, stream = (read ++ left)%list) →
            ∃ read, l :: stream = (read ++ left)%list) as Hcons.
  { intros l stream left [read ->]. by exists (l :: read). }
  assert (∀ stream : list string, ∃ read, stream = (read ++ stream)%list)
    as Hnone by (intros stream; by exists []).
  induction k as [|k IH]; intros s stream Hlen.
  - destruct stream; [|simpl in Hlen; lia].
    simpl. unfold after_loop.
    destruct (_create_alignment s); simpl; (split; [by exists []|done]).
  - destruct stream as [|l stream].
    { apply (IH s []). simpl. lia. }
    simpl in Hlen. cbn [parse_loop].
    destruct (classify (Str.rstrip l));
      try (destruct (accumulate s _ (Str.rstrip l)) as [s1|];
           [ destruct (IH s1 stream) as [Hread Hret]; [lia|]; split; auto
           | simpl; split; [auto | discriminate] ]).
    + destruct (IH s stream) as [Hread Hret]; [lia|]. split; auto.
    + destruct (reset_hit s (Str.rstrip l)) as [s1|];
        [|simpl; split; [auto | discriminate]].
      destruct stream as [|l2 stream];
        [simpl; split; [by exists [l] | discriminate]|].
      destruct (read_annotations l2) as [a|];
        [|simpl; split; [auto | discriminate]].
      destruct (IH (set_annotations (Some a) s1) stream) as [Hread Hret];
        [simpl in Hlen; lia|].
      split; auto.
    + destruct stream as [|l2 stream].
      * destruct (IH s []) as [Hread Hret]; [simpl; lia|]. split; auto.
      * simpl. split; [auto | discriminate].
    + destruct (0 <? counter s).
      * destruct (_create_alignment s); [|simpl; split; [auto | discriminate]].
        destruct (count_hit s (Str.rstrip l)) as [s1|];
          [|simpl; split; [auto | discriminate]].
        rewrite stream_left_yield, stopped_yield.
        destruct (IH s1 stream) as [Hread Hret]; [lia|]. split; auto.
      * destruct (count_hit s (Str.rstrip l)) as [s1|];
          [|simpl; split; [auto | discriminate]].
        destruct (IH s1 stream) as [Hread Hret]; [lia|]. split; auto.
Qed.

(** X21.  The generator reads the stream from its start and in order:
    the lines that are left when it stops are an end of the stream.  When
    it returns after the loop, no line is left: every line of the stream
    has been read. *)
Theorem reads_to_the_end (s : self) (stream : list string) :
  (∃ read, stream = (read ++ stream_left (parse s stream))%list)
  ∧ (number s ≠ 0 →
     stopped (parse s stream) = Returned →
     stream_left (parse s stream) = []).
Proof.
  unfold parse. case_bool_decide as Hn.
  - split; [by exists [] | done].
  - destruct (parse_loop_stream (length stream) s stream) as [Hread Hret]; [lia|].
    split; [done|]. intros _. apply Hret.
Qed.

(** *** A file of hits *)

Lemma count_hit_numbered (s : self) (line : string) :
  hit_numbered (counter s + 1) line →
  count_hit s (Str.rstrip line) = Ok (set_counter (counter s + 1) s).
Proof.
  intros (_ & key & value & Hsplit & Hint).
  unfold count_hit, py_int. rewrite Hsplit. simpl. rewrite Hint. simpl.
  by rewrite Z.eqb_refl.
Qed.

Lemma hit_gives_from (s : self) (h : hit) (r : Alignment) :
  hit_gives (query_name s) (metadata s) h r →
  ∃ s2, hit_read s (name_line h) (annotation_line h) (block_lines h) s2
        ∧ _create_alignment s2 = Ok r.
Proof.
  intros (Hq & Ht & s0 & Hread & Hr).
  destruct (hit_read_agree (constructed (query_name s) (metadata s) 0) s
              _ _ _ _ eq_refl eq_refl Hread) as (s2 & Hread' & Hs2).
  rewrite Hq, Ht in Hs2. exists s2. split; [done|].
  by rewrite (create_alignment_agree _ _ Hs2).
Qed.

Lemma parse_loop_No (s s' : self) (line : string) (rest : list string) :
  classify (Str.rstrip line) = No →
  count_hit s (Str.rstrip line) = Ok s' →
  parse_loop s (line :: rest)
  = if 0 <? counter s
    then match _create_alignment s with
         | Ok r => yield r (parse_loop s' rest)
         | Raise e => Run [] (Raised e) rest
         end
    else parse_loop s' rest.
Proof. intros Htag Hcount. simpl. by rewrite Htag, Hcount. Qed.

(** The hits that follow a hit already read, whose record [r0] is still to
    be yielded. *)
Lemma parse_loop_hits (hits : list hit) :
  ∀ (s : self) (r0 : Alignment) (rs : list Alignment) (tail : list string),
    0 < counter s →
    number s = counter s + Z.of_nat (length hits) →
    _create_alignment s = Ok r0 →
    Forall2 (hit_gives (query_name s) (metadata s)) hits rs →
    (∀ (i : nat) h, hits !! i = Some h →
                    hit_numbered (counter s + Z.of_nat i + 1) (no_line h)) →
    (tail = [] ∨ ∃ d, tail = [d] ∧ Str.rstrip d = "Done!") →
    parse_loop s (concat (hit_stream <$> hits) ++ tail) = Run (r0 :: rs) Returned [].
Proof.
  induction hits as [|h hits IH]; intros s r0 rs tail Hc Hn Hr0 Hrs Hno Htail.
  - apply Forall2_nil_inv_l in Hrs as ->. simpl in Hn.
    assert (after_loop s = Run [r0] Returned []) as Hend.
    { unfold after_loop. rewrite Hr0.
      rewrite bool_decide_eq_false_2 by lia. done. }
    destruct Htail as [->|(d & -> & Hd)]; [done|].
    simpl. rewrite Hd. done.
  - apply Forall2_cons_inv_l in Hrs as (r & rs' & Hr & Hrs & ->).
    pose proof (Hno 0%nat h eq_refl) as Hno0.
    replace (counter s + Z.of_nat 0 + 1) with (counter s + 1) in Hno0 by lia.
    destruct (hit_gives_from (set_counter (counter s + 1) s) h r Hr)
      as (s2 & Hread & Hr2).
    destruct (hit_read_same _ _ _ _ _ Hread) as ((Hn2 & Hmd2 & Hqn2) & Hc2).
    cbn in Hn2, Hmd2, Hqn2, Hc2.
    change ((concat (hit_stream <$> h :: hits) ++ tail)%list)
      with (no_line h :: name_line h :: annotation_line h
            :: ((block_lines h ++ concat (hit_stream <$> hits)) ++ tail)%list).
    rewrite <- app_assoc.
    rewrite (parse_loop_No s _ _ _ (proj1 Hno0) (count_hit_numbered _ _ Hno0)).
    destruct (Z.ltb_spec 0 (counter s)); [|lia]. rewrite Hr0.
    rewrite (hit_read_parse_loop _ _ _ _ _ _ Hread).
    rewrite (IH s2 r rs' tail); [done|lia| |done| | |done].
    + rewrite Hn2, Hc2, Hn. rewrite length_cons. lia.
    + by rewrite Hqn2, Hmd2.
    + intros i h' Hi. rewrite Hc2.
      replace (counter s + 1 + Z.of_nat i + 1)
        with (counter s + Z.of_nat (S i) + 1) by lia.
      by apply Hno.
Qed.

(** X22.  A file of hits gives the records of its hits, in order.  When
    the stream that the constructor leaves is made of as many hits as the
    hit table has rows, at least one, each with its [No] line that carries
    its rank, its [>] line, the line after it and the lines of its blocks,
    and is ended by nothing or by a [Done!] line, the generator yields for
    each hit the record that its lines alone give, then returns; no line
    is left. *)
Theorem hits_yield_their_records (stream : list string) (s : self)
    (hits : list hit) (rs : list Alignment) (tail : list string) :
  __init__ stream = Ok (s, (concat (hit_stream <$> hits) ++ tail)%list) →
  number s = Z.of_nat (length hits) →
  hits ≠ [] →
  Forall2 (hit_gives (query_name s) (metadata s)) hits rs →
  (∀ (i : nat) h, hits !! i = Some h →
                  hit_numbered (Z.of_nat i + 1) (no_line h)) →
  (tail = [] ∨ ∃ d, tail = [d] ∧ Str.rstrip d = "Done!") →
  parse s (concat (hit_stream <$> hits) ++ tail) = Run rs Returned [].
Proof.
  intros Hc%init_counter Hn Hhits Hrs Hno Htail.
  destruct hits as [|h hits]; [done|].
  apply Forall2_cons_inv_l in Hrs as (r & rs' & Hr & Hrs & ->).
  unfold parse. rewrite bool_decide_eq_false_2 by (rewrite Hn, length_cons; lia).
  pose proof (Hno 0%nat h eq_refl) as Hno0.
  replace (Z.of_nat 0 + 1) with (counter s + 1) in Hno0 by lia.
  destruct (hit_gives_from (set_counter (counter s + 1) s) h r Hr)
    as (s2 & Hread & Hr2).
  destruct (hit_read_same _ _ _ _ _ Hread) as ((Hn2 & Hmd2 & Hqn2) & Hc2).
  cbn in Hn2, Hmd2, Hqn2, Hc2.
  change ((concat (hit_stream <$> h :: hits) ++ tail)%list)
    with (no_line h :: name_line h :: annotation_line h
          :: ((block_lines h ++ concat (hit_stream <$> hits)) ++ tail)%list).
  rewrite <- app_assoc.
  rewrite (parse_loop_No s _ _ _ (proj1 Hno0) (count_hit_numbered _ _ Hno0)).
  destruct (Z.ltb_spec 0 (counter s)); [lia|].
  rewrite (hit_read_parse_loop _ _ _ _ _ _ Hread).
  apply parse_loop_hits; [lia| |done| | |done].
  - rewrite Hn2, Hc2, Hn, Hc, length_cons. lia.
  - by rewrite Hqn2, Hmd2.
  - intros i h' Hi. rewrite Hc2, Hc.
    replace (0 + 1 + Z.of_nat i + 1) with (Z.of_nat (S i) + 1) by lia.
    by apply Hno.
Qed.

End AlignmentIterator.

Arguments MInt {float} n.
Arguments Self {float}.
Arguments Run {float}.
Arguments yielded {float} r.
Arguments stopped {float} r.
Arguments stream_left {float} r.
Arguments query_record {float} a.
Arguments target_record {float} a.
Arguments alignment_annotations {float} a.
Arguments coordinates {float} a.
Arguments number {float} s.
Arguments query_sequence {float} s.
Arguments target_sequence {float} s.
Arguments query_start {float} s.
Arguments target_start {float} s.
Arguments query_length {float} s.
Arguments target_length {float} s.
Arguments metadata {float} s.
Arguments __init__ {float} float_of_string stream.
Arguments fresh_iterator {float} query_name match_columns number.
Arguments parse {float} float_of_string Seq_accepts s stream.
Arguments parse_loop {float} float_of_string Seq_accepts s stream.
Arguments read {float} float_of_string Seq_accepts stream.
Arguments _create_alignment {float} Seq_accepts s.
Arguments hit_read {float} float_of_string s hdr ann lines s2.
Arguments checks_pass {float} Seq_accepts s.

(** ** The string methods and the stand-ins at work *)

Example split_example :
  Str.split "  Q  ss_pred   CCHH	x " = ["Q"; "ss_pred"; "CCHH"; "x"].
Proof. reflexivity. Qed.

Example split1_example :
  Str.split1 "  Match_columns   131  a " = ["Match_columns"; "131  a "]
  ∧ Str.split1 " one  " = ["one"] ∧ Str.split1 "  " = [].
Proof. repeat split. Qed.

Example rsplit1_example :
  Str.rsplit1 "Q ss_pred   CC HH" = ["Q ss_pred   CC"; "HH"]
  ∧ Str.rsplit1 "  one" = ["one"].
Proof. repeat split. Qed.

Example split_sep_example :
  Str.split_sep " out of " "12 out of 345" = ["12"; "345"]
  ∧ Str.split_sep "=" "a==b" = ["a"; ""; "b"]
  ∧ Str.split_sep "=" "" = [""].
Proof. repeat split. Qed.

Example int_example :
  Str.int " 12_3 " = Some 123 ∧ Str.int "-7" = Some (-7) ∧ Str.int "1__2" = None
  ∧ Str.int "" = None ∧ Str.int "12a" = None ∧ Str.int "(3" = None.
Proof. repeat split. Qed.

Example slice_example :
  Str.slice_1_m1 "(131)" = "131" ∧ Str.slice_1_m1 "(" = ""
  ∧ Str.endswith "(131)" ")" = true ∧ Str.startswith "(131)" "(" = true.
Proof. repeat split. Qed.

Example infer_coordinates_example :
  infer_coordinates "AC--GT" "A-TTGT" = [(0, 0); (1, 1); (2, 1); (2, 3); (4, 5)].
Proof. reflexivity. Qed.

Example demo_float_example :
  Demo.float_of_string "99.95" = Some (9995, -2)
  ∧ Demo.float_of_string "3.7e-34" = Some (37, -35)
  ∧ Demo.float_of_string "100%" = None.
Proof. repeat split. Qed.

(** ** The parser at work on the example files *)

(** The file of two hits is read to its end and gives two records. *)
Lemma parse_yields_number_witness :
  ∃ s body,
    __init__ Demo.float_of_string Demo.file = Ok (s, body)
    ∧ stopped (parse Demo.float_of_string Demo.Seq_accepts s body) = Returned
    ∧ number s = 2
    ∧ Z.of_nat (length (yielded (parse Demo.float_of_string Demo.Seq_accepts s body)))
      = number s.
Proof.
  exists (match __init__ Demo.float_of_string Demo.file with
          | Ok (s, _) => s
          | Raise _ => fresh_iterator "" 0 0
          end),
         (match __init__ Demo.float_of_string Demo.file with
          | Ok (_, body) => body
          | Raise _ => []
          end).
  split; [vm_compute; reflexivity|].
  split; [vm_compute; reflexivity|]. split; [vm_compute; reflexivity|].
  refine (proj1 (parse_yields_number _ Demo.float_of_string Demo.Seq_accepts
                   Demo.file _ _ _) _);
    vm_compute; reflexivity.
Defined.

(** The file with an empty hit table: nothing is yielded and the line after
    the table is still in the stream. *)
Example parse_no_hit :
  ∃ s body,
    __init__ Demo.float_of_string Demo.file_no_hit = Ok (s, body)
    ∧ number s = 0
    ∧ body = Demo.text ["Done!"]
    ∧ parse Demo.float_of_string Demo.Seq_accepts s body = Run [] Returned body.
Proof.
  exists (match __init__ Demo.float_of_string Demo.file_no_hit with
          | Ok (s, _) => s
          | Raise _ => fresh_iterator "" 0 0
          end),
         (match __init__ Demo.float_of_string Demo.file_no_hit with
          | Ok (_, body) => body
          | Raise _ => []
          end).
  split; [vm_compute; reflexivity|].
  split; [vm_compute; reflexivity|]. split; vm_compute; reflexivity.
Qed.

(** The file whose first block declares 99 as the total of both sequences
    is read to its end as well: the second block declares 8 again. *)
Example read_file_totals :
  match read Demo.float_of_string Demo.Seq_accepts Demo.file_totals with
  | Ok r =>
      stopped r = Returned
      ∧ (seq_length ∘ seq ∘ query_record <$> yielded r) = [8; 8]
      ∧ (seq_length ∘ seq ∘ target_record <$> yielded r) = [8; 10]
  | Raise _ => False
  end.
Proof. vm_compute. by repeat split. Qed.

(** The file with a target segment one residue short stops at the
    assertion on the two tracks, before any record. *)
Example read_file_short_target :
  match read Demo.float_of_string Demo.Seq_accepts Demo.file_short_target with
  | Ok r =>
      stopped r = Raised (AssertionError A_track_lengths) ∧ yielded r = []
  | Raise _ => False
  end.
Proof. vm_compute. by split. Qed.

(** The header with a Version line builds no iterator. *)
Example read_file_unknown_key :
  read Demo.float_of_string Demo.Seq_accepts Demo.file_unknown_key
  = Raise (ValueError (UnknownKey "Version")).
Proof. vm_compute; reflexivity. Qed.

(** The first hit of the file, wrapped over two blocks: its segments are
    joined and its starts are those of the first block; the checks pass,
    and the one record has the joined residues, the starts of the first
    block and coordinates from the starts to the ends of the residues. *)
Lemma wrapped_blocks_concatenate_witness :
  ∃ s2,
    hit_read Demo.float_of_string (fresh_iterator "2UVO:A|PDBID|CHAIN|SEQUENCE" 8 2)
      (Demo.hit1_header +:+ Demo.nl) (Demo.hit1_annotations +:+ Demo.nl)
      (Demo.text (Demo.hit1_block1 "(8)" ++ Demo.hit1_block2)) s2
    ∧ query_sequence s2 = Some "ERCGEQ-GC"
    ∧ target_sequence s2 = Some "ERCGEQAG-"
    ∧ query_start s2 = Some (Some 0)
    ∧ target_start s2 = Some (Some 0)
    ∧ checks_pass Demo.Seq_accepts s2 = true
    ∧ ∃ r,
        yielded (parse_loop Demo.float_of_string Demo.Seq_accepts
                   (fresh_iterator "2UVO:A|PDBID|CHAIN|SEQUENCE" 8 2)
                   ((Demo.hit1_header +:+ Demo.nl)
                    :: (Demo.hit1_annotations +:+ Demo.nl)
                    :: Demo.text (Demo.hit1_block1 "(8)" ++ Demo.hit1_block2)))
        = [r]
        ∧ seq_residues (seq (query_record r)) = "ERCGEQGC"
        ∧ seq_residues (seq (target_record r)) = "ERCGEQAG"
        ∧ seq_start (seq (query_record r)) = 0
        ∧ seq_start (seq (target_record r)) = 0
        ∧ coordinates r = [(0, 0); (6, 6); (7, 6); (8, 7); (8, 8)].
Proof.
  pose (s := fresh_iterator (float:=Demo.float) "2UVO:A|PDBID|CHAIN|SEQUENCE" 8 2).
  pose (s1 := match open_hit _ Demo.float_of_string s
                      (Demo.hit1_header +:+ Demo.nl)
                      (Demo.hit1_annotations +:+ Demo.nl) with
              | Ok s1 => s1
              | Raise _ => s
              end).
  pose (s2 := match accumulate_lines _ s1
                      (Demo.text (Demo.hit1_block1 "(8)" ++ Demo.hit1_block2)) with
              | Ok s2 => s2
              | Raise _ => s
              end).
  assert (hit_read Demo.float_of_string s
            (Demo.hit1_header +:+ Demo.nl) (Demo.hit1_annotations +:+ Demo.nl)
            (Demo.text (Demo.hit1_block1 "(8)" ++ Demo.hit1_block2)) s2) as Hread.
  { split; [vm_compute; reflexivity|].
    split; [apply (bool_decide_unpack _); vm_compute; exact I|].
    exists s1. split; vm_compute; reflexivity. }
  assert (checks_pass Demo.Seq_accepts s2 = true) as Hchecks
    by (vm_compute; reflexivity).
  destruct (wrapped_blocks_concatenate _ _ Demo.Seq_accepts _ _ _ _ _ Hread)
    as (_ & Hqs & Hts & Hq0 & Ht0 & _ & Hbuild).
  destruct (Hbuild Hchecks)
    as (r & _ & Hy & _ & Hrq & Hrt & Hsq & Hst & Hco & _ & _).
  assert (seq_start (seq (query_record r)) = 0) as Hq.
  { apply (inj Some). rewrite <- Hsq. vm_compute; reflexivity. }
  assert (seq_start (seq (target_record r)) = 0) as Ht.
  { apply (inj Some). rewrite <- Hst. vm_compute; reflexivity. }
  exists s2.
  split; [exact Hread|].
  split; [rewrite Hqs; vm_compute; reflexivity|].
  split; [rewrite Hts; vm_compute; reflexivity|].
  split; [rewrite Hq0; vm_compute; reflexivity|].
  split; [rewrite Ht0; vm_compute; reflexivity|].
  split; [exact Hchecks|].
  exists r.
  split; [exact Hy|].
  split; [rewrite Hrq; vm_compute; reflexivity|].
  split; [rewrite Hrt; vm_compute; reflexivity|].
  split; [exact Hq|].
  split; [exact Ht|].
  rewrite Hco, Hq, Ht. vm_compute; reflexivity.
Defined.

(** A Q line whose name goes on after the query identifier stops the
    loop. *)
Lemma name_is_prefix_of_query_name_witness :
  parse_loop Demo.float_of_string Demo.Seq_accepts
    (fresh_iterator "2UVO:A|PDBID|CHAIN|SEQUENCE" 8 2)
    ["Q 2UVO:A|PDBID|CHAIN|SEQUENCE_1    1 ERCG    4 (8)" +:+ Demo.nl]
  = Run [] (Raised (AssertionError A_query_name)) [].
Proof.
  refine (proj1 (name_is_prefix_of_query_name _ Demo.float_of_string
                   Demo.Seq_accepts _ _ []
                   "Q" "2UVO:A|PDBID|CHAIN|SEQUENCE_1" "1" "ERCG" "4" "(8)"
                   "2UVO:A|PDBID|CHAIN|SEQUENCE" _ _ _) _);
    vm_compute; reflexivity.
Defined.

(** A blank line after [Done!] is one line too many. *)
Lemma nothing_follows_done_witness :
  parse_loop Demo.float_of_string Demo.Seq_accepts
    (fresh_iterator "2UVO:A|PDBID|CHAIN|SEQUENCE" 8 2)
    ["Done!" +:+ Demo.nl; Demo.nl]
  = Run [] (Raised (ValueError AdditionalData)) [].
Proof.
  refine (nothing_follows_done _ Demo.float_of_string Demo.Seq_accepts
            _ ("Done!" +:+ Demo.nl) [Demo.nl] _).
  vm_compute; reflexivity.
Defined.

(** A hit with a query segment of 8 columns and a target segment of 7:
    the assertion of line 110 fails. *)
Lemma track_lengths_checked_witness :
  ∃ s2,
    hit_read Demo.float_of_string (fresh_iterator "2UVO:A|PDBID|CHAIN|SEQUENCE" 8 2)
      (Demo.hit1_header +:+ Demo.nl) (Demo.hit1_annotations +:+ Demo.nl)
      (Demo.text ["Q 2UVO:A|PDBID|C    1 ERCGEQGC    8 (8)";
                  "T 2uvo_A            1 ERCGEQG     7 (8)"]) s2
    ∧ target_sequence s2 = Some "ERCGEQG"
    ∧ query_sequence s2 = Some "ERCGEQGC"
    ∧ _create_alignment Demo.Seq_accepts s2
      = Raise (AssertionError A_track_lengths).
Proof.
  pose (s := fresh_iterator (float:=Demo.float) "2UVO:A|PDBID|CHAIN|SEQUENCE" 8 2).
  pose (s1 := match open_hit _ Demo.float_of_string s
                      (Demo.hit1_header +:+ Demo.nl)
                      (Demo.hit1_annotations +:+ Demo.nl) with
              | Ok s1 => s1
              | Raise _ => s
              end).
  pose (s2 := match accumulate_lines _ s1
                      (Demo.text ["Q 2UVO:A|PDBID|C    1 ERCGEQGC    8 (8)";
                                  "T 2uvo_A            1 ERCGEQG     7 (8)"]) with
              | Ok s2 => s2
              | Raise _ => s
              end).
  exists s2.
  assert (target_sequence s2 = Some "ERCGEQG") as Hts by (vm_compute; reflexivity).
  assert (query_sequence s2 = Some "ERCGEQGC") as Hqs by (vm_compute; reflexivity).
  split.
  { split; [vm_compute; reflexivity|].
    split; [apply (bool_decide_unpack _); vm_compute; exact I|].
    exists s1. split; vm_compute; reflexivity. }
  split; [exact Hts|]. split; [exact Hqs|].
  destruct (proj1 (track_lengths_checked _ Demo.float_of_string Demo.Seq_accepts
                     s2 _ _ Hts Hqs))
    as (e & He & _ & _ & Hreach).
  { vm_compute. discriminate. }
  rewrite <- Hreach; [exact He|].
  split; [vm_compute; eexists; reflexivity|].
  split; [exists 8; split; vm_compute; reflexivity|].
  repeat split; vm_compute; eexists; reflexivity.
Defined.

(** The lines of a hit aligned from the second residue of the query and
    the third of the target: in its record the consensus of the query, its gap
    removed, has one blank before it and two after it, and the
    confidence, its blank removed, has two blanks before it and three
    after it. *)
Lemma annotation_tracks_padded_witness :
  ∃ s r,
    _create_alignment Demo.Seq_accepts s = Ok r
    ∧ parse Demo.float_of_string Demo.Seq_accepts
        (fresh_iterator "2UVO:A|PDBID|CHAIN|SEQUENCE" 8 1)
        (hit_stream Demo.hit_inner)
      = Run [r] Returned []
    ∧ query_consensus _ s = Some "~c-~~g"
    ∧ seq_start (seq (query_record r)) = 1
    ∧ seq_length (seq (query_record r)) = 8
    ∧ letter_annotations (query_record r) !! "Consensus" = Some " ~c~~g  "
    ∧ padded 1 8 "~c~~g" " ~c~~g  "
    ∧ confidence _ s = Some "7899 9"
    ∧ seq_start (seq (target_record r)) = 2
    ∧ seq_length (seq (target_record r)) = 10
    ∧ letter_annotations (target_record r) !! "Confidence" = Some "  78999   "
    ∧ padded 2 10 "78999" "  78999   "
    ∧ (∀ key track, letter_annotations (target_record r) !! key = Some track →
                    Str.len track = 10).
Proof.
  pose (s0 := fresh_iterator (float:=Demo.float) "2UVO:A|PDBID|CHAIN|SEQUENCE" 8 1).
  pose (sc := match count_hit _ s0 (Str.rstrip (no_line Demo.hit_inner)) with
              | Ok sc => sc
              | Raise _ => s0
              end).
  pose (s1 := match open_hit _ Demo.float_of_string sc
                      (name_line Demo.hit_inner)
                      (annotation_line Demo.hit_inner) with
              | Ok s1 => s1
              | Raise _ => s0
              end).
  pose (s := match accumulate_lines _ s1 (block_lines Demo.hit_inner) with
             | Ok s => s
             | Raise _ => s0
             end).
  pose (nobody := {| seq := {| seq_start := 0; seq_residues := ""; seq_length := 0 |};
                     id := ""; record_annotations := ∅;
                     letter_annotations := ∅ |}).
  pose (r := match _create_alignment Demo.Seq_accepts s with
             | Ok r => r
             | Raise _ => {| sequences := (nobody, nobody); coordinates := [];
                             alignment_annotations := ∅;
                             column_annotations := ∅ |}
             end).
  assert (_create_alignment Demo.Seq_accepts s = Ok r) as Hr
    by (vm_compute; reflexivity).
  assert (query_consensus _ s = Some "~c-~~g") as Hqc by (vm_compute; reflexivity).
  assert (confidence _ s = Some "7899 9") as Hcf by (vm_compute; reflexivity).
  assert (seq_start (seq (query_record r)) = 1) as Hq0 by (vm_compute; reflexivity).
  assert (seq_length (seq (query_record r)) = 8) as Hql by (vm_compute; reflexivity).
  assert (seq_start (seq (target_record r)) = 2) as Ht0 by (vm_compute; reflexivity).
  assert (seq_length (seq (target_record r)) = 10) as Htl by (vm_compute; reflexivity).
  assert (letter_annotations (query_record r) !! "Consensus" = Some " ~c~~g  ")
    as Hqk by (vm_compute; reflexivity).
  assert (letter_annotations (target_record r) !! "Confidence" = Some "  78999   ")
    as Htk by (vm_compute; reflexivity).
  destruct (proj2 (proj2 (annotation_tracks_padded _ Demo.float_of_string
                            Demo.Seq_accepts s0 []) s) r Hr)
    as (_ & _ & _ & _ & (t1 & k1 & Ht1 & Hk1 & Hp1) & _ & _ & _ & _
        & (t2 & k2 & Ht2 & Hk2 & Hp2) & _ & _ & _ & Htarget).
  rewrite Hqc in Ht1. injection Ht1 as <-.
  rewrite Hqk in Hk1. injection Hk1 as <-.
  rewrite Hq0, Hql in Hp1.
  rewrite Hcf in Ht2. injection Ht2 as <-.
  rewrite Htk in Hk2. injection Hk2 as <-.
  rewrite Ht0, Htl in Hp2.
  exists s, r.
  split; [exact Hr|].
  split; [vm_compute; reflexivity|].
  split; [exact Hqc|]. split; [exact Hq0|]. split; [exact Hql|].
  split; [exact Hqk|]. split; [exact Hp1|].
  split; [exact Hcf|]. split; [exact Ht0|]. split; [exact Htl|].
  split; [exact Htk|]. split; [exact Hp2|].
  intros key track Hkey. rewrite <- Htl. exact (Htarget key track Hkey).
Defined.

(** The first hit of the file: the keys and values of its annotations. *)
Lemma hit_annotations_witness :
  ∃ s2 r,
    hit_read Demo.float_of_string (fresh_iterator "2UVO:A|PDBID|CHAIN|SEQUENCE" 8 2)
      (Demo.hit1_header +:+ Demo.nl) (Demo.hit1_annotations +:+ Demo.nl)
      (Demo.text (Demo.hit1_block1 "(8)" ++ Demo.hit1_block2)) s2
    ∧ _create_alignment Demo.Seq_accepts s2 = Ok r
    ∧ dom (alignment_annotations r)
      = list_to_set ["Probab"; "E-value"; "Score"; "Identities"; "Similarity";
                     "Sum_probs"]
    ∧ alignment_annotations r !! "Identities" = Demo.float_of_string "100"
    ∧ alignment_annotations r !! "Aligned_cols" = None.
Proof.
  pose (s := fresh_iterator (float:=Demo.float) "2UVO:A|PDBID|CHAIN|SEQUENCE" 8 2).
  pose (s1 := match open_hit _ Demo.float_of_string s
                      (Demo.hit1_header +:+ Demo.nl)
                      (Demo.hit1_annotations +:+ Demo.nl) with
              | Ok s1 => s1
              | Raise _ => s
              end).
  pose (s2 := match accumulate_lines _ s1
                      (Demo.text (Demo.hit1_block1 "(8)" ++ Demo.hit1_block2)) with
              | Ok s2 => s2
              | Raise _ => s
              end).
  pose (nobody := {| seq := {| seq_start := 0; seq_residues := ""; seq_length := 0 |};
                     id := ""; record_annotations := ∅;
                     letter_annotations := ∅ |}).
  pose (r := match _create_alignment Demo.Seq_accepts s2 with
             | Ok r => r
             | Raise _ => {| sequences := (nobody, nobody); coordinates := [];
                             alignment_annotations := ∅; column_annotations := ∅ |}
             end).
  exists s2, r.
  assert (hit_read Demo.float_of_string s
            (Demo.hit1_header +:+ Demo.nl) (Demo.hit1_annotations +:+ Demo.nl)
            (Demo.text (Demo.hit1_block1 "(8)" ++ Demo.hit1_block2)) s2) as Hread.
  { split; [vm_compute; reflexivity|].
    split; [apply (bool_decide_unpack _); vm_compute; exact I|].
    exists s1. split; vm_compute; reflexivity. }
  assert (_create_alignment Demo.Seq_accepts s2 = Ok r) as Hr
    by (vm_compute; reflexivity).
  split; [exact Hread|]. split; [exact Hr|].
  destruct (hit_annotations _ Demo.float_of_string Demo.Seq_accepts
              _ _ _ _ s2 r Hread Hr) as (_ & _ & Hdom & _).
  split; [|split; vm_compute; reflexivity].
  revert Hdom. generalize (dom (alignment_annotations r)). intros d ->.
  apply (bool_decide_unpack _). vm_compute. exact I.
Defined.

(** A header with the key [Version]. *)
Lemma unknown_header_key_witness :
  read Demo.float_of_string Demo.Seq_accepts
    (Demo.text ["Query         2UVO:A|PDBID|CHAIN|SEQUENCE"; "Match_columns 8"]
     ++ ("Version       3.1" +:+ Demo.nl) :: Demo.text [""; "No 1"])
  = Raise (ValueError (UnknownKey "Version")).
Proof.
  refine (proj2 (proj2 (unknown_header_key _ Demo.float_of_string Demo.Seq_accepts
                          _ _ _ _ _ _)
                   (Some "2UVO:A|PDBID|CHAIN|SEQUENCE", {["Match_columns" := MInt 8]})
                   "Version" "3.1" _ _)).
  - apply (bool_decide_unpack _). vm_compute. exact I.
  - apply (bool_decide_unpack _). vm_compute. exact I.
  - apply (bool_decide_unpack _). vm_compute. exact I.
  - vm_compute. reflexivity.
  - vm_compute. reflexivity.
Defined.

(** The first hit of the file with 99 as the total that its first block
    declares and 8 as the total that its second block declares: its lines
    are read, the stored totals are 8, and the one record has 8 as the
    length of both sequences. *)
Lemma last_total_is_used_witness :
  ∃ s2,
    hit_read Demo.float_of_string (fresh_iterator "2UVO:A|PDBID|CHAIN|SEQUENCE" 8 2)
      (Demo.hit1_header +:+ Demo.nl) (Demo.hit1_annotations +:+ Demo.nl)
      (Demo.text (Demo.hit1_block1 "(99)" ++ Demo.hit1_block2)) s2
    ∧ omap (total_of Q_sequence)
        (Demo.text (Demo.hit1_block1 "(99)" ++ Demo.hit1_block2)) = [99; 8]
    ∧ omap (total_of T_sequence)
        (Demo.text (Demo.hit1_block1 "(99)" ++ Demo.hit1_block2)) = [99; 8]
    ∧ query_length s2 = Some 8
    ∧ target_length s2 = Some 8
    ∧ ∃ r,
        yielded (parse_loop Demo.float_of_string Demo.Seq_accepts
                   (fresh_iterator "2UVO:A|PDBID|CHAIN|SEQUENCE" 8 2)
                   ((Demo.hit1_header +:+ Demo.nl)
                    :: (Demo.hit1_annotations +:+ Demo.nl)
                    :: Demo.text (Demo.hit1_block1 "(99)" ++ Demo.hit1_block2)))
        = [r]
        ∧ seq_length (seq (query_record r)) = 8
        ∧ seq_length (seq (target_record r)) = 8.
Proof.
  pose (s := fresh_iterator (float:=Demo.float) "2UVO:A|PDBID|CHAIN|SEQUENCE" 8 2).
  pose (s1 := match open_hit _ Demo.float_of_string s
                      (Demo.hit1_header +:+ Demo.nl)
                      (Demo.hit1_annotations +:+ Demo.nl) with
              | Ok s1 => s1
              | Raise _ => s
              end).
  pose (s2 := match accumulate_lines _ s1
                      (Demo.text (Demo.hit1_block1 "(99)" ++ Demo.hit1_block2)) with
              | Ok s2 => s2
              | Raise _ => s
              end).
  assert (hit_read Demo.float_of_string s
            (Demo.hit1_header +:+ Demo.nl) (Demo.hit1_annotations +:+ Demo.nl)
            (Demo.text (Demo.hit1_block1 "(99)" ++ Demo.hit1_block2)) s2) as Hread.
  { split; [vm_compute; reflexivity|].
    split; [apply (bool_decide_unpack _); vm_compute; exact I|].
    exists s1. split; vm_compute; reflexivity. }
  assert (omap (total_of Q_sequence)
            (Demo.text (Demo.hit1_block1 "(99)" ++ Demo.hit1_block2)) = [99; 8])
    as Hqt by (vm_compute; reflexivity).
  assert (omap (total_of T_sequence)
            (Demo.text (Demo.hit1_block1 "(99)" ++ Demo.hit1_block2)) = [99; 8])
    as Htt by (vm_compute; reflexivity).
  assert (checks_pass Demo.Seq_accepts s2 = true) as Hchecks
    by (vm_compute; reflexivity).
  destruct (last_total_is_used _ _ Demo.Seq_accepts _ _ _ _ _ Hread)
    as (_ & _ & Hq & Ht & Hbuild & _).
  rewrite Hqt in Hq. rewrite Htt in Ht.
  destruct (Hbuild 8 8) as (r & _ & Hy & Hql & Htl);
    [by rewrite Hqt | by rewrite Htt | exact Hchecks |].
  exists s2.
  split; [exact Hread|]. split; [exact Hqt|]. split; [exact Htt|].
  split; [exact Hq|]. split; [exact Ht|].
  exists r. split; [exact Hy|]. split; [exact Hql | exact Htl].
Defined.

(** The first record of the file: the length of its query is the
    [Match_columns] of the header. *)
Lemma query_length_is_match_columns_witness :
  ∃ s body r,
    __init__ Demo.float_of_string Demo.file = Ok (s, body)
    ∧ yielded (parse Demo.float_of_string Demo.Seq_accepts s body) !! 0%nat = Some r
    ∧ metadata s !! "Match_columns" = Some (MInt 8)
    ∧ metadata s !! "Match_columns"
      = Some (MInt (seq_length (seq (query_record r)))).
Proof.
  pose (s := match __init__ Demo.float_of_string Demo.file with
             | Ok (s, _) => s
             | Raise _ => fresh_iterator "" 0 0
             end).
  pose (body := match __init__ Demo.float_of_string Demo.file with
                | Ok (_, body) => body
                | Raise _ => []
                end).
  pose (nobody := {| seq := {| seq_start := 0; seq_residues := ""; seq_length := 0 |};
                     id := ""; record_annotations := ∅;
                     letter_annotations := ∅ |}).
  pose (r := default {| sequences := (nobody, nobody); coordinates := [];
                        alignment_annotations := ∅; column_annotations := ∅ |}
               (yielded (parse Demo.float_of_string Demo.Seq_accepts s body) !! 0%nat)).
  exists s, body, r.
  assert (yielded (parse Demo.float_of_string Demo.Seq_accepts s body) !! 0%nat = Some r)
    as Hr by (vm_compute; reflexivity).
  split; [vm_compute; reflexivity|]. split; [exact Hr|].
  split; [vm_compute; reflexivity|].
  destruct (proj1 (query_length_is_match_columns _ Demo.float_of_string
                     Demo.Seq_accepts s body) r (list_elem_of_lookup_2 _ _ _ Hr))
    as (s' & _ & _ & Hmc).
  exact Hmc.
Defined.

(** ** Where the code differs from the specification *)

(** C3, as the specification states it, fails both ways.  A Q line whose
    name goes on after the query identifier, so that the identifier is a
    prefix of the name, is not accepted: the file stops at it with an
    [AssertionError].  And in the file of two hits the query identifier is
    not a prefix of the name of the Q lines, which the header's identifier
    goes on after, yet the file is read to its end. *)
Lemma identifier_prefix_of_name_counterexample :
  (String.prefix "2UVO:A|PDBID|CHAIN|SEQUENCE" "2UVO:A|PDBID|CHAIN|SEQUENCE_1" = true
   ∧ ∃ r, read Demo.float_of_string Demo.Seq_accepts Demo.file_long_name = Ok r
          ∧ yielded r = []
          ∧ stopped r = Raised (AssertionError A_query_name)
          ∧ head (stream_left r) = Some ("T 2uvo_A            1 ERCG    4 (8)" +:+ Demo.nl))
  ∧ (String.prefix "2UVO:A|PDBID|CHAIN|SEQUENCE" "2UVO:A|PDBID|C" = false
     ∧ ∃ r, read Demo.float_of_string Demo.Seq_accepts Demo.file = Ok r
            ∧ length (yielded r) = 2%nat
            ∧ stopped r = Returned).
Proof.
  split.
  - split; [reflexivity|].
    exists (match read Demo.float_of_string Demo.Seq_accepts Demo.file_long_name with
            | Ok r => r
            | Raise _ => Run [] Returned []
            end).
    split; [vm_compute; reflexivity|]. split; [vm_compute; reflexivity|].
    split; vm_compute; reflexivity.
  - split; [reflexivity|].
    exists (match read Demo.float_of_string Demo.Seq_accepts Demo.file with
            | Ok r => r
            | Raise _ => Run [] Returned []
            end).
    split; [vm_compute; reflexivity|]. split; vm_compute; reflexivity.
Qed.

(** C4, as the specification states it, fails: a single blank line after
    [Done!] makes the generator raise, where the same file without it is
    read to its end. *)
Lemma blank_after_done_counterexample :
  Str.strip Demo.nl = ""
  ∧ (∃ r, read Demo.float_of_string Demo.Seq_accepts (Demo.file ++ [Demo.nl]) = Ok r
          ∧ stopped r = Raised (ValueError AdditionalData))
  ∧ (∃ r, read Demo.float_of_string Demo.Seq_accepts Demo.file = Ok r
          ∧ stopped r = Returned).
Proof.
  split; [reflexivity|]. split.
  - exists (match read Demo.float_of_string Demo.Seq_accepts (Demo.file ++ [Demo.nl]) with
            | Ok r => r
            | Raise _ => Run [] Returned []
            end).
    split; vm_compute; reflexivity.
  - exists (match read Demo.float_of_string Demo.Seq_accepts Demo.file with
            | Ok r => r
            | Raise _ => Run [] Returned []
            end).
    split; vm_compute; reflexivity.
Qed.

(** C9, as the specification states it, fails: in the file whose first hit
    declares 8 on the Q line of its first block and 99 on the Q line of
    its second block, under a header with [Match_columns 8], an error is
    raised: the generator stops with the [AssertionError] of line 104
    when it builds the record of the hit, at the [No] line of the second
    hit, and has yielded no record. *)
Lemma differing_totals_counterexample :
  omap (total_of Q_sequence) (Demo.text (Demo.hit1_block1 "(8)" ++ Demo.hit1_block2_late))
  = [8; 99]
  ∧ ∃ r, read Demo.float_of_string Demo.Seq_accepts Demo.file_late_total = Ok r
         ∧ yielded r = []
         ∧ stopped r = Raised (AssertionError A_match_columns)
         ∧ head (stream_left r) = Some (">2wga lectin (agglutinin)" +:+ Demo.nl).
Proof.
  split; [vm_compute; reflexivity|].
  exists (match read Demo.float_of_string Demo.Seq_accepts Demo.file_late_total with
          | Ok r => r
          | Raise _ => Run [] Returned []
          end).
  split; [vm_compute; reflexivity|]. split; [vm_compute; reflexivity|].
  split; vm_compute; reflexivity.
Qed.

Arguments constructed {float} query_name metadata number.
Arguments header_lines {float} float_of_string lines st.
Arguments metadata_entry {float} key v.
Arguments hit_gives {float} float_of_string Seq_accepts query_name metadata h r.
Arguments open_hit {float} float_of_string s hdr ann.
Arguments accumulate_lines {float} s lines.
Arguments query_name {float} s.
Arguments counter {float} s.
Arguments column_annotations {float} a.
Arguments target_name {float} s.

(** ** The constructor at work on the example files *)

(** The file of two hits is its header, a blank line, the hit table, a
    blank line, its two hits and the [Done!] line. *)
Example file_in_parts :
  Demo.file
  = (Demo.header_part ++ Demo.nl :: Demo.table_head :: Demo.rows
     ++ Demo.nl :: concat (hit_stream <$> [Demo.hit_1; Demo.hit_2])
     ++ Demo.text ["Done!"])%list.
Proof. reflexivity. Qed.

(** Lists of lines of which none is blank, and rows ranked in order. *)
Ltac nonblank :=
  repeat (apply Forall_cons; split; [by vm_compute|]); by apply Forall_nil.

Ltac ranked :=
  repeat (apply ranks_from_cons; split; [vm_compute; reflexivity|]);
  apply ranks_from_nil.

(** The header alone, with or without the blank line that closes it. *)
Lemma truncated_file_witness :
  __init__ Demo.float_of_string Demo.header_short
  = Raise (ValueError TruncatedFile)
  ∧ __init__ Demo.float_of_string (Demo.header_short ++ [Demo.nl])
    = Raise (ValueError TruncatedFile).
Proof.
  pose (st := match header_lines Demo.float_of_string Demo.header_short (None, ∅) with
              | Ok st => st
              | Raise _ => (None, ∅)
              end).
  destruct (truncated_file _ Demo.float_of_string Demo.header_short st)
    as [Hend Hblank].
  - nonblank.
  - vm_compute; reflexivity.
  - split; [exact Hend | exact (Hblank Demo.nl eq_refl)].
Defined.

(** The header followed by a row of the hit table where the column header
    row should be. *)
Lemma table_header_checked_witness :
  __init__ Demo.float_of_string (Demo.header_short ++ Demo.nl :: Demo.rows)
  = Raise (AssertionError A_table_header).
Proof.
  pose (st := match header_lines Demo.float_of_string Demo.header_short (None, ∅) with
              | Ok st => st
              | Raise _ => (None, ∅)
              end).
  refine (table_header_checked _ Demo.float_of_string Demo.header_short Demo.nl
            (default "" (head Demo.rows)) (tail Demo.rows) st _ _ _ _).
  - nonblank.
  - vm_compute; reflexivity.
  - reflexivity.
  - by vm_compute.
Defined.

(** The preamble of the file of two hits: the iterator has the query name
    and [Match_columns] of the header, and 2 as its number of hits. *)
Lemma constructor_accepts_witness :
  ∃ md,
    md !! "Match_columns" = Some (MInt 8)
    ∧ __init__ Demo.float_of_string
        (Demo.header_part ++ Demo.nl :: Demo.table_head :: Demo.rows
         ++ Demo.nl :: Demo.text ["Done!"])
      = Ok (constructed (Some "2UVO:A|PDBID|CHAIN|SEQUENCE") md 2,
            Demo.text ["Done!"]).
Proof.
  exists (match header_lines Demo.float_of_string Demo.header_part (None, ∅) with
          | Ok (_, md) => md
          | Raise _ => ∅
          end).
  split; [vm_compute; reflexivity|].
  refine (proj2 (constructor_accepts _ Demo.float_of_string Demo.header_part
                   Demo.nl Demo.table_head Demo.rows _ _ _ _ _ _ _ _)
            Demo.nl (Demo.text ["Done!"]) eq_refl).
  - nonblank.
  - vm_compute; reflexivity.
  - reflexivity.
  - reflexivity.
  - nonblank.
  - ranked.
Defined.

(** The file of two hits is accepted, so that it is such a preamble. *)
Lemma constructor_returns_witness :
  ∃ s body,
    __init__ Demo.float_of_string Demo.file = Ok (s, body)
    ∧ ∃ hdr blank1 th rows,
        Forall (λ l, Str.strip l ≠ "") hdr
        ∧ header_lines Demo.float_of_string hdr (None, ∅)
          = Ok (query_name s, metadata s)
        ∧ Str.strip blank1 = ""
        ∧ Str.split th = table_header
        ∧ Forall (λ l, Str.strip l ≠ "") rows
        ∧ ranks_from 0 rows
        ∧ s = constructed (query_name s) (metadata s) (Z.of_nat (length rows))
        ∧ (Demo.file = (hdr ++ blank1 :: th :: rows)%list ∧ body = []
           ∨ ∃ blank2, Str.strip blank2 = ""
                       ∧ Demo.file
                         = (hdr ++ blank1 :: th :: rows ++ blank2 :: body)%list).
Proof.
  exists (match __init__ Demo.float_of_string Demo.file with
          | Ok (s, _) => s
          | Raise _ => fresh_iterator "" 0 0
          end),
         (match __init__ Demo.float_of_string Demo.file with
          | Ok (_, body) => body
          | Raise _ => []
          end).
  split; [vm_compute; reflexivity|].
  apply (constructor_returns _ Demo.float_of_string Demo.file).
  vm_compute; reflexivity.
Defined.


(** The metadata of the file of two hits. *)
Lemma metadata_entries_witness :
  ∃ s body,
    __init__ Demo.float_of_string Demo.file = Ok (s, body)
    ∧ map_Forall metadata_entry (metadata s)
    ∧ metadata s !! "Query" = None
    ∧ metadata s !! "Date" = None
    ∧ metadata s !! "Command" = None.
Proof.
  exists (match __init__ Demo.float_of_string Demo.file with
          | Ok (s, _) => s
          | Raise _ => fresh_iterator "" 0 0
          end),
         (match __init__ Demo.float_of_string Demo.file with
          | Ok (_, body) => body
          | Raise _ => []
          end).
  split; [vm_compute; reflexivity|].
  eapply (metadata_entries _ Demo.float_of_string Demo.file).
  vm_compute; reflexivity.
Defined.

(** The query name of the file of two hits, where a second [Query] line
    is put before the others: the last one wins. *)
Lemma query_name_from_header_witness :
  ∃ s body,
    __init__ Demo.float_of_string
      (("Query   first name " +:+ Demo.nl) :: Demo.header_part
       ++ Demo.nl :: drop 8 Demo.file)
    = Ok (s, body)
    ∧ query_name s = Some "2UVO:A|PDBID|CHAIN|SEQUENCE"
    ∧ omap query_of (("Query   first name " +:+ Demo.nl) :: Demo.header_part)
      = ["first name"; "2UVO:A|PDBID|CHAIN|SEQUENCE"].
Proof.
  pose (stream := (("Query   first name " +:+ Demo.nl) :: Demo.header_part
                   ++ Demo.nl :: drop 8 Demo.file)%list).
  pose (s := match __init__ Demo.float_of_string stream with
             | Ok (s, _) => s
             | Raise _ => fresh_iterator "" 0 0
             end).
  pose (body := match __init__ Demo.float_of_string stream with
                | Ok (_, body) => body
                | Raise _ => []
                end).
  exists s, body.
  assert (__init__ Demo.float_of_string stream = Ok (s, body)) as Hinit
    by (vm_compute; reflexivity).
  split; [exact Hinit|].
  split; [|vm_compute; reflexivity].
  rewrite (query_name_from_header _ Demo.float_of_string
             (("Query   first name " +:+ Demo.nl) :: Demo.header_part)
             Demo.nl (drop 8 Demo.file) body s);
    [vm_compute; reflexivity | nonblank | reflexivity | exact Hinit].
Defined.

(** A header whose second line is a key alone. *)
Lemma header_line_without_value_witness :
  __init__ Demo.float_of_string
    (take 1 Demo.header_short ++ ("Match_columns" +:+ Demo.nl) :: [Demo.nl])
  = Raise (ValueError (Unpack 1)).
Proof.
  pose (st := match header_lines Demo.float_of_string (take 1 Demo.header_short)
                      (None, ∅) with
              | Ok st => st
              | Raise _ => (None, ∅)
              end).
  refine (header_line_without_value _ Demo.float_of_string
            (take 1 Demo.header_short) _ "Match_columns" [Demo.nl] st _ _ _).
  - nonblank.
  - vm_compute; reflexivity.
  - reflexivity.
Defined.

(** ** The generator at work on the example files *)

(** The hit table of the file of two hits followed by a [Q ss_pred] line:
    no [>] line has been read. *)
Lemma block_line_before_first_hit_witness :
  ∃ s,
    __init__ Demo.float_of_string
      (Demo.header_part ++ Demo.nl :: Demo.table_head :: Demo.rows
       ++ Demo.nl :: ("Q ss_pred             CCcc" +:+ Demo.nl) :: [Demo.nl])
    = Ok (s, ("Q ss_pred             CCcc" +:+ Demo.nl) :: [Demo.nl])
    ∧ ∃ e, parse Demo.float_of_string Demo.Seq_accepts s
             (("Q ss_pred             CCcc" +:+ Demo.nl) :: [Demo.nl])
           = Run [] (Raised e) [Demo.nl].
Proof.
  pose (stream := (Demo.header_part ++ Demo.nl :: Demo.table_head :: Demo.rows
                   ++ Demo.nl :: ("Q ss_pred             CCcc" +:+ Demo.nl)
                   :: [Demo.nl])%list).
  pose (s := match __init__ Demo.float_of_string stream with
             | Ok (s, _) => s
             | Raise _ => fresh_iterator "" 0 0
             end).
  exists s.
  assert (__init__ Demo.float_of_string stream
          = Ok (s, ("Q ss_pred             CCcc" +:+ Demo.nl) :: [Demo.nl]))
    as Hinit by (vm_compute; reflexivity).
  split; [exact Hinit|].
  apply (block_line_before_first_hit _ Demo.float_of_string Demo.Seq_accepts
           stream s _ _ Hinit).
  - by vm_compute.
  - by vm_compute.
  - vm_compute; reflexivity.
Defined.

(** The hit table of the file of two hits followed by blank lines only. *)
Lemma no_alignment_after_table_witness :
  ∃ s body,
    __init__ Demo.float_of_string
      (Demo.header_part ++ Demo.nl :: Demo.table_head :: Demo.rows
       ++ Demo.nl :: [Demo.nl; Demo.nl])
    = Ok (s, body)
    ∧ parse Demo.float_of_string Demo.Seq_accepts s body
      = Run [] (Raised (AttributeError "query_length")) [].
Proof.
  pose (stream := (Demo.header_part ++ Demo.nl :: Demo.table_head :: Demo.rows
                   ++ Demo.nl :: [Demo.nl; Demo.nl])%list).
  pose (s := match __init__ Demo.float_of_string stream with
             | Ok (s, _) => s
             | Raise _ => fresh_iterator "" 0 0
             end).
  exists s, [Demo.nl; Demo.nl].
  assert (__init__ Demo.float_of_string stream = Ok (s, [Demo.nl; Demo.nl]))
    as Hinit by (vm_compute; reflexivity).
  split; [exact Hinit|].
  rewrite (no_alignment_after_table _ Demo.float_of_string Demo.Seq_accepts
             stream [Demo.nl; Demo.nl] s Hinit).
  - vm_compute; reflexivity.
  - by vm_compute.
  - repeat (apply Forall_cons; split; [vm_compute; reflexivity|]).
    by apply Forall_nil.
Defined.

(** The file of two hits without its second hit: it has one [No] line;
    the record of the first hit is yielded, then the count of the hits is
    found wrong. *)
Lemma expected_alignments_witness :
  ∃ s body,
    __init__ Demo.float_of_string Demo.file_one_hit = Ok (s, body)
    ∧ stopped (parse Demo.float_of_string Demo.Seq_accepts s body)
      = Raised (ValueError (ExpectedAlignments 2 1))
    ∧ no_lines body = 1%nat
    ∧ 1 = Z.of_nat (no_lines body)
    ∧ Z.of_nat (length (yielded (parse Demo.float_of_string Demo.Seq_accepts s body)))
      = 1.
Proof.
  pose (s := match __init__ Demo.float_of_string Demo.file_one_hit with
             | Ok (s, _) => s
             | Raise _ => fresh_iterator "" 0 0
             end).
  pose (body := match __init__ Demo.float_of_string Demo.file_one_hit with
                | Ok (_, body) => body
                | Raise _ => []
                end).
  exists s, body.
  assert (__init__ Demo.float_of_string Demo.file_one_hit = Ok (s, body))
    as Hinit by (vm_compute; reflexivity).
  assert (stopped (parse Demo.float_of_string Demo.Seq_accepts s body)
          = Raised (ValueError (ExpectedAlignments 2 1)))
    as Hstop by (vm_compute; reflexivity).
  split; [exact Hinit|]. split; [exact Hstop|].
  split; [vm_compute; reflexivity|].
  exact (proj2 (proj2 (proj2 (expected_alignments _ Demo.float_of_string
                                Demo.Seq_accepts Demo.file_one_hit body s 2 1
                                Hinit Hstop)))).
Defined.


(** A line of another kind of file. *)
Lemma unknown_line_fails_witness :
  parse_loop Demo.float_of_string Demo.Seq_accepts
    (fresh_iterator "2UVO:A|PDBID|CHAIN|SEQUENCE" 8 2)
    [">2uvo_A mol:protein length:171  AGGLUTININ" +:+ Demo.nl;
     "Probab=1.0" +:+ Demo.nl;
     "ERCGEQGSNMECPNNLCCSQYGYCGMGGDYCGKGCQNGACWTSKRCGSQ" +:+ Demo.nl]
  = Run [] (Raised (ValueError (FailedToParse "ERCGEQGSNMECPNNLCCSQYGYCGMGGDY")))
        [].
Proof.
  pose (s := fresh_iterator (float:=Demo.float) "2UVO:A|PDBID|CHAIN|SEQUENCE" 8 2).
  pose (s1 := match open_hit Demo.float_of_string s
                      (">2uvo_A mol:protein length:171  AGGLUTININ" +:+ Demo.nl)
                      ("Probab=1.0" +:+ Demo.nl) with
              | Ok s1 => s1
              | Raise _ => s
              end).
  rewrite (parse_loop_open_hit _ Demo.float_of_string Demo.Seq_accepts s s1);
    [|vm_compute; reflexivity..].
  refine (unknown_line_fails _ Demo.float_of_string Demo.Seq_accepts s1
            _ [] _ _ _).
  - by vm_compute.
  - by vm_compute.
  - repeat (apply Forall_cons; split; [vm_compute; reflexivity|]).
    by apply Forall_nil.
Defined.

(** The total of the lines of the example files. *)
Lemma total_in_parentheses_witness :
  read_total "(8)" = Ok 8 ∧ read_total "(1_0)" = Ok 10.
Proof.
  split.
  - apply (proj2 (total_in_parentheses "(8)" 8)). by exists "8".
  - apply (proj2 (total_in_parentheses "(1_0)" 10)). by exists "1_0".
Defined.

(** The file of two hits is read to its end. *)
Lemma reads_to_the_end_witness :
  ∃ s body,
    __init__ Demo.float_of_string Demo.file = Ok (s, body)
    ∧ stream_left (parse Demo.float_of_string Demo.Seq_accepts s body) = [].
Proof.
  pose (s := match __init__ Demo.float_of_string Demo.file with
             | Ok (s, _) => s
             | Raise _ => fresh_iterator "" 0 0
             end).
  pose (body := match __init__ Demo.float_of_string Demo.file with
                | Ok (_, body) => body
                | Raise _ => []
                end).
  exists s, body.
  split; [vm_compute; reflexivity|].
  apply (proj2 (reads_to_the_end _ Demo.float_of_string Demo.Seq_accepts s body)).
  - by vm_compute.
  - vm_compute; reflexivity.
Defined.

(** ** The hits of the example file *)

(** Reads the hit [h] from the state [s]: the state after the line that
    follows the [>] line, and the state after the lines of the blocks. *)
Ltac hit_is_read s1 :=
  split; [vm_compute; reflexivity|];
  split; [apply (bool_decide_unpack _); vm_compute; exact I|];
  exists s1; split; vm_compute; reflexivity.

(** The first hit of the file, wrapped over two blocks: its column score
    and its tracks. *)
Lemma tracks_concatenate_witness :
  ∃ s2 r,
    hit_read Demo.float_of_string (fresh_iterator "2UVO:A|PDBID|CHAIN|SEQUENCE" 8 2)
      (name_line Demo.hit_1) (annotation_line Demo.hit_1)
      (block_lines Demo.hit_1) s2
    ∧ _create_alignment Demo.Seq_accepts s2 = Ok r
    ∧ pieces Score (block_lines Demo.hit_1) = "||||||.++"
    ∧ column_annotations r !! "column score" = Some "||||||.++"
    ∧ pieces T_ss_dssp (block_lines Demo.hit_1) = "CBCBCCCC-"
    ∧ letter_annotations (target_record r) !! "ss_dssp" = Some "CBCBCCCC"
    ∧ pieces Confidence (block_lines Demo.hit_1) = "789978 99"
    ∧ letter_annotations (target_record r) !! "Confidence" = Some "78997899".
Proof.
  pose (s := fresh_iterator (float:=Demo.float) "2UVO:A|PDBID|CHAIN|SEQUENCE" 8 2).
  pose (s1 := match open_hit Demo.float_of_string s
                      (name_line Demo.hit_1) (annotation_line Demo.hit_1) with
              | Ok s1 => s1
              | Raise _ => s
              end).
  pose (s2 := match accumulate_lines s1 (block_lines Demo.hit_1) with
              | Ok s2 => s2
              | Raise _ => s
              end).
  pose (nobody := {| seq := {| seq_start := 0; seq_residues := ""; seq_length := 0 |};
                     id := ""; record_annotations := ∅;
                     letter_annotations := ∅ |}).
  pose (r := match _create_alignment Demo.Seq_accepts s2 with
             | Ok r => r
             | Raise _ => {| sequences := (nobody, nobody); coordinates := [];
                             alignment_annotations := ∅; column_annotations := ∅ |}
             end).
  exists s2, r.
  assert (hit_read Demo.float_of_string s
            (name_line Demo.hit_1) (annotation_line Demo.hit_1)
            (block_lines Demo.hit_1) s2) as Hread by hit_is_read s1.
  assert (_create_alignment Demo.Seq_accepts s2 = Ok r) as Hr
    by (vm_compute; reflexivity).
  split; [exact Hread|]. split; [exact Hr|].
  destruct (tracks_concatenate _ Demo.float_of_string Demo.Seq_accepts
              _ _ _ _ s2 r Hread Hr) as (Hscore & _ & _ & _ & _ & Hdssp & Hconf).
  split; [vm_compute; reflexivity|].
  split; [revert Hscore; generalize (column_annotations r); intros c ->;
          vm_compute; reflexivity|].
  split; [vm_compute; reflexivity|].
  split; [unfold attached in Hdssp; rewrite Hdssp; vm_compute; reflexivity|].
  split; [vm_compute; reflexivity|].
  unfold attached in Hconf. rewrite Hconf. vm_compute; reflexivity.
Defined.

(** The second hit of the file has no [ss_pred] and no [ss_dssp] line:
    these tracks are blanks, 8 for the query and 10 for the target. *)
Lemma absent_tracks_are_blank_witness :
  ∃ s2 r,
    hit_read Demo.float_of_string (fresh_iterator "2UVO:A|PDBID|CHAIN|SEQUENCE" 8 2)
      (name_line Demo.hit_2) (annotation_line Demo.hit_2)
      (block_lines Demo.hit_2) s2
    ∧ _create_alignment Demo.Seq_accepts s2 = Ok r
    ∧ letter_annotations (query_record r) !! "ss_pred" = Some "        "
    ∧ letter_annotations (target_record r) !! "ss_dssp" = Some "          ".
Proof.
  pose (s := fresh_iterator (float:=Demo.float) "2UVO:A|PDBID|CHAIN|SEQUENCE" 8 2).
  pose (s1 := match open_hit Demo.float_of_string s
                      (name_line Demo.hit_2) (annotation_line Demo.hit_2) with
              | Ok s1 => s1
              | Raise _ => s
              end).
  pose (s2 := match accumulate_lines s1 (block_lines Demo.hit_2) with
              | Ok s2 => s2
              | Raise _ => s
              end).
  pose (nobody := {| seq := {| seq_start := 0; seq_residues := ""; seq_length := 0 |};
                     id := ""; record_annotations := ∅;
                     letter_annotations := ∅ |}).
  pose (r := match _create_alignment Demo.Seq_accepts s2 with
             | Ok r => r
             | Raise _ => {| sequences := (nobody, nobody); coordinates := [];
                             alignment_annotations := ∅; column_annotations := ∅ |}
             end).
  exists s2, r.
  assert (hit_read Demo.float_of_string s
            (name_line Demo.hit_2) (annotation_line Demo.hit_2)
            (block_lines Demo.hit_2) s2) as Hread by hit_is_read s1.
  assert (_create_alignment Demo.Seq_accepts s2 = Ok r) as Hr
    by (vm_compute; reflexivity).
  split; [exact Hread|]. split; [exact Hr|].
  destruct (absent_tracks_are_blank _ Demo.float_of_string Demo.Seq_accepts
              _ _ _ _ s2 r Hread Hr) as (_ & Hqp & _ & _ & Htd & _).
  split.
  - rewrite Hqp; [vm_compute; reflexivity|].
    apply (bool_decide_unpack _). vm_compute. exact I.
  - rewrite Htd; [vm_compute; reflexivity|].
    apply (bool_decide_unpack _). vm_compute. exact I.
Defined.

(** The names of the second hit of the file. *)
Lemma hit_names_witness :
  ∃ s2 r,
    hit_read Demo.float_of_string (fresh_iterator "2UVO:A|PDBID|CHAIN|SEQUENCE" 8 2)
      (name_line Demo.hit_2) (annotation_line Demo.hit_2)
      (block_lines Demo.hit_2) s2
    ∧ _create_alignment Demo.Seq_accepts s2 = Ok r
    ∧ record_annotations (target_record r)
      = <["hmm_description" := "lectin (agglutinin)"]> {["hmm_name" := "2wga"]}
    ∧ id (query_record r) = "2UVO:A|PDBID|CHAIN|SEQUENCE"
    ∧ id (target_record r) = "2wga".
Proof.
  pose (s := fresh_iterator (float:=Demo.float) "2UVO:A|PDBID|CHAIN|SEQUENCE" 8 2).
  pose (s1 := match open_hit Demo.float_of_string s
                      (name_line Demo.hit_2) (annotation_line Demo.hit_2) with
              | Ok s1 => s1
              | Raise _ => s
              end).
  pose (s2 := match accumulate_lines s1 (block_lines Demo.hit_2) with
              | Ok s2 => s2
              | Raise _ => s
              end).
  pose (nobody := {| seq := {| seq_start := 0; seq_residues := ""; seq_length := 0 |};
                     id := ""; record_annotations := ∅;
                     letter_annotations := ∅ |}).
  pose (r := match _create_alignment Demo.Seq_accepts s2 with
             | Ok r => r
             | Raise _ => {| sequences := (nobody, nobody); coordinates := [];
                             alignment_annotations := ∅; column_annotations := ∅ |}
             end).
  exists s2, r.
  assert (hit_read Demo.float_of_string s
            (name_line Demo.hit_2) (annotation_line Demo.hit_2)
            (block_lines Demo.hit_2) s2) as Hread by hit_is_read s1.
  assert (_create_alignment Demo.Seq_accepts s2 = Ok r) as Hr
    by (vm_compute; reflexivity).
  split; [exact Hread|]. split; [exact Hr|].
  destruct (hit_names _ Demo.float_of_string Demo.Seq_accepts
              _ _ _ _ s2 r Hread Hr)
    as (name & description & Hsplit & Hann & _ & Hqid & Htid).
  assert (Str.split1 (Str.tail (Str.rstrip (name_line Demo.hit_2)))
          = ["2wga"; "lectin (agglutinin)"]) as Hline by (vm_compute; reflexivity).
  rewrite Hline in Hsplit. injection Hsplit as <- <-.
  split; [exact Hann|].
  assert (last (omap target_name_of (block_lines Demo.hit_2)) = Some "2wga")
    as Hlast by (vm_compute; reflexivity).
  rewrite Hlast in Htid. change (query_name s) with (Some "2UVO:A|PDBID|CHAIN|SEQUENCE") in Hqid.
  split; congruence.
Defined.

(** The second hit of the file read after the first one, and read by an
    iterator that has read no hit: the same record. *)
Lemma hit_is_self_contained_witness :
  ∃ s' s2 s2',
    target_name s' = Some "2uvo_A"
    ∧ hit_read Demo.float_of_string
        (fresh_iterator "2UVO:A|PDBID|CHAIN|SEQUENCE" 8 2)
        (name_line Demo.hit_2) (annotation_line Demo.hit_2)
        (block_lines Demo.hit_2) s2
    ∧ hit_read Demo.float_of_string s'
        (name_line Demo.hit_2) (annotation_line Demo.hit_2)
        (block_lines Demo.hit_2) s2'
    ∧ _create_alignment Demo.Seq_accepts s2'
      = _create_alignment Demo.Seq_accepts s2.
Proof.
  pose (s := fresh_iterator (float:=Demo.float) "2UVO:A|PDBID|CHAIN|SEQUENCE" 8 2).
  pose (after := λ (s : self Demo.float) (h : hit),
          match open_hit Demo.float_of_string s (name_line h) (annotation_line h) with
          | Ok s1 =>
              match accumulate_lines s1 (block_lines h) with
              | Ok s2 => s2
              | Raise _ => s
              end
          | Raise _ => s
          end).
  pose (s1 := match open_hit Demo.float_of_string s
                      (name_line Demo.hit_2) (annotation_line Demo.hit_2) with
              | Ok s1 => s1
              | Raise _ => s
              end).
  pose (s' := after s Demo.hit_1).
  pose (s2 := after s Demo.hit_2).
  assert (hit_read Demo.float_of_string s
            (name_line Demo.hit_2) (annotation_line Demo.hit_2)
            (block_lines Demo.hit_2) s2) as Hread by hit_is_read s1.
  destruct (hit_is_self_contained _ Demo.float_of_string Demo.Seq_accepts
              s s' (name_line Demo.hit_2) (annotation_line Demo.hit_2)
              (block_lines Demo.hit_2) s2) as (s2' & Hread' & Hsame).
  - vm_compute; reflexivity.
  - vm_compute; reflexivity.
  - exact Hread.
  - vm_compute; reflexivity.
  - vm_compute; reflexivity.
  - exists s', s2, s2'.
    split; [vm_compute; reflexivity|].
    split; [exact Hread|]. split; [exact Hread' | exact Hsame].
Defined.


(** The file of two hits: the generator yields the record of the first
    hit, then the record of the second, and returns at the end of the
    stream. *)
Lemma hits_yield_their_records_witness :
  ∃ s r1 r2,
    __init__ Demo.float_of_string Demo.file
    = Ok (s, (concat (hit_stream <$> [Demo.hit_1; Demo.hit_2])
              ++ Demo.text ["Done!"])%list)
    ∧ id (target_record r1) = "2uvo_A"
    ∧ id (target_record r2) = "2wga"
    ∧ parse Demo.float_of_string Demo.Seq_accepts s
        (concat (hit_stream <$> [Demo.hit_1; Demo.hit_2]) ++ Demo.text ["Done!"])
      = Run [r1; r2] Returned [].
Proof.
  pose (s := match __init__ Demo.float_of_string Demo.file with
             | Ok (s, _) => s
             | Raise _ => fresh_iterator "" 0 0
             end).
  pose (s0 := constructed (query_name s) (metadata s) 0).
  pose (opened := λ h : hit,
          match open_hit Demo.float_of_string s0 (name_line h) (annotation_line h) with
          | Ok s1 => s1
          | Raise _ => s0
          end).
  pose (closed := λ h : hit,
          match accumulate_lines (opened h) (block_lines h) with
          | Ok s2 => s2
          | Raise _ => s0
          end).
  pose (nobody := {| seq := {| seq_start := 0; seq_residues := ""; seq_length := 0 |};
                     id := ""; record_annotations := ∅;
                     letter_annotations := ∅ |}).
  pose (record := λ h : hit,
          match _create_alignment Demo.Seq_accepts (closed h) with
          | Ok r => r
          | Raise _ => {| sequences := (nobody, nobody); coordinates := [];
                          alignment_annotations := ∅; column_annotations := ∅ |}
          end).
  exists s, (record Demo.hit_1), (record Demo.hit_2).
  assert (__init__ Demo.float_of_string Demo.file
          = Ok (s, (concat (hit_stream <$> [Demo.hit_1; Demo.hit_2])
                    ++ Demo.text ["Done!"])%list)) as Hinit
    by (vm_compute; reflexivity).
  split; [exact Hinit|].
  split; [vm_compute; reflexivity|]. split; [vm_compute; reflexivity|].
  assert (∀ h, h = Demo.hit_1 ∨ h = Demo.hit_2 →
               hit_gives Demo.float_of_string Demo.Seq_accepts
                 (query_name s) (metadata s) h (record h)) as Hgives.
  { intros h Hh.
    split; [destruct Hh as [->| ->]; vm_compute; reflexivity|].
    split; [destruct Hh as [->| ->]; vm_compute; reflexivity|].
    exists (closed h).
    split; [|destruct Hh as [->| ->]; vm_compute; reflexivity].
    split; [destruct Hh as [->| ->]; vm_compute; reflexivity|].
    split; [destruct Hh as [->| ->]; apply (bool_decide_unpack _);
            vm_compute; exact I|].
    exists (opened h).
    split; destruct Hh as [->| ->]; vm_compute; reflexivity. }
  apply (hits_yield_their_records _ Demo.float_of_string Demo.Seq_accepts
           Demo.file s [Demo.hit_1; Demo.hit_2]
           [record Demo.hit_1; record Demo.hit_2] (Demo.text ["Done!"]) Hinit).
  - vm_compute; reflexivity.
  - discriminate.
  - apply Forall2_cons; split; [apply Hgives; by left|].
    apply Forall2_cons; split; [apply Hgives; by right|].
    by apply Forall2_nil.
  - intros [|[|i]] h Hi; simpl in Hi; [| |discriminate];
      injection Hi as <-;
      (split; [vm_compute; reflexivity|]).
    + exists "No", "1". split; vm_compute; reflexivity.
    + exists "No", "2". split; vm_compute; reflexivity.
  - right. exists ("Done!" +:+ Demo.nl). split; [reflexivity | vm_compute; reflexivity].
Defined.
